(** * django-timetracker: calendar utilities, approval flow and VCS ledger

    A shallow embedding of [timetracker/utils/calendar_utils.py] together
    with the parts of the overtime and VCS applications that its test
    suites exercise.  Python integers are [Z], strings are [string],
    dictionaries are [gmap]s, the ORM tables are finite maps from primary
    keys to records and a raised exception is an explicit outcome. *)

From Stdlib Require Import ZArith Lia Ascii.
From stdpp Require Import gmap strings list fin_maps pretty sorting.

Local Open Scope Z_scope.

(** ** Python's [datetime] and [calendar] modules *)

Module Dates.

(** A [datetime.date]; the [datetime.datetime] objects built by
    [gen_datetime_cal] carry midnight as time and no other information,
    so they are represented by their date. *)
Record date := mkdate { dyear : Z; dmonth : Z; dday : Z }.

#[global] Instance date_eq_dec : EqDecision date.
Proof. solve_decision. Defined.

Definition MINYEAR : Z := 1.
Definition MAXYEAR : Z := 9999.

Definition is_leap (y : Z) : bool :=
  (y mod 4 =? 0) && (negb (y mod 100 =? 0) || (y mod 400 =? 0)).

Definition days_in_month (y m : Z) : Z :=
  match m with
  | 1 | 3 | 5 | 7 | 8 | 10 | 12 => 31
  | 4 | 6 | 9 | 11 => 30
  | 2 => if is_leap y then 29 else 28
  | _ => 0
  end.

(** [datetime._days_before_year] *)
Definition days_before_year (y : Z) : Z :=
  let y1 := y - 1 in y1 * 365 + y1 / 4 - y1 / 100 + y1 / 400.

(** [datetime._days_before_month] *)
Definition days_before_month (y m : Z) : Z :=
  match m with
  | 1 => 0 | 2 => 31 | 3 => 59 | 4 => 90 | 5 => 120 | 6 => 151
  | 7 => 181 | 8 => 212 | 9 => 243 | 10 => 273 | 11 => 304 | 12 => 334
  | _ => 0
  end + (if (2 <? m) && is_leap y then 1 else 0).

Definition valid_month (y m : Z) : bool :=
  (MINYEAR <=? y) && (y <=? MAXYEAR) && (1 <=? m) && (m <=? 12).

(** The check made by the [date] and [datetime] constructors, which
    raise [ValueError] when it fails. *)
Definition valid_date (y m d : Z) : bool :=
  valid_month y m && (1 <=? d) && (d <=? days_in_month y m).

Definition toordinal (d : date) : Z :=
  days_before_year (dyear d) + days_before_month (dyear d) (dmonth d) + dday d.

(** Monday is 0. *)
Definition weekday (d : date) : Z := (toordinal d + 6) mod 7.

(** Monday is 1, Sunday is 7. *)
Definition isoweekday (d : date) : Z := weekday d + 1.

(** [calendar.monthrange]: weekday of the first day, and number of days. *)
Definition monthrange (y m : Z) : Z * Z :=
  (weekday (mkdate y m 1), days_in_month y m).

(** [range(lo, lo + n)] *)
Fixpoint zrange (lo : Z) (n : nat) : list Z :=
  match n with
  | O => []
  | S n' => lo :: zrange (lo + 1) n'
  end.

(** [calendar.Calendar(firstweekday=0).itermonthdays]: the days of the
    month, padded with zeros to whole weeks. *)
Definition itermonthdays (y m : Z) : list Z :=
  let '(day1, ndays) := monthrange y m in
  let days_before := day1 mod 7 in
  let days_after := (0 - day1 - ndays) mod 7 in
  replicate (Z.to_nat days_before) 0
    ++ zrange 1 (Z.to_nat ndays)
    ++ replicate (Z.to_nat days_after) 0.

(** [[days[i:i+n] for i in range(0, len(days), n)]] *)
Fixpoint chunks {A} (fuel n : nat) (l : list A) : list (list A) :=
  match fuel with
  | O => []
  | S fuel' =>
      match l with
      | [] => []
      | _ => take n l :: chunks fuel' n (drop n l)
      end
  end.

(** [calendar.monthcalendar]; [None] stands for the exception raised on
    a month or year out of range. *)
Definition monthcalendar (y m : Z) : option (list (list Z)) :=
  if valid_month y m then
    let days := itermonthdays y m in
    Some (chunks (length days) 7 days)
  else None.

Definition date_lt (a b : date) : Prop := toordinal a < toordinal b.

End Dates.

Import Dates.

(** ** [gen_datetime_cal] and [working_days] *)

(** [gen_datetime_cal]: the weeks of [calendar.monthcalendar] are flattened,
    the zero padding is filtered out and every remaining day becomes a
    [datetime]. *)
Definition gen_datetime_cal (y m : Z) : option (list date) :=
  weeks ← monthcalendar y m;
  let days := concat weeks in
  let days := filter (λ x, 0 < x) days in
  Some (map (λ d, mkdate y m d) days).

Definition working_days (y m : Z) : option (list date) :=
  days ← gen_datetime_cal y m;
  Some (filter (λ d, isoweekday d < 5) days).

(** ** Python strings and built-ins *)

Module Py.

Definition dq : string := String "034"%char EmptyString.
Definition nl : string := String "010"%char EmptyString.
Definition tab : string := String "009"%char EmptyString.

(** [''.join(l)] *)
Definition cat (l : list string) : string := foldr String.app EmptyString l.

(** [sep.join(l)] *)
Fixpoint join (sep : string) (l : list string) : string :=
  match l with
  | [] => EmptyString
  | [x] => x
  | x :: l' => x +:+ sep +:+ join sep l'
  end.

(** [s.split(c)] for a separator of one character; [cur] is the current
    piece, reversed. *)
Fixpoint split_go (c : ascii) (cur : string) (s : string) : list string :=
  match s with
  | EmptyString => [String.rev cur]
  | String a s' =>
      if decide (a = c) then String.rev cur :: split_go c EmptyString s'
      else split_go c (String a cur) s'
  end.
Definition split (c : ascii) (s : string) : list string :=
  split_go c EmptyString s.

(** [s[0:n]] *)
Fixpoint slice_to (n : nat) (s : string) : string :=
  match n, s with
  | S n', String a s' => String a (slice_to n' s')
  | _, _ => EmptyString
  end.

(** [str(n)], and [%s], [%d] and [{}] applied to an integer. *)
Definition str_int (z : Z) : string := pretty z.

(** [%02d] and [%04d] for the non-negative numbers of dates and times. *)
Definition zfill (width : nat) (z : Z) : string :=
  let s := pretty z in
  cat (replicate (width - String.length s) "0") +:+ s.

(** The truth value of an optional string: [None] and the empty string
    are false. *)
Definition truthy (o : option string) : bool :=
  match o with
  | None | Some EmptyString => false
  | Some _ => true
  end.

(** [str(x)] for a value that is [None] or a string. *)
Definition str_opt (o : option string) : string :=
  match o with None => "None" | Some s => s end.

Definition digit_of (c : ascii) : option Z :=
  let n := Z.of_N (N_of_ascii c) in
  if (48 <=? n) && (n <=? 57) then Some (n - 48) else None.

Fixpoint digits_go (acc : Z) (s : string) : option Z :=
  match s with
  | EmptyString => Some acc
  | String c s' => d ← digit_of c; digits_go (acc * 10 + d) s'
  end.

Definition digits (s : string) : option Z :=
  match s with
  | EmptyString => None
  | _ => digits_go 0 s
  end.

Fixpoint lstrip (s : string) : string :=
  match s with
  | String c s' => if Ascii.is_space c then lstrip s' else s
  | EmptyString => EmptyString
  end.

Definition strip (s : string) : string :=
  String.rev (lstrip (String.rev (lstrip s))).

(** [int(s)] on a string: surrounding white space, an optional sign and
    decimal digits; [None] stands for [ValueError]. *)
Definition int (s : string) : option Z :=
  match strip s with
  | String "+"%char r => digits r
  | String "-"%char r => Z.opp <$> digits r
  | r => digits r
  end.

(** [needle in hay] *)
Definition contains (needle hay : string) : bool :=
  bool_decide (is_Some (String.index 0 needle hay)).

End Py.

(** ** [datetime.time] and the string forms of dates and times *)

Record time := mktime { hour : Z; minute : Z; second : Z }.

#[global] Instance time_eq_dec : EqDecision time.
Proof. solve_decision. Defined.

(** [datetime.time(h, m)] raises [ValueError] outside these ranges. *)
Definition valid_time (h m : Z) : bool :=
  (0 <=? h) && (h <=? 23) && (0 <=? m) && (m <=? 59).

Definition time_lt (a b : time) : bool :=
  (hour a * 3600 + minute a * 60 + second a
   <? hour b * 3600 + minute b * 60 + second b).

(** [str(t)] for a time without microseconds. *)
Definition str_time (t : time) : string :=
  Py.cat [Py.zfill 2 (hour t); ":"; Py.zfill 2 (minute t); ":";
          Py.zfill 2 (second t)].

(** [str(d)] for a date. *)
Definition str_date (d : date) : string :=
  Py.cat [Py.zfill 4 (dyear d); "-"; Py.zfill 2 (dmonth d); "-";
          Py.zfill 2 (dday d)].

(** ** The tables of [timetracker.tracker.models] *)

(** A row of [Tbluser], with the columns that [get_user_data] reads. *)
Record Tbluser := {
  usr_id : Z;
  usr_user_id : string;
  usr_firstname : string;
  usr_lastname : string;
  usr_market : string;
  usr_process : string;
  usr_user_type : string;
  usr_start_date : date;
  usr_breaklength : time;
  usr_shiftlength : time;
  usr_job_code : string;
  usr_holiday_balance : Z;
  usr_disabled : bool;
}.

(** A [TrackingEntry] object.  [te_id] is [None] until the object has been
    saved; [te_user] and [te_link] are foreign keys. *)
Record TrackingEntry := {
  te_id : option Z;
  te_user : Z;
  te_entry_date : date;
  te_start_time : time;
  te_end_time : time;
  te_breaks : time;
  te_daytype : string;
  te_comments : string;
  te_link : option Z;
}.

#[global] Instance Tbluser_eq_dec : EqDecision Tbluser.
Proof. solve_decision. Defined.
#[global] Instance TrackingEntry_eq_dec : EqDecision TrackingEntry.
Proof. solve_decision. Defined.

(** A message of [django.core.mail]. *)
Record EmailMessage := {
  subject : string;
  body : string;
  recipients : list string;
  attachments : list string;
}.

(** A [PendingApproval] of [timetracker.overtime.models]: the tracking
    entry awaiting a decision and the manager who decides. *)
Record PendingApproval := {
  pa_entry : Z;
  pa_approver : Z;
}.

(** The database. [entry_seq] is the next primary key of the tracking
    entry table. *)
Record DB := {
  users : gmap Z Tbluser;
  entries : gmap Z TrackingEntry;
  entry_seq : Z;
  approvals : list PendingApproval;
}.

(** What [django.core.cache] stores for the holiday table: a row, or the
    pair of strings for the day cells. *)
Inductive cache_value :=
| CStr (s : string)
| CPair (js out : string).

#[global] Instance cache_value_eq_dec : EqDecision cache_value.
Proof. solve_decision. Defined.

(** Everything a view can read or change. *)
Record World := {
  db : DB;
  cache : gmap string cache_value;
  outbox : list EmailMessage;
  logs : list string;
  today : date;
}.

Definition set_db (f : DB → DB) (w : World) : World :=
  {| db := f (db w); cache := cache w; outbox := outbox w;
     logs := logs w; today := today w |}.
Definition set_cache (f : gmap string cache_value → gmap string cache_value)
    (w : World) : World :=
  {| db := db w; cache := f (cache w); outbox := outbox w;
     logs := logs w; today := today w |}.
Definition set_outbox (f : list EmailMessage → list EmailMessage)
    (w : World) : World :=
  {| db := db w; cache := cache w; outbox := f (outbox w);
     logs := logs w; today := today w |}.
Definition set_logs (f : list string → list string) (w : World) : World :=
  {| db := db w; cache := cache w; outbox := outbox w;
     logs := f (logs w); today := today w |}.

Definition set_users (f : gmap Z Tbluser → gmap Z Tbluser) (d : DB) : DB :=
  {| users := f (users d); entries := entries d; entry_seq := entry_seq d;
     approvals := approvals d |}.
Definition set_entries (f : gmap Z TrackingEntry → gmap Z TrackingEntry)
    (d : DB) : DB :=
  {| users := users d; entries := f (entries d); entry_seq := entry_seq d;
     approvals := approvals d |}.
Definition set_entry_seq (n : Z) (d : DB) : DB :=
  {| users := users d; entries := entries d; entry_seq := n;
     approvals := approvals d |}.

(** ** Exceptions and the monad of views *)

Inductive model := MTbluser | MTrackingEntry.

#[global] Instance model_eq_dec : EqDecision model.
Proof. solve_decision. Defined.

Inductive exn :=
| DoesNotExist (m : model)
| MultipleObjectsReturned
| IntegrityError (msg : string)
| ValidationError (msg : string)
| ValueError
| KeyError (key : string)
| TypeError
| AttributeError
| IndexError
| AssertionError
| OverflowError
| Http404.

(** [str(error)] *)
Definition str_exn (e : exn) : string :=
  match e with
  | DoesNotExist MTbluser => "Tbluser matching query does not exist."
  | DoesNotExist MTrackingEntry => "TrackingEntry matching query does not exist."
  | MultipleObjectsReturned => "get() returned more than one object"
  | IntegrityError msg => msg
  | ValidationError msg => msg
  | ValueError => "invalid literal"
  | KeyError key => key
  | TypeError => "TypeError"
  | AttributeError => "AttributeError"
  | IndexError => "IndexError"
  | AssertionError => "AssertionError"
  | OverflowError => "OverflowError"
  | Http404 => "Http404"
  end.

Inductive outcome (A : Type) :=
| Ok (a : A)
| Raise (e : exn).
Arguments Ok {A} a.
Arguments Raise {A} e.

(** A computation runs in a world, returns or raises, and leaves a world
    behind: what was written before an exception stays written. *)
Definition M (A : Type) : Type := World → outcome A * World.

Definition ret {A} (a : A) : M A := λ w, (Ok a, w).
Definition raise {A} (e : exn) : M A := λ w, (Raise e, w).
Definition bind {A B} (c : M A) (k : A → M B) : M B :=
  λ w, match c w with
       | (Ok a, w') => k a w'
       | (Raise e, w') => (Raise e, w')
       end.
(** [try: c except Exception as e: h e] *)
Definition try_except {A} (c : M A) (h : exn → M A) : M A :=
  λ w, match c w with
       | (Ok a, w') => (Ok a, w')
       | (Raise e, w') => h e w'
       end.
Definition get_world : M World := λ w, (Ok w, w).
Definition modify (f : World → World) : M unit := λ w, (Ok tt, f w).
Definition lift {A} (o : outcome A) : M A := λ w, (o, w).
Definition or_raise {A} (e : exn) (o : option A) : M A :=
  match o with Some a => ret a | None => raise e end.

Notation "'let*' x ':=' c 'in' k" := (bind c (λ x, k))
  (at level 10, x pattern, c at level 100, k at level 200,
   format "'[v' 'let*'  x  ':='  c  'in' '/' k ']'").
Notation "c '>>' k" := (bind c (λ _, k))
  (at level 100, k at level 200, right associativity).

(** A loop [for x in l: body x]. *)
Fixpoint for_each {A} (l : list A) (body : A → M unit) : M unit :=
  match l with
  | [] => ret tt
  | x :: l' => body x >> for_each l' body
  end.

(** ** The ORM *)

(** [Model.objects.get(...)] over a table: exactly one row must match. *)
Definition objects_get {A} (m : model) (P : A → bool) (tbl : gmap Z A)
    : outcome A :=
  match map_to_list (filter (λ kv : Z * A, P kv.2 = true) tbl) with
  | [] => Raise (DoesNotExist m)
  | [(_, a)] => Ok a
  | _ => Raise MultipleObjectsReturned
  end.

(** [Model.objects.get(id=s)] with the key as it arrives in a request: the
    ORM converts it with [int]. *)
Definition get_by_pk {A} (m : model) (s : string) (tbl : gmap Z A)
    : outcome A :=
  match Py.int s with
  | None => Raise ValueError
  | Some k => match tbl !! k with
              | Some a => Ok a
              | None => Raise (DoesNotExist m)
              end
  end.

(** ** Code of the repository that this file takes as given

    The methods of the models ([timetracker.tracker.models]), the field
    conversions of the ORM and the tables and helpers of
    [timetracker.utils.datemaps] are used by the views below but are not
    part of them.  They are taken as parameters; each method is assumed to
    return normally. *)

Class Models := {
  (** [Tbluser] *)
  name : Tbluser → string;
  get_holiday_balance : DB → Tbluser → Z → string;
  get_dod_balance : DB → Tbluser → Z → string;
  get_job_code_display : Tbluser → string;
  can_view_jobcodes : Tbluser → bool;
  get_subordinates : DB → Tbluser → list Tbluser;
  tracking_entries : DB → Tbluser → Z → Z → list TrackingEntry;
  get_shiftlength_list : Tbluser → time * time * time;
  shouldnotifysick : DB → Tbluser → TrackingEntry → bool;
  sendsicknotification : Tbluser → World → World;
  (** what deleting a user removes besides the user *)
  delete_cascade : Tbluser → DB → DB;
  (** [TrackingEntry] *)
  is_linked : DB → TrackingEntry → bool;
  unlink : TrackingEntry → World → TrackingEntry * World;
  is_undertime : DB → TrackingEntry → bool;
  create_approval_request : TrackingEntry → World → World;
  (** the validation of [full_clean], once the fields have been converted;
      [Some msg] is a [ValidationError] *)
  validate : DB → TrackingEntry → option string;
  (** the constraints checked by [save]; [Some msg] is an
      [IntegrityError] *)
  constraint_violation : DB → TrackingEntry → option string;
  (** [DateField.to_python] and [TimeField.to_python] on strings *)
  DateField_to_python : string → option date;
  TimeField_to_python : string → option time;
}.

Class Datemaps := {
  MONTH_MAP : gmap Z (string * string);
  WEEK_MAP_SHORT : gmap Z string;
  PROCESS_CHOICES : list (string * string);
  generate_select : list (string * string) → string → string;
  generate_year_box : Z → string → string;
  pad : Z → string;
}.

(** The world after the row [e] has been inserted under the next primary
    key. *)
Definition inserted (e : TrackingEntry) (w : World) : World :=
  set_db (λ d, set_entry_seq (entry_seq d + 1)
                 (set_entries <[entry_seq d := e]> d)) w.

Definition with_id (k : option Z) (e : TrackingEntry) : TrackingEntry :=
  {| te_id := k; te_user := te_user e; te_entry_date := te_entry_date e;
     te_start_time := te_start_time e; te_end_time := te_end_time e;
     te_breaks := te_breaks e; te_daytype := te_daytype e;
     te_comments := te_comments e; te_link := te_link e |}.

Section ORM.
Context `{Models}.

(** [entry.save()]: an insert with a fresh primary key for a new object,
    an update of the row otherwise.  Returns the object, which now has
    its key. *)
Definition save (e : TrackingEntry) : M TrackingEntry := λ w,
  match constraint_violation (db w) e with
  | Some msg => (Raise (IntegrityError msg), w)
  | None =>
      match te_id e with
      | Some k => (Ok e, set_db (set_entries <[k := e]>) w)
      | None =>
          let e' := with_id (Some (entry_seq (db w))) e in
          (Ok e', inserted e' w)
      end
  end.

(** [entry.delete()] *)
Definition delete (e : TrackingEntry) : M unit := λ w,
  match te_id e with
  | Some k => (Ok tt, set_db (set_entries (base.delete k)) w)
  | None => (Raise AssertionError, w)
  end.

(** [user.delete()] *)
Definition delete_Tbluser (u : Tbluser) : M unit :=
  modify (set_db (λ d, delete_cascade u (set_users (base.delete (usr_id u)) d))).

(** [entry.unlink()] as a statement: the object is rebound to its new
    state. *)
Definition do_unlink (e : TrackingEntry) : M TrackingEntry := λ w,
  let '(e', w') := unlink e w in (Ok e', w').

End ORM.

(** ** [gen_calendar] *)

Section Calendar_html.
Context `{Models} `{Datemaps}.
Import Py.

(** The queryset
    [TrackingEntry.objects.filter(user=u, entry_date__year=y,
    entry_date__month=m)]. *)
Definition month_entries (d : DB) (u y m : Z) : gmap Z TrackingEntry :=
  filter (λ kv : Z * TrackingEntry,
            te_user kv.2 = u ∧ dyear (te_entry_date kv.2) = y
            ∧ dmonth (te_entry_date kv.2) = m)
         (entries d).

(** [data.link]: the row that the foreign key points to. *)
Definition resolve_link (d : DB) (e : TrackingEntry) : option TrackingEntry :=
  l ← te_link e; entries d !! l.

(** [data.link.entry_date if data.is_linked() and data.daytype != "LINKD"
    else ""], as the text that [format] inserts. *)
Definition link_text (d : DB) (data : TrackingEntry) : outcome string :=
  if is_linked d data && negb (bool_decide (te_daytype data = "LINKD")) then
    match te_link data with
    | None => Raise AttributeError
    | Some _ =>
        match resolve_link d data with
        | Some l => Ok (str_date (te_entry_date l))
        | None => Raise (DoesNotExist MTrackingEntry)
        end
    end
  else Ok EmptyString.

(** The table cell of one day of one week; [_day] is 0 for the padding
    of the first and last week.  The entry of the day is fetched and its
    values, the date of its link among them, are read inside one [try]:
    [DoesNotExist] from either draws the cell of a day without entry. *)
Definition calendar_cell (d : DB) (database : gmap Z TrackingEntry)
    (year month _day : Z) : outcome string :=
  let emptyclass :=
    if decide (_day ≠ 0) then "day-class empty-day" else "empty" in
  let entry_date_string :=
    if decide (_day ≠ 0) then join "-" (map pad [year; month; _day])
    else EmptyString in
  let day_text := if decide (_day = 0) then "&nbsp" else str_int _day in
  let empty_cell :=
    cat [tab; tab; tab; tab; "<td onclick="; dq; "hideEntries('";
         entry_date_string; "')"; dq; nl;
         "                    class="; dq; emptyclass; dq; ">";
         day_text; "</td>"; nl] in
  match objects_get MTrackingEntry
                    (λ e, bool_decide (dday (te_entry_date e) = _day))
                    database with
  | Ok data =>
      match link_text d data with
      | Ok linked =>
          let a0 := str_int (hour (te_start_time data)) in
          let a1 := str_int (minute (te_start_time data)) in
          let a2 := slice_to 5 (str_time (te_start_time data)) in
          let a3 := str_int (hour (te_end_time data)) in
          let a4 := str_int (minute (te_end_time data)) in
          let a5 := slice_to 5 (str_time (te_end_time data)) in
          let a6 := str_date (te_entry_date data) in
          let a7 := te_daytype data in
          let a8 := str_int _day in
          let a9 := from_option str_int "None" (te_id data) in
          let a10 := str_int (minute (te_breaks data)) in
          let a11 := slice_to 5 (str_time (te_breaks data)) in
          let a12 := linked in
          Ok (cat [tab; tab; tab; tab; nl;
                   "                       <td onclick="; dq;
                   "toggleChangeEntries("; a0; ", "; a1; ", '"; a2; "',"; nl;
                   "                                                        ";
                   a3; ", "; a4; ", '"; a5; "',"; nl;
                   "                                                        '";
                   a6; "', '"; a7; "', "; a9; ","; nl;
                   "                                                        ";
                   a10; ", '"; a11; "', '"; a12; "')"; dq; nl;
                   "                           class="; dq; "day-class ";
                   a7; dq; ">"; a8; "</td>"; nl])
      | Raise (DoesNotExist MTrackingEntry) => Ok empty_cell
      | Raise e => Raise e
      end
  | Raise (DoesNotExist MTrackingEntry) => Ok empty_cell
  | Raise e => Raise e
  end.

(** The rows of one week, appended to the output so far. *)
Fixpoint calendar_week (d : DB) (database : gmap Z TrackingEntry)
    (year month : Z) (week_ : list Z) : outcome (list string) :=
  match week_ with
  | [] => Ok []
  | _day :: rest =>
      match calendar_cell d database year month _day with
      | Raise e => Raise e
      | Ok cell =>
          match calendar_week d database year month rest with
          | Raise e => Raise e
          | Ok cells => Ok (cell :: cells)
          end
      end
  end.

Fixpoint calendar_weeks (d : DB) (database : gmap Z TrackingEntry)
    (year month : Z) (calendar_array : list (list Z))
    : outcome (list string) :=
  match calendar_array with
  | [] => Ok []
  | week_ :: rest =>
      match calendar_week d database year month week_ with
      | Raise e => Raise e
      | Ok cells =>
          match calendar_weeks d database year month rest with
          | Raise e => Raise e
          | Ok more =>
              Ok (cat [nl; tab; tab; tab; "<tr>"; nl] :: cells
                    ++ cat [tab; tab; tab; "</tr>"; nl] :: more)
          end
      end
  end.

(** [gen_calendar(year, month, day, user)]; an argument left out is
    [None] and is taken from today's date.  The [calendar_wrapper]
    decorator hands a call with explicit arguments to this function
    unchanged. *)
Definition gen_calendar (year month day : option Z) (user : Z) : M string :=
  let* w := get_world in
  let year := default (dyear (today w)) year in
  let month := default (dmonth (today w)) month in
  let day := default (dday (today w)) day in
  if decide (is_Some (MONTH_MAP !! (month - 1))) then
    let next_url :=
      if decide (month + 1 = 13)
      then cat [dq; "/calendar/"; str_int (year + 1); "/"; str_int 1; dq]
      else cat [dq; "/calendar/"; str_int year; "/"; str_int (month + 1); dq] in
    let previous_url :=
      if decide (month - 1 = 0)
      then cat [dq; "/calendar/"; str_int (year - 1); "/"; str_int 12; dq]
      else cat [dq; "/calendar/"; str_int year; "/"; str_int (month - 1); dq] in
    let* database :=
      or_raise (DoesNotExist MTbluser) (users (db w) !! user) in
    let database := month_entries (db w) (usr_id database) year month in
    let* calendar_array := or_raise ValueError (monthcalendar year month) in
    let* month_name :=
      or_raise (KeyError (str_int (month - 1)))
               (snd <$> MONTH_MAP !! (month - 1)) in
    let* rows := lift (calendar_weeks (db w) database year month calendar_array) in
    ret (cat ([cat ["<table id="; dq; "calendar"; dq; " border="; dq; "1"; dq;
                    ">"; nl; tab; tab; tab];
               cat ["<tr>"; nl; "                <td class="; dq;
                    "table-header"; dq; " colspan="; dq; "2"; dq; ">"; nl;
                    "                  <a class="; dq; "table-links"; dq;
                    " href="; previous_url; ">&lt;</a>"; nl;
                    "                </td>"; nl; nl;
                    "                <td class="; dq; "table-header"; dq;
                    " colspan="; dq; "3"; dq; ">"; month_name; "</td>"; nl; nl;
                    "                <td class="; dq; "table-header"; dq;
                    " colspan="; dq; "2"; dq; ">"; nl;
                    "                  <a class="; dq; "table-links"; dq;
                    " href="; next_url; ">&gt;</a>"; nl;
                    "                </td>"; nl; "              </tr>"; nl];
               cat [nl; tab; tab; tab; "<tr>"; nl;
                    "                <td class=day-names>Mon</td>"; nl;
                    "                <td class=day-names>Tue</td>"; nl;
                    "                <td class=day-names>Wed</td>"; nl;
                    "                <td class=day-names>Thu</td>"; nl;
                    "                <td class=day-names>Fri</td>"; nl;
                    "                <td class=day-names>Sat</td>"; nl;
                    "                <td class=day-names>Sun</td>"; nl;
                    "              </tr>"; nl]]
              ++ rows ++ [cat [nl; "</table>"]]))
  else raise Http404.

End Calendar_html.

(** ** [gen_holiday_list] *)

Definition cache_get (key : string) : M (option cache_value) :=
  λ w, (Ok (cache w !! key), w).
Definition cache_set (key : string) (v : cache_value) : M unit :=
  modify (set_cache <[key := v]>).

Section Holiday_table.
Context `{Models} `{Datemaps}.
Import Py.

(** The output under construction: [str_output], [comments_list] and
    [js_calendar]; [ho_bad] records that an object which is not a string
    was appended to [str_output], which makes the final [join] raise. *)
Record holiday_out := {
  str_output : list string;
  comments_list : list string;
  js_calendar : list string;
  ho_bad : bool;
}.

Definition to_out (s : string) (o : holiday_out) : holiday_out :=
  {| str_output := str_output o ++ [s]; comments_list := comments_list o;
     js_calendar := js_calendar o; ho_bad := ho_bad o |}.
Definition to_js (s : string) (o : holiday_out) : holiday_out :=
  {| str_output := str_output o; comments_list := comments_list o;
     js_calendar := js_calendar o ++ [s]; ho_bad := ho_bad o |}.
Definition to_comments (s : string) (o : holiday_out) : holiday_out :=
  {| str_output := str_output o; comments_list := comments_list o ++ [s];
     js_calendar := js_calendar o; ho_bad := ho_bad o |}.
Definition to_out_bad (o : holiday_out) : holiday_out :=
  {| str_output := str_output o; comments_list := comments_list o;
     js_calendar := js_calendar o; ho_bad := true |}.

Definition isweekend (year month num : Z) : string :=
  if decide (6 ≤ isoweekday (mkdate year month num)) then "WKEND" else "empty".

Definition row_key (uid year : Z) : string :=
  cat ["holidaytablerow"; str_int uid; str_int year].
Definition fields_key (uid year month : Z) : string :=
  cat ["holidayfields:"; str_int uid; str_int year; str_int month].

(** The dictionary of day classes of one user, and the comments found on
    the way. *)
Fixpoint apply_entries (d : DB) (l : list TrackingEntry)
    (day_classes : gmap Z string) (o : holiday_out)
    : outcome (gmap Z string * holiday_out) :=
  match l with
  | [] => Ok (day_classes, o)
  | entry :: rest =>
      let day_classes :=
        <[dday (te_entry_date entry) := te_daytype entry]> day_classes in
      if decide (te_comments entry ≠ EmptyString) then
        match users d !! te_user entry with
        | None => Raise (DoesNotExist MTbluser)
        | Some u =>
            let comment_string :=
              [str_date (te_entry_date entry); name u; te_comments entry] in
            apply_entries d rest day_classes
                          (to_comments (join " " comment_string) o)
        end
      else apply_entries d rest day_classes o
  end.

(** The title cells of a user's row, as generated when no row is
    cached. *)
Definition holiday_row (d : DB) (admin_user user : Tbluser) (year : Z)
    : string :=
  let uid := str_int (usr_id user) in
  cat [nl; "            <tr id="; dq; uid; "_row"; dq; ">"; nl;
       "            <th onclick="; dq; "highlight_row("; uid; ")"; dq;
       " class="; dq; "user-td"; dq; ">"; name user; "</th>"; nl;
       "            <td>"; get_holiday_balance d user year; "</td>"; nl;
       "            <td>"; get_dod_balance d user year;
       "</td>"; nl; "            <td class="; dq; "job_code"; dq; ">";
       (if can_view_jobcodes admin_user then get_job_code_display user
        else EmptyString);
       "</td>"].

(** [sorted(day_classes.items())]: the keys of a dictionary differ, so
    the order of the pairs is the order of their keys. *)
Definition item_le (a b : Z * string) : Prop := a.1 ≤ b.1.
#[global] Instance item_le_dec : RelDecision item_le.
Proof. intros a b. unfold item_le. apply _. Defined.

Definition sorted_items (day_classes : gmap Z string) : list (Z * string) :=
  merge_sort item_le (map_to_list day_classes).

(** The day cells of a user, as generated when none are cached: the
    text for the script and the text for the table. *)
Fixpoint holiday_fields (uid : Z) (n : nat) (iidx : nat)
    (entries : list (Z * string)) : string * string :=
  match entries with
  | [] => (EmptyString, EmptyString)
  | (klass, day) :: rest =>
      let '(text_js, text_out) := holiday_fields uid n (S iidx) rest in
      (cat [dq; (if decide (day ≠ "WKEND") then day else "empty"); dq;
            (if decide (S iidx ≠ n) then "," else "]")] +:+ text_js,
       cat ["<td usrid="; str_int uid; " class="; day; ">"; str_int klass; nl]
         +:+ text_out)
  end.

(** The body of the loop over [user_list]. *)
Definition holiday_user (admin_user : Tbluser) (year month : Z)
    (calendar_array : list Z) (n_users : nat) (idx : nat) (user : Tbluser)
    (o : holiday_out) : M holiday_out :=
  let* w := get_world in
  let day_classes :=
    foldl (λ m num, <[num := isweekend year month num]> m) ∅ calendar_array in
  let* (day_classes, o) :=
    lift (apply_entries (db w) (tracking_entries (db w) user year month)
                        day_classes o) in
  let* cached_result := cache_get (row_key (usr_id user) year) in
  let* o :=
    match cached_result with
    | Some (CStr (String a s)) => ret (to_out (String a s) o)
    | Some (CPair _ _) => ret (to_out_bad o)
    | Some (CStr EmptyString) | None =>
        let row := holiday_row (db w) admin_user user year in
        cache_set (row_key (usr_id user) year) (CStr row) >>
        ret (to_out row o)
    end in
  let o := to_js (cat [dq; str_int (usr_id user); dq; ":["; dq; "empty"; dq; ","]) o in
  let entries := sorted_items day_classes in
  let* cached_text := cache_get (fields_key (usr_id user) year month) in
  let* o :=
    match cached_text with
    | Some (CPair text_js text_out) => ret (to_out text_out (to_js text_js o))
    | Some (CStr (String a (String b _))) =>
        ret (to_out (String b EmptyString) (to_js (String a EmptyString) o))
    | Some (CStr (String a EmptyString)) => raise IndexError
    | Some (CStr EmptyString) | None =>
        let '(text_js, text_out) :=
          holiday_fields (usr_id user) (length entries) 0 entries in
        cache_set (fields_key (usr_id user) year month)
                  (CPair text_js text_out) >>
        ret (to_out text_out (to_js text_js o))
    end in
  let o :=
    if decide (usr_user_type admin_user ≠ "RUSER") then
      let uid := str_int (usr_id user) in
      to_out "</tr>"
        (to_out (cat ["<td>"; nl; "                    <input value="; dq;
                      "submit"; dq; " type="; dq; "button"; dq; " user_id=";
                      dq; uid; dq; nl;
                      "                           onclick="; dq;
                      "submit_holidays("; uid; ")"; dq; " />"; nl;
                      "                  </td>"]) o)
    else o in
  ret (to_js (if decide (S idx ≠ n_users) then "," +:+ nl else EmptyString) o).

Fixpoint holiday_users (admin_user : Tbluser) (year month : Z)
    (calendar_array : list Z) (n_users : nat) (idx : nat)
    (user_list : list Tbluser) (o : holiday_out) : M holiday_out :=
  match user_list with
  | [] => ret o
  | user :: rest =>
      let* o := holiday_user admin_user year month calendar_array
                             n_users idx user o in
      holiday_users admin_user year month calendar_array n_users (S idx) rest o
  end.

Definition gen_holiday_list (admin_user : Tbluser) (year month : option Z)
    (process : option string) : M (string * list string * string) :=
  let* w := get_world in
  let year := default (dyear (today w)) year in
  let month := default (dmonth (today w)) month in
  let o := {| str_output := []; comments_list := []; js_calendar := [];
              ho_bad := false |} in
  let o := to_out (cat ["<table year="; str_int year; " month=";
                        str_int month; " process="; str_opt process; " id=";
                        dq; "holiday-table"; dq; ">"]) o in
  let* month_name :=
    or_raise (KeyError (str_int (month - 1)))
             (snd <$> MONTH_MAP !! (month - 1)) in
  let o := to_out (cat ["<tr>"; nl; "                 <th align="; dq;
                        "centre"; dq; " colspan="; dq; "100"; dq; ">";
                        month_name; "</th>"; nl; "              </tr>"]) o in
  let* datetime_cal := or_raise ValueError (gen_datetime_cal year month) in
  let calendar_array := map dday datetime_cal in
  let* day_names :=
    or_raise (KeyError "weekday")
             (mapM (λ day, WEEK_MAP_SHORT !! weekday day) datetime_cal) in
  let o := to_out (cat ["<tr id="; dq; "theader"; dq; ">"; "<td>Name</td>";
                        "<td>Balance</td>"; "<td>DOD</td>"; "<td>Code</td>"]) o in
  let o := foldl (λ o day, to_out (cat ["<td>"; day; "</td>"; nl]) o) o day_names in
  let o := to_out "</tr>" o in
  let user_list :=
    if truthy process
    then filter (λ u, Some (usr_process u) = process)
                (get_subordinates (db w) admin_user)
    else get_subordinates (db w) admin_user in
  let o := to_js ("{" +:+ nl) o in
  let* o := holiday_users admin_user year month calendar_array
                          (length user_list) 0 user_list o in
  let o := to_js (nl +:+ "}") o in
  let month_select_data :=
    map (λ kv : Z * (string * string), (str_int (kv.1 + 1), kv.2.2))
        (map_to_list MONTH_MAP) in
  let year_select := generate_year_box year "year_select" in
  let month_select := generate_select month_select_data "month_select" in
  let process_select :=
    if decide (usr_user_type admin_user ≠ "RUSER")
    then cat ["<td>";
              generate_select (("ALL", "All") :: PROCESS_CHOICES) "process_select";
              "</td>"]
    else EmptyString in
  let submit_all :=
    if decide (usr_user_type admin_user ≠ "RUSER")
    then cat ["<td>"; nl; "                      <input id="; dq;
              "submit_all"; dq; " value="; dq; "Submit All"; dq; " type=";
              dq; "button"; dq; nl; "                       onclick="; dq;
              "submit_all()"; dq; " />"; nl; "                    </td>"]
    else EmptyString in
  let o := to_out
    (cat [nl; "    <tr>"; nl; "      <td colspan="; dq; "100"; dq; ">"; nl;
          "        <table>"; nl; "          <tr>"; nl;
          "            <td align="; dq; "right"; dq; ">"; nl;
          "              <input id="; dq; "btn_change_td"; dq; " value="; dq;
          "Reload"; dq; " type="; dq; "button"; dq; nl;
          "               onclick="; dq; "change_table_data()"; dq; " />"; nl;
          "            </td>"; nl; "            <td>"; year_select; "</td>";
          nl; "            <td>"; month_select; "</td>"; nl; "            ";
          process_select; nl; "            "; submit_all; nl;
          "          </tr>"; nl; "        </table>"; nl; "      </td>"; nl;
          "     </tr>"]) o in
  if ho_bad o then raise TypeError
  else ret (cat (str_output o), comments_list o, cat (js_calendar o)).

End Holiday_table.

(** ** Requests and responses *)

(** A request: the POST data and the session.  The session holds the id of
    the user who is logged in. *)
Record Request := {
  POST : gmap string string;
  session : gmap string Z;
}.

(** The dictionary [json_data] that the views return; the [json_response]
    decorator serialises it. *)
Record json_data := {
  success : bool;
  error : string;
  calendar : option string;
}.

Definition error_log (msg : string) : M unit := modify (set_logs (λ l, l ++ [msg])).
Definition suspicious_log (msg : string) : M unit :=
  modify (set_logs (λ l, l ++ [msg])).

(** [SUSPICIOUS_DATE_DIFF], in days *)
Definition SUSPICIOUS_DATE_DIFF : Z := 60.

(** [get_request_data]: every key of the form is filled from the POST data,
    [None] when it is absent, and [user_id] is set last to the id of the
    session, over whatever was posted under that key.  The values of the
    dictionary are strings or [None], but for [user_id], which is a
    number: the dictionary is given as its entries other than [user_id]
    and the value of [user_id]. *)
Definition get_request_data (form : list string) (request : Request)
    : outcome (gmap string (option string) * Z) :=
  let data := foldl (λ data key, <[key := POST request !! key]> data) ∅ form in
  match session request !! "user_id" with
  | Some user_id => Ok (base.delete "user_id" data, user_id)
  | None => Raise (KeyError "user_id")
  end.

(** A value of the dictionary that [get_request_data] returns. *)
Inductive form_value :=
| FNone
| FStr (s : string)
| FInt (z : Z).

(** [data.get(key)] on the dictionary that [get_request_data] returns;
    [None] is a key that the dictionary does not have. *)
Definition data_get (data : gmap string (option string) * Z) (key : string)
    : option form_value :=
  if decide (key = "user_id") then Some (FInt data.2)
  else from_option FStr FNone <$> data.1 !! key.

(** [form[key]] for a key of the form. *)
Definition field (form : gmap string (option string)) (key : string)
    : option string :=
  default None (form !! key).

(** [parse_time]: [map(int, timestring.split(":"))] *)
Definition parse_time (timestring : string) : outcome (list Z) :=
  match mapM Py.int (Py.split ":"%char timestring) with
  | Some l => Ok l
  | None => Raise ValueError
  end.

(** The range of a C [int], to which the constructors of [datetime]
    convert their arguments; outside it they raise [OverflowError]. *)
Definition c_int (z : Z) : bool := (- 2 ^ 31 <=? z) && (z <? 2 ^ 31).

(** The [datetime.time(hour, minute)] constructor: arguments that do not
    fit a C [int] raise [OverflowError], an hour or a minute out of range
    raises [ValueError]. *)
Definition mk_time (h m : Z) : outcome time :=
  if negb (c_int h && c_int m) then Raise OverflowError
  else if valid_time h m then Ok (mktime h m 0)
  else Raise ValueError.

(** [validate_time]: the start time is before the end time.  Both
    strings are split and unpacked into two numbers before the first
    [datetime.time] is built, and the start time is built before the end
    time. *)
Definition validate_time (start end_ : string) : outcome bool :=
  match parse_time start with
  | Ok [shour; sminute] =>
      match parse_time end_ with
      | Ok [ehour; eminute] =>
          match mk_time shour sminute with
          | Ok stime =>
              match mk_time ehour eminute with
              | Ok etime => Ok (time_lt stime etime)
              | Raise e => Raise e
              end
          | Raise e => Raise e
          end
      | Ok _ => Raise ValueError
      | Raise e => Raise e
      end
  | Ok _ => Raise ValueError
  | Raise e => Raise e
  end.

(** [year, month, day = map(int, s.split("-"))] *)
Definition parse_ymd (s : option string) : outcome (Z * Z * Z) :=
  match s with
  | None => Raise AttributeError
  | Some s =>
      match mapM Py.int (Py.split "-"%char s) with
      | Some [year; month; day] => Ok (year, month, day)
      | _ => Raise ValueError
      end
  end.

Definition with_link (l : option Z) (e : TrackingEntry) : TrackingEntry :=
  {| te_id := te_id e; te_user := te_user e; te_entry_date := te_entry_date e;
     te_start_time := te_start_time e; te_end_time := te_end_time e;
     te_breaks := te_breaks e; te_daytype := te_daytype e;
     te_comments := te_comments e; te_link := l |}.

Definition with_daytype (daytype : string) (e : TrackingEntry) : TrackingEntry :=
  {| te_id := te_id e; te_user := te_user e; te_entry_date := te_entry_date e;
     te_start_time := te_start_time e; te_end_time := te_end_time e;
     te_breaks := te_breaks e; te_daytype := daytype;
     te_comments := te_comments e; te_link := te_link e |}.

(** The five fields that [ajax_change_entry] changes: [stored_data]. *)
Record entry_fields := {
  f_entry_date : date;
  f_start_time : time;
  f_end_time : time;
  f_daytype : string;
  f_breaks : time;
}.

Definition fields_of (e : TrackingEntry) : entry_fields :=
  {| f_entry_date := te_entry_date e; f_start_time := te_start_time e;
     f_end_time := te_end_time e; f_daytype := te_daytype e;
     f_breaks := te_breaks e |}.

Definition with_fields (f : entry_fields) (e : TrackingEntry) : TrackingEntry :=
  {| te_id := te_id e; te_user := te_user e; te_entry_date := f_entry_date f;
     te_start_time := f_start_time f; te_end_time := f_end_time f;
     te_breaks := f_breaks f; te_daytype := f_daytype f;
     te_comments := te_comments e; te_link := te_link e |}.

Class Json := {
  (** [simplejson.loads] on the posted [mass_data], for the documented
      shape of the data: a dictionary from user ids to arrays of daytypes,
      given as the list of its items.  Anything else is an exception. *)
  simplejson_loads : option string → outcome (list (string * list string));
}.

(** ** The views *)

Section Views.
Context `{Models} `{Datemaps} `{Json}.
Import Py.

(** [get_or_create_link] *)
Definition get_or_create_link (user : Tbluser) (date_ : string)
    : M TrackingEntry :=
  let* d := or_raise (ValidationError "entry_date") (DateField_to_python date_) in
  let* zero := or_raise (ValidationError "time") (TimeField_to_python "00:00") in
  let* w := get_world in
  match objects_get MTrackingEntry
          (λ e, bool_decide (te_user e = usr_id user ∧ te_entry_date e = d
                             ∧ te_start_time e = zero ∧ te_end_time e = zero
                             ∧ te_breaks e = zero ∧ te_daytype e = "LINKD"))
          (entries (db w)) with
  | Ok entry => ret entry
  | Raise (DoesNotExist _) =>
      let* entry := save {| te_id := None; te_user := usr_id user;
                            te_entry_date := d; te_start_time := zero;
                            te_end_time := zero; te_breaks := zero;
                            te_daytype := "LINKD";
                            te_comments := EmptyString; te_link := None |} in
      (* [if created: entry.save()] *)
      save entry
  | Raise e => raise e
  end.

(** The values that [full_clean] gives the five fields assigned from the
    form, when every conversion succeeds. *)
Definition cleaned_fields (form : gmap string (option string))
    : option entry_fields :=
  d ← field form "entry_date" ≫= DateField_to_python;
  st ← field form "start_time" ≫= TimeField_to_python;
  en ← field form "end_time" ≫= TimeField_to_python;
  dt ← field form "daytype";
  br ← field form "breaks" ≫= TimeField_to_python;
  Some {| f_entry_date := d; f_start_time := st; f_end_time := en;
          f_daytype := dt; f_breaks := br |}.

(** [entry.full_clean()] after the assignments from the form. *)
Definition full_clean (cleaned : option entry_fields) (entry : TrackingEntry)
    : M unit :=
  let* w := get_world in
  match cleaned with
  | None => raise (ValidationError "Enter a valid value.")
  | Some _ =>
      match validate (db w) entry with
      | Some msg => raise (ValidationError msg)
      | None => ret tt
      end
  end.

(** The first half of the [try] block of [ajax_change_entry]: the entry is
    fetched and unlinked, its fields are remembered in [stored_data], the
    form is applied, the link is set or removed and the result is
    validated.  The assignments take strings from the form, which
    [full_clean] converts; here the object carries the converted values
    from the assignment on and [full_clean] raises when a conversion is
    impossible. *)
Definition change_entry_apply (form : gmap string (option string))
    (user_id : Z) : M (Tbluser * entry_fields * TrackingEntry) :=
  let* w := get_world in
  let* user := or_raise (DoesNotExist MTbluser) (users (db w) !! user_id) in
  let* entry :=
    lift (get_by_pk MTrackingEntry (str_opt (field form "hidden-id"))
                    (entries (db w))) in
  let* entry := do_unlink entry in
  let stored_data := fields_of entry in
  let cleaned := cleaned_fields form in
  let entry := from_option (λ f, with_fields f entry) entry cleaned in
  let* entry :=
    if truthy (field form "link") then
      let* l := get_or_create_link user (str_opt (field form "link")) in
      ret (with_link (te_id l) entry)
    else do_unlink entry in
  full_clean cleaned entry >>
  ret (user, stored_data, entry).

(** The [try] block; [Some] is a response returned from inside it. *)
Definition change_entry_try (form : gmap string (option string))
    (user_id year month day : Z) : M (option json_data) :=
  let* (user, stored_data, entry) := change_entry_apply form user_id in
  let* w := get_world in
  if is_undertime (db w) entry
     && (is_linked (db w) entry || truthy (field form "link")) then
    let* entry := save entry in
    let* entry := do_unlink entry in
    let entry := with_link None (with_fields stored_data entry) in
    let* entry := save entry in
    let* calendar := gen_calendar (Some year) (Some month) (Some day) user_id in
    ret (Some {| success := false;
                 error := "You cannot link an undertime entry.";
                 calendar := Some calendar |})
  else
    let* entry := save entry in
    modify (create_approval_request entry) >>
    let* w := get_world in
    (if decide (toordinal (today w) - toordinal (te_entry_date entry)
                > SUSPICIOUS_DATE_DIFF)
     then suspicious_log
            (cat ["Suspicious Tracking Change - Who: "; usr_user_id user;
                  " - When: "; str_date (te_entry_date entry)])
     else ret tt) >>
    ret None.

(** The keys of the form of [ajax_change_entry]. *)
Definition change_entry_form : list string :=
  ["entry_date"; "start_time"; "end_time"; "daytype"; "breaks"; "hidden-id";
   "link"].

(** [ajax_change_entry] *)
Definition ajax_change_entry (request : Request) : M json_data :=
  let* (form, user_id) := lift (get_request_data change_entry_form request) in
  if negb (truthy (field form "start_time") && truthy (field form "end_time"))
  then ret {| success := false; error := "Invalid time formats";
              calendar := None |}
  else
    let* valid := lift (validate_time (str_opt (field form "start_time"))
                                      (str_opt (field form "end_time"))) in
    if negb valid
    then ret {| success := true; error := "Start time after end time";
                calendar := None |}
    else
      let* (year, month, day) := lift (parse_ymd (field form "entry_date")) in
      let* returned :=
        if truthy (field form "hidden-id") then
          try_except (change_entry_try form user_id year month day)
            (λ error_,
               error_log (str_exn error_) >>
               ret (Some {| success := false; error := str_exn error_;
                            calendar := None |}))
        else ret None in
      match returned with
      | Some response => ret response
      | None =>
          let* calendar :=
            gen_calendar (Some year) (Some month) (Some day) user_id in
          ret {| success := true; error := EmptyString;
                 calendar := Some calendar |}
      end.

(** [delete_user] *)
Definition delete_user (request : Request) : M json_data :=
  let user_id := POST request !! "user_id" in
  let logged_in_user := session request !! "user_id" in
  if decide (str_opt user_id = from_option str_int "None" logged_in_user) then
    ret {| success := false; error := "You cannot delete yourself.";
           calendar := None |}
  else if truthy user_id then
    let* w := get_world in
    match get_by_pk MTbluser (str_opt user_id) (users (db w)) with
    | Ok user =>
        delete_Tbluser user >>
        ret {| success := true; error := EmptyString; calendar := None |}
    | Raise (DoesNotExist MTbluser) =>
        error_log "Tried to delete non-existant user" >>
        ret {| success := false; error := "User does not exist";
               calendar := None |}
    | Raise e => raise e
    end
  else ret {| success := false; error := "Missing user"; calendar := None |}.

(** [TrackingEntry.objects.get(entry_date=d, user_id=u)] *)
Definition entry_on (d : DB) (entry_date : date) (user_id : Z)
    : outcome TrackingEntry :=
  objects_get MTrackingEntry
    (λ e, bool_decide (te_entry_date e = entry_date ∧ te_user e = user_id))
    (entries d).

(** The body of the inner loop of [mass_holidays] for one posted
    [daytype] at index [day] of the array of user [user_key].  The
    result is the new value of [sick_sent]. *)
Definition mass_holidays_day (year month user_key : string)
    (sick_sent : bool) (day : Z) (daytype : string) : M bool :=
  if decide (day = 0) then ret sick_sent
  else
    match int year, int month with
    | None, _ | _, None => ret sick_sent
    | Some y, Some m =>
        if negb (c_int y && c_int m) then raise OverflowError
        else if negb (valid_date y m day) then ret sick_sent
        else
          let datestr := join "-" [year; month; str_int day] in
          let* entry_date :=
            or_raise (ValidationError "entry_date")
                     (DateField_to_python datestr) in
          let* user_id := or_raise ValueError (int user_key) in
          let* w := get_world in
          match entry_on (db w) entry_date user_id with
          | Ok current_entry =>
              if is_linked (db w) current_entry
                 && bool_decide (daytype = "empty") then
                let* current_entry := do_unlink current_entry in
                delete current_entry >> ret sick_sent
              else if decide (daytype = "empty") then
                delete current_entry >> ret sick_sent
              else if decide (daytype = "LINKD") then ret sick_sent
              else
                let* _ := save (with_daytype daytype current_entry) in
                ret sick_sent
          | Raise (DoesNotExist MTrackingEntry) =>
              if decide (daytype = "empty" ∨ daytype = "LINKD")
              then ret sick_sent
              else
                let* user :=
                  or_raise (DoesNotExist MTbluser) (users (db w) !! user_id) in
                let '(start, end_, breaks) := get_shiftlength_list user in
                let* new_entry :=
                  save {| te_id := None; te_user := user_id;
                          te_entry_date := entry_date;
                          te_start_time := start; te_end_time := end_;
                          te_breaks := breaks; te_daytype := daytype;
                          te_comments := EmptyString; te_link := None |} in
                modify (create_approval_request new_entry) >>
                if negb sick_sent && bool_decide (daytype = "SICKD") then
                  let* w := get_world in
                  let* sickuser :=
                    or_raise (DoesNotExist MTbluser) (users (db w) !! user_id) in
                  if shouldnotifysick (db w) sickuser new_entry then
                    modify (sendsicknotification sickuser) >> ret true
                  else ret sick_sent
                else ret sick_sent
          | Raise e => raise e
          end
    end.

(** [for (day, daytype) in enumerate(entry[1])] *)
Fixpoint mass_holidays_days (year month user_key : string)
    (sick_sent : bool) (day : Z) (daytypes : list string) : M bool :=
  match daytypes with
  | [] => ret sick_sent
  | daytype :: rest =>
      let* sick_sent :=
        mass_holidays_day year month user_key sick_sent day daytype in
      mass_holidays_days year month user_key sick_sent (day + 1) rest
  end.

(** [for entry in holidays.items()] *)
Fixpoint mass_holidays_users (year month : string) (sick_sent : bool)
    (holidays : list (string * list string)) : M bool :=
  match holidays with
  | [] => ret sick_sent
  | (user_key, daytypes) :: rest =>
      let* sick_sent :=
        mass_holidays_days year month user_key sick_sent 0 daytypes in
      mass_holidays_users year month sick_sent rest
  end.

(** [mass_holidays] *)
Definition mass_holidays (request : Request) : M json_data :=
  let* year := or_raise (KeyError "year") (POST request !! "year") in
  let* month := or_raise (KeyError "month") (POST request !! "month") in
  match simplejson_loads (POST request !! "mass_data") with
  | Raise err =>
      ret {| success := false; error := str_exn err; calendar := None |}
  | Ok holidays =>
      let* _ := mass_holidays_users year month false holidays in
      ret {| success := true; error := EmptyString; calendar := None |}
  end.

End Views.

(** ** The approval workflow *)

Module Overtime.

(** What the spec and the tests leave open about a notification: its
    text, its recipients, the file attached to an approval, and the rows
    that the ORM [save] calls of [close] write. *)
Class Notifications := {
  notification_body : PendingApproval → bool → string;
  notification_recipients : DB → PendingApproval → list string;
  approval_attachment : DB → PendingApproval → string;
  settle : PendingApproval → bool → DB → DB;
}.

Section Close.
Context `{Notifications}.

(** The e-mail for each of the two states. *)
Definition notification (d : DB) (a : PendingApproval) (status : bool)
    : EmailMessage :=
  if status then
    {| subject := "Your recent timetracker actions.";
       body := notification_body a true;
       recipients := notification_recipients d a;
       attachments := [approval_attachment d a] |}
  else
    {| subject := "Request for Overtime: Denied.";
       body := notification_body a false;
       recipients := notification_recipients d a;
       attachments := [] |}.

(** Modelled from the spec: [PendingApproval.close] lives in
    [timetracker/overtime/models.py], which is not among the sources;
    the spec calls it a two-state e-mail notification flow with nothing
    beyond ORM save calls, and [overtime/tests.py] fixes, for each
    state, the number of messages, the subject and the number of
    attachments. *)
Definition close (a : PendingApproval) (status : bool) : M unit :=
  let* w := get_world in
  modify (set_outbox (λ o, o ++ [notification (db w) a status])) >>
  modify (set_db (settle a status)).

End Close.

End Overtime.

(** ** The VCS activity ledger *)

Module VCS.

(** A value of the POST dictionary built by the tests: a string or an
    integer. *)
Inductive pyval :=
| PStr (s : string)
| PInt (z : Z).

Record ActivityEntry := {
  ae_user : Z;
  ae_activity : pyval;
  ae_amount : pyval;
  ae_date : pyval;
}.

Record Ledger := {
  activity_entries : gmap Z ActivityEntry;
  activity_seq : Z;
}.

Record Req := {
  req_POST : gmap string pyval;
  req_user : Z;
}.

Inductive response :=
| HttpResponse
| HttpResponseRedirect.

(** The primary key that a posted id names. *)
Definition pk_of (v : pyval) : option Z :=
  match v with
  | PInt z => Some z
  | PStr s => Py.int s
  end.

Definition with_amount (v : pyval) (e : ActivityEntry) : ActivityEntry :=
  {| ae_user := ae_user e; ae_activity := ae_activity e; ae_amount := v;
     ae_date := ae_date e |}.

(** A request to add is complete when it carries the three fields. *)
Definition complete_add (request : Req) : Prop :=
  is_Some (req_POST request !! "activity_key")
  ∧ is_Some (req_POST request !! "amount")
  ∧ is_Some (req_POST request !! "date").

#[global] Instance complete_add_dec request : Decision (complete_add request).
Proof. unfold complete_add. apply _. Defined.

(** Modelled from the spec: [vcs_add] lives in [timetracker/vcs/views.py],
    which is not among the sources.  By [vcs/tests.py] a POST with
    [activity_key], [amount] and [date] is answered by a redirect, and a
    POST that lacks one of them raises [Http404]; the spec calls the
    application an activity ledger, so the accepted request is recorded
    as an entry of the user of the session. *)
Definition vcs_add (request : Req) (l : Ledger)
    : outcome response * Ledger :=
  match req_POST request !! "activity_key",
        req_POST request !! "amount",
        req_POST request !! "date" with
  | Some activity_key, Some amount, Some date_ =>
      let k := activity_seq l in
      (Ok HttpResponseRedirect,
       {| activity_entries :=
            <[k := {| ae_user := req_user request;
                      ae_activity := activity_key; ae_amount := amount;
                      ae_date := date_ |}]> (activity_entries l);
          activity_seq := k + 1 |})
  | _, _, _ => (Raise Http404, l)
  end.

(** Modelled from the spec: [update] lives in [timetracker/vcs/views.py],
    which is not among the sources.  By [vcs/tests.py] a POST with the
    [id] of an entry and a [volume] sets the amount of that entry to the
    volume, and a POST that lacks [id] or [volume] raises [Http404].  For
    an [id] that names no entry neither the spec nor the tests fix the
    answer; it is [Http404] here as well. *)
Definition update (request : Req) (l : Ledger) : outcome response * Ledger :=
  match req_POST request !! "volume", req_POST request !! "id" with
  | Some volume, Some id_ =>
      match pk_of id_ ≫= λ k, (k,.) <$> activity_entries l !! k with
      | Some (k, entry) =>
          (Ok HttpResponse,
           {| activity_entries :=
                <[k := with_amount volume entry]> (activity_entries l);
              activity_seq := activity_seq l |})
      | None => (Raise Http404, l)
      end
  | _, _ => (Raise Http404, l)
  end.

End VCS.

(** ** Notions used in the statements *)

(** The guard of [delete_user]: the posted [user_id] and the [user_id] of
    the session are the same once both are turned into strings. *)
Definition same_as_strings (request : Request) : Prop :=
  Py.str_opt (POST request !! "user_id")
  = from_option Py.str_int "None" (session request !! "user_id").

Section Mass_holidays_notions.
Context `{Models}.

(** An index of a posted array that [mass_holidays] passes over: index 0,
    or a day that is no date of the posted year and month (which includes
    a year or month that is no number). *)
Definition skipped_day (year month : string) (day : Z) : Prop :=
  day = 0
  ∨ Py.int year = None
  ∨ Py.int month = None
  ∨ ∃ y m, Py.int year = Some y ∧ Py.int month = Some m
           ∧ c_int y && c_int m = true ∧ valid_date y m day = false.

(** An index that names the date [d] of the posted year and month, in the
    array posted for the user with primary key [u]. *)
Definition posted_day (year month user_key : string) (day : Z)
    (d : date) (u : Z) : Prop :=
  day ≠ 0
  ∧ (∃ y m, Py.int year = Some y ∧ Py.int month = Some m
            ∧ c_int y && c_int m = true ∧ valid_date y m day = true)
  ∧ DateField_to_python (Py.join "-" [year; month; Py.str_int day]) = Some d
  ∧ Py.int user_key = Some u.

(** The tracking entry that [mass_holidays] creates. *)
Definition new_holiday_entry (k : option Z) (u : Z) (usr : Tbluser) (d : date)
    (daytype : string) : TrackingEntry :=
  {| te_id := k; te_user := u; te_entry_date := d;
     te_start_time := (get_shiftlength_list usr).1.1;
     te_end_time := (get_shiftlength_list usr).1.2;
     te_breaks := (get_shiftlength_list usr).2;
     te_daytype := daytype; te_comments := EmptyString; te_link := None |}.

End Mass_holidays_notions.

(** The items of the posted data, in the order in which the two loops of
    [mass_holidays] visit them: user by user, and for every user the
    indices of the posted array with the daytype posted there. *)
Definition posted_items (holidays : list (string * list string))
    : list (string * Z * string) :=
  flat_map (λ entry, imap (λ i daytype, (entry.1, Z.of_nat i, daytype)) entry.2)
           holidays.

Section Mass_holidays_items.
Context `{Models} `{Datemaps} `{Json}.

(** The loop body of [mass_holidays] on one item after the other, up to
    the first exception. *)
Fixpoint process_items (year month : string) (sick_sent : bool)
    (items : list (string * Z * string)) : M bool :=
  match items with
  | [] => ret sick_sent
  | (user_key, day, daytype) :: rest =>
      let* sick_sent :=
        mass_holidays_day year month user_key sick_sent day daytype in
      process_items year month sick_sent rest
  end.

End Mass_holidays_items.

(** Two databases in which the entries of [database] are linked alike. *)
Definition links_agree `{Models} (d1 d2 : DB)
    (database : gmap Z TrackingEntry) : Prop :=
  ∀ k e, database !! k = Some e →
         is_linked d1 e = is_linked d2 e ∧ resolve_link d1 e = resolve_link d2 e.

(** ** The holiday table without the cache *)

Section Regenerated.
Context `{Models} `{Datemaps}.
Import Py.

(** The dictionary [day_classes] of a user before the tracking entries are
    applied. *)
Definition blank_days (year month : Z) (calendar_array : list Z)
    : gmap Z string :=
  foldl (λ m num, <[num := isweekend year month num]> m) ∅ calendar_array.

(** The day cells regenerated from the tracking entries of a user. *)
Definition regenerated_fields (d : DB) (user : Tbluser) (year month : Z)
    (calendar_array : list Z) : string * string :=
  let day_classes :=
    foldl (λ m entry, <[dday (te_entry_date entry) := te_daytype entry]> m)
          (blank_days year month calendar_array)
          (tracking_entries d user year month) in
  let entries := sorted_items day_classes in
  holiday_fields (usr_id user) (length entries) 0 entries.

(** What the loop body emits for a user when everything is regenerated
    from the database: [holiday_user] with its two cache lookups taken
    out. *)
Definition regenerated_user (d : DB) (admin_user : Tbluser) (year month : Z)
    (calendar_array : list Z) (n_users idx : nat) (user : Tbluser)
    (o : holiday_out) : outcome holiday_out :=
  match apply_entries d (tracking_entries d user year month)
                      (blank_days year month calendar_array) o with
  | Raise e => Raise e
  | Ok (_, o) =>
      let o := to_out (holiday_row d admin_user user year) o in
      let o := to_js (cat [dq; str_int (usr_id user); dq; ":["; dq; "empty";
                           dq; ","]) o in
      let '(text_js, text_out) :=
        regenerated_fields d user year month calendar_array in
      let o := to_out text_out (to_js text_js o) in
      let o :=
        if decide (usr_user_type admin_user ≠ "RUSER") then
          let uid := str_int (usr_id user) in
          to_out "</tr>"
            (to_out (cat ["<td>"; nl; "                    <input value="; dq;
                          "submit"; dq; " type="; dq; "button"; dq; " user_id=";
                          dq; uid; dq; nl;
                          "                           onclick="; dq;
                          "submit_holidays("; uid; ")"; dq; " />"; nl;
                          "                  </td>"]) o)
        else o in
      Ok (to_js (if decide (S idx ≠ n_users) then "," +:+ nl else EmptyString) o)
  end.

Fixpoint regenerated_users (d : DB) (admin_user : Tbluser) (year month : Z)
    (calendar_array : list Z) (n_users idx : nat) (user_list : list Tbluser)
    (o : holiday_out) : outcome holiday_out :=
  match user_list with
  | [] => Ok o
  | user :: rest =>
      match regenerated_user d admin_user year month calendar_array
                             n_users idx user o with
      | Raise e => Raise e
      | Ok o =>
          regenerated_users d admin_user year month calendar_array n_users
                            (S idx) rest o
      end
  end.

(** The days of the month, as [gen_holiday_list] computes them. *)
Definition calendar_days (year month : Z) : list Z :=
  from_option (map dday) [] (gen_datetime_cal year month).

(** A cache is coherent for a viewer, a year and a month when whatever it
    holds under the two keys of a user of the database is what would be
    regenerated for that viewer from the database. *)
Definition cache_coherent (d : DB) (admin_user : Tbluser) (year month : Z)
    (c : gmap string cache_value) : Prop :=
  ∀ user, users d !! usr_id user = Some user →
    (∀ v, c !! row_key (usr_id user) year = Some v →
          v = CStr (holiday_row d admin_user user year))
    ∧ (∀ v, c !! fields_key (usr_id user) year month = Some v →
            v = CPair (regenerated_fields d user year month
                         (calendar_days year month)).1
                      (regenerated_fields d user year month
                         (calendar_days year month)).2).

(** The subordinates of a viewer are rows of the user table. *)
Definition subordinates_in_table (d : DB) (admin_user : Tbluser) : Prop :=
  ∀ user, user ∈ get_subordinates d admin_user →
          users d !! usr_id user = Some user.

End Regenerated.

(** ** What the calendar reads from the database *)

Section Queries.
Context `{Models}.

(** The results of the queries behind [gen_calendar]: the user, the
    user's tracking entries of the month and, for each of them, what
    [is_linked] answers and the entry that [link] leads to. *)
Definition calendar_queries (d : DB) (user year month : Z)
    : option (Tbluser * gmap Z (TrackingEntry * bool * option TrackingEntry)) :=
  u ← users d !! user;
  Some (u, (λ e, (e, is_linked d e, resolve_link d e))
             <$> month_entries d (usr_id u) year month).

End Queries.

(** ** A small installation

    Concrete models, tables and data, on which the views can be run. *)

Module Fixture.
Import Py.

Definition to_date (s : string) : option date :=
  match split "-"%char s with
  | [y; m; d] =>
      y ← digits y; m ← digits m; d ← digits d;
      if valid_date y m d then Some (mkdate y m d) else None
  | _ => None
  end.

Definition to_time (s : string) : option time :=
  match split ":"%char s with
  | [h; m] =>
      h ← digits h; m ← digits m;
      if valid_time h m then Some (mktime h m 0) else None
  | [h; m; s] =>
      h ← digits h; m ← digits m; s ← digits s;
      if valid_time h m && (0 <=? s) && (s <=? 59)
      then Some (mktime h m s) else None
  | _ => None
  end.

Definition seconds (t : time) : Z := hour t * 3600 + minute t * 60 + second t.

Definition clear_link (k : Z) (m : gmap Z TrackingEntry) : gmap Z TrackingEntry :=
  alter (with_link None) k m.

#[global] Instance models : Models := {|
  name u := cat [usr_firstname u; " "; usr_lastname u];
  get_holiday_balance _ u _ := str_int (usr_holiday_balance u);
  get_dod_balance _ _ _ := "0";
  get_job_code_display u := usr_job_code u;
  can_view_jobcodes u := bool_decide (usr_user_type u = "ADMIN");
  get_subordinates d _ :=
    filter (λ u, usr_user_type u = "RUSER") (map_to_list (users d)).*2;
  tracking_entries d u y m := (map_to_list (month_entries d (usr_id u) y m)).*2;
  get_shiftlength_list u := (mktime 9 0 0, mktime 17 0 0, usr_breaklength u);
  shouldnotifysick _ _ _ := true;
  sendsicknotification u :=
    set_outbox (λ o, o ++ [{| subject := "Sickness notification";
                              body := usr_user_id u; recipients := [];
                              attachments := [] |}]);
  delete_cascade u :=
    set_entries (filter (λ kv : Z * TrackingEntry, te_user kv.2 ≠ usr_id u));
  is_linked _ e := bool_decide (is_Some (te_link e));
  unlink e w :=
    (with_link None e,
     set_db (set_entries (λ m,
       let m := from_option (λ k, clear_link k m) m (te_id e) in
       from_option (λ k, clear_link k m) m (te_link e))) w);
  is_undertime d e :=
    bool_decide (seconds (te_end_time e) - seconds (te_start_time e)
                   - seconds (te_breaks e)
                 < from_option (λ u, seconds (usr_shiftlength u)) 0
                               (users d !! te_user e));
  create_approval_request e :=
    set_db (λ d, {| users := users d; entries := entries d;
                    entry_seq := entry_seq d;
                    approvals := approvals d
                      ++ [{| pa_entry := default 0 (te_id e);
                             pa_approver := 0 |}] |});
  validate _ _ := None;
  constraint_violation d e :=
    if decide (map_Exists (λ k e', te_user e' = te_user e
                                   ∧ te_entry_date e' = te_entry_date e
                                   ∧ Some k ≠ te_id e) (entries d))
    then Some "Duplicate entry" else None;
  DateField_to_python := to_date;
  TimeField_to_python := to_time;
|}.

#[global] Instance datemaps : Datemaps := {|
  MONTH_MAP := list_to_map
    [(0, ("JAN", "January")); (1, ("FEB", "February")); (2, ("MAR", "March"));
     (3, ("APR", "April")); (4, ("MAY", "May")); (5, ("JUN", "June"));
     (6, ("JUL", "July")); (7, ("AUG", "August")); (8, ("SEP", "September"));
     (9, ("OCT", "October")); (10, ("NOV", "November"));
     (11, ("DEC", "December"))];
  WEEK_MAP_SHORT := list_to_map
    [(0, "Mon"); (1, "Tue"); (2, "Wed"); (3, "Thu"); (4, "Fri"); (5, "Sat");
     (6, "Sun")];
  PROCESS_CHOICES := [("AP", "Accounts Payable"); ("AR", "Accounts Receivable")];
  generate_select data id_ :=
    cat (cat ["<select id="; dq; id_; dq; ">"]
         :: map (λ p : string * string,
                   cat ["<option value="; dq; p.1; dq; ">"; p.2; "</option>"])
                data
         ++ ["</select>"]);
  generate_year_box year id_ :=
    cat ["<select id="; dq; id_; dq; "><option>"; str_int year;
         "</option></select>"];
  pad z := zfill 2 z;
|}.

(** The posted [mass_data] of the example: for user 3, nothing for index
    0, a holiday on the first, nothing on the second and a sick day on
    the third of the month. *)
Definition mass_data : string :=
  cat ["{"; dq; "3"; dq; ": ["; dq; "empty"; dq; ", "; dq; "HOLIS"; dq; ", ";
       dq; "empty"; dq; ", "; dq; "SICKD"; dq; "]}"].

#[global] Instance json : Json := {|
  simplejson_loads o :=
    match o with
    | None => Raise TypeError
    | Some s =>
        if decide (s = mass_data)
        then Ok [("3", ["empty"; "HOLIS"; "empty"; "SICKD"])]
        else Raise ValueError
    end;
|}.

Definition mkuser (id_ : Z) (login first last type_ code : string) : Tbluser :=
  {| usr_id := id_; usr_user_id := login; usr_firstname := first;
     usr_lastname := last; usr_market := "BK"; usr_process := "AP";
     usr_user_type := type_; usr_start_date := mkdate 2011 1 1;
     usr_breaklength := mktime 0 15 0; usr_shiftlength := mktime 7 45 0;
     usr_job_code := code; usr_holiday_balance := 20;
     usr_disabled := false |}.

(** An administrator, a team leader and an employee. *)
Definition admin : Tbluser := mkuser 1 "ada@example.com" "Ada" "Admin" "ADMIN" "A1".
Definition leader : Tbluser := mkuser 2 "tom@example.com" "Tom" "Lead" "TEAML" "T1".
Definition employee : Tbluser :=
  mkuser 3 "eve@example.com" "Eve" "Worker" "RUSER" "ABC123".

Definition mkentry (id_ user : Z) (d : date) (st en : time) (daytype : string)
    (link : option Z) : TrackingEntry :=
  {| te_id := Some id_; te_user := user; te_entry_date := d;
     te_start_time := st; te_end_time := en; te_breaks := mktime 0 15 0;
     te_daytype := daytype; te_comments := EmptyString; te_link := link |}.

(** A working day of the employee on 6 February 2012 and a holiday on
    the 10th. *)
Definition workday : TrackingEntry :=
  mkentry 10 3 (mkdate 2012 2 6) (mktime 9 0 0) (mktime 17 0 0) "WKDAY" None.
Definition holiday : TrackingEntry :=
  mkentry 11 3 (mkdate 2012 2 10) (mktime 9 0 0) (mktime 17 0 0) "HOLIS" None.

Definition database : DB :=
  {| users := list_to_map [(1, admin); (2, leader); (3, employee)];
     entries := list_to_map [(10, workday); (11, holiday)];
     entry_seq := 12;
     approvals := [] |}.

Definition world : World :=
  {| db := database; cache := ∅; outbox := []; logs := [];
     today := mkdate 2012 2 15 |}.

(** The same installation seen later: another day, a filled cache, a log
    line, and more tracking entries, none of them of the employee in
    February 2012. *)
Definition world_later : World :=
  {| db := {| users := users database;
              entries :=
                <[20 := mkentry 20 3 (mkdate 2012 3 6) (mktime 9 0 0)
                                (mktime 17 0 0) "WKDAY" None]>
                  (<[21 := mkentry 21 2 (mkdate 2012 2 6) (mktime 8 0 0)
                                   (mktime 16 0 0) "WKDAY" None]>
                     (entries database));
              entry_seq := 22;
              approvals := [{| pa_entry := 20; pa_approver := 1 |}] |};
     cache := {["holidaytablerow32012" := CStr "<tr>"]};
     outbox := [];
     logs := ["Tried to delete non-existant user"];
     today := mkdate 2013 7 1 |}.

(** The employee asks to shorten the working day of the 6th to one hour
    and to link it to the 7th. *)
Definition change_request : Request :=
  {| POST := {["entry_date" := "2012-02-06"; "start_time" := "09:00";
               "end_time" := "10:00"; "daytype" := "WKDAY";
               "breaks" := "00:15:00"; "hidden-id" := "10";
               "link" := "2012-02-07"]};
     session := {["user_id" := 3]} |}.

(** The administrator posts [mass_data] for February 2012. *)
Definition mass_request : Request :=
  {| POST := {["year" := "2012"; "month" := "2"; "mass_data" := mass_data]};
     session := {["user_id" := 1]} |}.

(** The requests of [vcs/tests.py]: a complete request to add an entry,
    the same without its date, and a request to set the volume of entry 1. *)
Definition ledger : VCS.Ledger :=
  {| VCS.activity_entries := ∅; VCS.activity_seq := 1 |}.

Definition add_request : VCS.Req :=
  {| VCS.req_POST := {["activity_key" := VCS.PStr "1";
                       "amount" := VCS.PStr "100";
                       "date" := VCS.PStr "2012-01-01"]};
     VCS.req_user := 3 |}.

Definition add_request_no_date : VCS.Req :=
  {| VCS.req_POST := {["activity_key" := VCS.PStr "1";
                       "amount" := VCS.PStr "100"]};
     VCS.req_user := 3 |}.

Definition update_request : VCS.Req :=
  {| VCS.req_POST := {["volume" := VCS.PInt 1; "id" := VCS.PStr "1"]};
     VCS.req_user := 3 |}.

End Fixture.

(** ** Further views and helpers of [calendar_utils] *)

(** The [datetime.datetime(year, month, day)] constructor: arguments that
    do not fit a C [int] raise [OverflowError], a date that does not exist
    raises [ValueError]. *)
Definition mk_datetime (year month day : Z) : outcome date :=
  if negb (c_int year && c_int month && c_int day) then Raise OverflowError
  else if valid_date year month day then Ok (mkdate year month day)
  else Raise ValueError.

(** The loop of [last12months] over [x]: the first of the month [x] months
    back while that month is in the same year, otherwise the first of the
    month [12 - rest] of the year before. *)
Fixpoint last12months_loop (year month : Z) (xs : list Z) (rest : Z)
    (dates : list date) : outcome (list date) :=
  match xs with
  | [] => Ok dates
  | x :: xs' =>
      match mk_datetime year (month - x) 1 with
      | Ok d => last12months_loop year month xs' rest (dates ++ [d])
      | Raise ValueError =>
          match mk_datetime (year - 1) (12 - rest) 1 with
          | Ok d => last12months_loop year month xs' (rest + 1) (dates ++ [d])
          | Raise e => Raise e
          end
      | Raise e => Raise e
      end
  end.

(** [last12months] *)
Definition last12months (year month : Z) : outcome (list date) :=
  match mk_datetime year month 1 with
  | Raise e => Raise e
  | Ok _ =>
      match last12months_loop year month (zrange 0 12) 0 [] with
      | Ok dates => Ok (reverse dates)
      | Raise e => Raise e
      end
  end.

(** The first day of the month that lies [k] months before the month
    [month] of the year [year]. *)
Definition months_back (year month k : Z) : date :=
  let t := year * 12 + (month - 1) - k in
  mkdate (t / 12) (t mod 12 + 1) 1.

(** [TrackingEntry.objects.get(id=s, user=user)]: the row with that primary
    key, if it belongs to the user. *)
Definition get_owned_entry (s : string) (user : Tbluser)
    (tbl : gmap Z TrackingEntry) : outcome TrackingEntry :=
  match Py.int s with
  | None => Raise ValueError
  | Some k =>
      match tbl !! k with
      | Some e =>
          if decide (te_user e = usr_id user) then Ok e
          else Raise (DoesNotExist MTrackingEntry)
      | None => Raise (DoesNotExist MTrackingEntry)
      end
  end.

(** In a table of rows the primary key column is the key of the row. *)
Definition keyed_by_id (tbl : gmap Z TrackingEntry) : Prop :=
  ∀ k e, tbl !! k = Some e → te_id e = Some k.

(** A user has at most one tracking entry on a day. *)
Definition one_entry_per_day (tbl : gmap Z TrackingEntry) : Prop :=
  ∀ k1 k2 e1 e2,
    tbl !! k1 = Some e1 → tbl !! k2 = Some e2 →
    te_user e1 = te_user e2 → te_entry_date e1 = te_entry_date e2 → k1 = k2.

(** The link of every linked entry that is no [LINKD] entry itself leads
    to a row. *)
Definition links_resolve `{Models} (d : DB) : Prop :=
  ∀ k e, entries d !! k = Some e →
         is_linked d e = true → te_daytype e ≠ "LINKD" →
         is_Some (resolve_link d e).

Section More_views.
Context `{Models} `{Datemaps}.
Import Py.

(** [ajax_delete_entry] *)
Definition ajax_delete_entry (request : Request) : M json_data :=
  let* (form, user_id) :=
    lift (get_request_data ["hidden-id"; "entry_date"] request) in
  (if truthy (field form "hidden-id") then
     let* w := get_world in
     let* user := or_raise (DoesNotExist MTbluser) (users (db w) !! user_id) in
     let* entry :=
       lift (get_owned_entry (str_opt (field form "hidden-id")) user
                             (entries (db w))) in
     delete entry
   else ret tt) >>
  let* (year, month, day) := lift (parse_ymd (field form "entry_date")) in
  let* calendar := gen_calendar (Some year) (Some month) (Some day) user_id in
  ret {| success := true; error := EmptyString; calendar := Some calendar |}.

(** The tracking entry of a holiday request: always pending, with the
    times of the user's shift. *)
Definition holiday_request (user : Tbluser) (d : date) : TrackingEntry :=
  {| te_id := None; te_user := usr_id user; te_entry_date := d;
     te_start_time := (get_shiftlength_list user).1.1;
     te_end_time := (get_shiftlength_list user).1.2;
     te_breaks := (get_shiftlength_list user).2;
     te_daytype := "PENDI"; te_comments := EmptyString; te_link := None |}.

(** [year, month, day = s.split("-")] followed by the [int] conversions
    that [gen_calendar] applies to its arguments. *)
Definition split_ymd (s : string) : outcome (Z * Z * Z) :=
  match split "-"%char s with
  | [year; month; day] =>
      match int year, int month, int day with
      | Some y, Some m, Some d => Ok (y, m, d)
      | _, _, _ => Raise ValueError
      end
  | _ => Raise ValueError
  end.

(** [ajax_add_holiday] for a form whose [entry_date] was posted;
    [entry_date] is [form['entry_date']] and [user_id] is
    [form['user_id']].  [save] converts the posted date, which raises
    [ValidationError] when it is no date, and checks the constraints of
    the table. *)
Definition ajax_add_holiday (entry_date : string) (user_id : Z)
    : M json_data :=
  let* w := get_world in
  let* user := or_raise (DoesNotExist MTbluser) (users (db w) !! user_id) in
  match DateField_to_python entry_date with
  | None =>
      ret {| success := false;
             error := str_exn (ValidationError "Enter a valid date.");
             calendar := Some EmptyString |}
  | Some d =>
      let* saved :=
        try_except
          (let* e := save (holiday_request user d) in ret (Ok e))
          (λ error_,
             match error_ with
             | IntegrityError _ =>
                 ret (Raise (IntegrityError
                               "Duplicate holiday requests not allowed."))
             | ValidationError msg => ret (Raise (ValidationError msg))
             | e => raise e
             end) in
      match saved with
      | Raise e =>
          ret {| success := false; error := str_exn e;
                 calendar := Some EmptyString |}
      | Ok holiday_req =>
          modify (create_approval_request holiday_req) >>
          let* (year, month, day) := lift (split_ymd entry_date) in
          let* calendar :=
            gen_calendar (Some year) (Some month) (Some day) user_id in
          ret {| success := true; error := EmptyString;
                 calendar := Some calendar |}
      end
  end.

End More_views.

(** ** The comments of a tracking entry *)

(** What the comment views use without defining it: [pad] of
    [timetracker.utils.datemaps] on the strings of a request, and the
    order in which Python iterates over the keys of a form dictionary,
    which visits every key once. *)
Class Forms := {
  pad_str : string → string;
  dict_order : list string → list string;
  dict_order_perm : ∀ keys, dict_order keys ≡ₚ keys;
}.

(** The answer of [get_comments]. *)
Record comment_data := {
  c_success : bool;
  c_error : string;
  c_comment : string;
}.

Section Comments.
Context `{Models} `{Forms}.
Import Py.

(** The loop that fills a form from a request dictionary: the value of
    every key, passed through [pad] for the keys in [padded]; the first key
    that is missing ends the loop. *)
Fixpoint fill_form (padded : list string) (source : gmap string string)
    (keys : list string) (form_data : gmap string string)
    : string + gmap string string :=
  match keys with
  | [] => inr form_data
  | key :: rest =>
      match source !! key with
      | None => inl key
      | Some v =>
          let v := if decide (key ∈ padded) then pad_str v else v in
          fill_form padded source rest (<[key := v]> form_data)
      end
  end.

(** ["{year}-{month}-{day}".format( **form_data)] *)
Definition entry_date_of (form_data : gmap string string) : string :=
  cat [default EmptyString (form_data !! "year"); "-";
       default EmptyString (form_data !! "month"); "-";
       default EmptyString (form_data !! "day")].

(** [TrackingEntry.objects.get(entry_date=entry_date,
    user_id=form_data['user'])] with both arguments as strings: the ORM
    converts the date, which raises [ValidationError] when it is none, and
    the number of the user, which raises [ValueError]; of two impossible
    conversions the one of the date is reported. *)
Definition entry_of_form (form_data : gmap string string) (d : DB)
    : outcome TrackingEntry :=
  match DateField_to_python (entry_date_of form_data) with
  | None => Raise (ValidationError "Enter a valid date.")
  | Some entry_date =>
      match int (default EmptyString (form_data !! "user")) with
      | None => Raise ValueError
      | Some user_id => entry_on d entry_date user_id
      end
  end.

Definition with_comments (c : string) (e : TrackingEntry) : TrackingEntry :=
  {| te_id := te_id e; te_user := te_user e; te_entry_date := te_entry_date e;
     te_start_time := te_start_time e; te_end_time := te_end_time e;
     te_breaks := te_breaks e; te_daytype := te_daytype e;
     te_comments := c; te_link := te_link e |}.

(** [get_comments]; its argument is [request.GET]. *)
Definition get_comments (GET : gmap string string) : M comment_data :=
  let keys := dict_order ["user"; "year"; "month"; "day"] in
  match fill_form keys GET keys ∅ with
  | inl key =>
      ret {| c_success := false; c_error := "Missing data: " +:+ key;
             c_comment := EmptyString |}
  | inr form_data =>
      let* w := get_world in
      match entry_of_form form_data (db w) with
      | Ok entry =>
          ret {| c_success := true; c_error := EmptyString;
                 c_comment := te_comments entry |}
      | Raise (DoesNotExist MTrackingEntry) | Raise (ValidationError _) =>
          ret {| c_success := true; c_error := EmptyString;
                 c_comment := EmptyString |}
      | Raise e => raise e
      end
  end.

(** [add_comment]; its argument is [request.POST]. *)
Definition add_comment (POST : gmap string string) : M json_data :=
  let keys := dict_order ["user"; "year"; "month"; "day"; "comment"] in
  match fill_form ["month"; "day"] POST keys ∅ with
  | inl key =>
      ret {| success := false; error := "Missing data: " +:+ key;
             calendar := None |}
  | inr form_data =>
      let* w := get_world in
      match entry_of_form form_data (db w) with
      | Raise (DoesNotExist MTrackingEntry) =>
          ret {| success := false; error := "No entry to add a comment to!";
                 calendar := None |}
      | Raise e => raise e
      | Ok entry =>
          let entry :=
            with_comments (default EmptyString (form_data !! "comment")) entry in
          let* _ := save entry in
          let* w := get_world in
          let* _ := lift (entry_of_form form_data (db w)) in
          ret {| success := true; error := EmptyString; calendar := None |}
      end
  end.

(** [remove_comment]; its argument is [request.POST]. *)
Definition remove_comment (POST : gmap string string) : M json_data :=
  let keys := dict_order ["user"; "year"; "month"; "day"] in
  match fill_form keys POST keys ∅ with
  | inl key =>
      ret {| success := false; error := "Missing data: " +:+ key;
             calendar := None |}
  | inr form_data =>
      let* w := get_world in
      match entry_of_form form_data (db w) with
      | Raise (DoesNotExist MTrackingEntry) =>
          ret {| success := true; error := EmptyString; calendar := None |}
      | Raise e => raise e
      | Ok entry =>
          let* _ := save (with_comments EmptyString entry) in
          ret {| success := true; error := EmptyString; calendar := None |}
      end
  end.

End Comments.

(** A [pad] and a dictionary order for examples: one digit is padded to
    two, and the keys are visited as they are written. *)
Module Fixture_forms.

Definition pad2 (s : string) : string :=
  match s with
  | String c EmptyString => String "0"%char (String c EmptyString)
  | _ => s
  end.

#[global] Instance forms : Forms := {|
  pad_str := pad2;
  dict_order := id;
  dict_order_perm := λ keys, reflexivity keys;
|}.

End Fixture_forms.

(** Posted data for an example of [mass_holidays]: for user 3 a holiday
    at index 0 and [LINKD] for the first and the second of the month. *)
Module Fixture_linkd.
Import Py.

Definition linkd_data : string :=
  cat ["{"; dq; "3"; dq; ": ["; dq; "HOLIS"; dq; ", "; dq; "LINKD"; dq; ", ";
       dq; "LINKD"; dq; "]}"].

Definition linkd_json : Json := {|
  simplejson_loads o :=
    match o with
    | None => Raise TypeError
    | Some s =>
        if decide (s = linkd_data)
        then Ok [("3", ["HOLIS"; "LINKD"; "LINKD"])]
        else Raise ValueError
    end;
|}.

End Fixture_linkd.

(** Posted data for another example of [mass_holidays]: a holiday on the
    first of the month for the number 9, which is the number of no
    user. *)
Module Fixture_unknown.
Import Py.

Definition unknown_data : string :=
  cat ["{"; dq; "9"; dq; ": ["; dq; "empty"; dq; ", "; dq; "HOLIS"; dq; "]}"].

Definition unknown_json : Json := {|
  simplejson_loads o :=
    match o with
    | None => Raise TypeError
    | Some s =>
        if decide (s = unknown_data)
        then Ok [("9", ["empty"; "HOLIS"])]
        else Raise ValueError
    end;
|}.

End Fixture_unknown.

(** Another request of the employee for the working day of the 6th: the
    same short day linked to the 7th, but moved to the 10th, on which the
    employee has a holiday already. *)
Module Fixture_duplicate.

Definition duplicate_request : Request :=
  {| POST := {["entry_date" := "2012-02-10"; "start_time" := "09:00";
               "end_time" := "10:00"; "daytype" := "WKDAY";
               "breaks" := "00:15:00"; "hidden-id" := "10";
               "link" := "2012-02-07"]};
     session := {["user_id" := 3]} |}.

End Fixture_duplicate.

(** * Properties *)

(** ** The month calendar *)

Section Calendar.

Lemma concat_chunks {A} (n fuel : nat) (l : list A) :
  (0 < n)%nat → (length l ≤ fuel)%nat → concat (chunks fuel n l) = l.
Proof.
  intros Hn. revert l.
  induction fuel as [|fuel IH]; intros l Hl.
  - destruct l; [done | simpl in Hl; lia].
  - destruct l as [|x l]; [done|].
    cbn [chunks concat]. rewrite IH.
    + apply take_drop.
    + rewrite length_drop. simpl in *. lia.
Qed.

Lemma filter_pos_replicate_0 (n : nat) :
  filter (λ x : Z, 0 < x) (replicate n 0) = [].
Proof.
  induction n as [|n IH]; [done|].
  simpl. rewrite filter_cons_False; [done | lia].
Qed.

Lemma elem_of_zrange (n : nat) (lo x : Z) :
  x ∈ zrange lo n ↔ lo ≤ x < lo + Z.of_nat n.
Proof.
  revert lo. induction n as [|n IH]; intros lo; simpl.
  - rewrite elem_of_nil. lia.
  - rewrite elem_of_cons, IH. lia.
Qed.

Lemma filter_pos_zrange (n : nat) (lo : Z) :
  0 < lo → filter (λ x : Z, 0 < x) (zrange lo n) = zrange lo n.
Proof.
  revert lo. induction n as [|n IH]; intros lo Hlo; [done|].
  simpl. rewrite filter_cons_True by done. f_equal. apply IH. lia.
Qed.

Lemma zrange_sorted (n : nat) (lo : Z) : StronglySorted Z.lt (zrange lo n).
Proof.
  revert lo. induction n as [|n IH]; intros lo; simpl; constructor.
  - apply IH.
  - apply Forall_forall. intros x Hx. apply elem_of_zrange in Hx. lia.
Qed.

Lemma filter_pos_itermonthdays (y m : Z) :
  filter (λ x : Z, 0 < x) (itermonthdays y m)
  = zrange 1 (Z.to_nat (days_in_month y m)).
Proof.
  unfold itermonthdays, monthrange.
  rewrite !filter_app, !filter_pos_replicate_0, filter_pos_zrange by lia.
  by rewrite app_nil_r.
Qed.

(** The datetimes produced for a month are its days 1 .. n, in order. *)
Lemma gen_datetime_cal_days (y m : Z) :
  valid_month y m = true →
  gen_datetime_cal y m
  = Some (map (mkdate y m) (zrange 1 (Z.to_nat (days_in_month y m)))).
Proof.
  intros Hv. unfold gen_datetime_cal, monthcalendar. rewrite Hv. simpl.
  rewrite concat_chunks by lia.
  by rewrite filter_pos_itermonthdays.
Qed.

Lemma gen_datetime_cal_invalid (y m : Z) :
  valid_month y m = false → gen_datetime_cal y m = None.
Proof. intros Hv. unfold gen_datetime_cal, monthcalendar. by rewrite Hv. Qed.

Lemma isoweekday_range (d : date) : 1 ≤ isoweekday d ≤ 7.
Proof.
  unfold isoweekday, weekday.
  pose proof (Z.mod_pos_bound (toordinal d + 6) 7). lia.
Qed.

Lemma days_in_month_bound (y m : Z) : 0 ≤ days_in_month y m ≤ 31.
Proof.
  unfold days_in_month.
  repeat (match goal with
          | |- context [match ?x with _ => _ end] => destruct x
          end; try lia).
Qed.

Lemma sorted_month_days (y m : Z) (l : list Z) :
  StronglySorted Z.lt l → StronglySorted date_lt (map (mkdate y m) l).
Proof.
  induction 1 as [|x l Hl IH Hx]; simpl; constructor; [done|].
  apply Forall_forall. intros d Hd.
  apply (list_elem_of_fmap (mkdate y m)) in Hd as (z & -> & Hz).
  rewrite Forall_forall in Hx. specialize (Hx z Hz).
  unfold date_lt, toordinal. simpl. lia.
Qed.

Lemma sorted_filter {A} (R : relation A) (P : A → Prop)
    `{!∀ x, Decision (P x)} (l : list A) :
  StronglySorted R l → StronglySorted R (filter P l).
Proof.
  induction 1 as [|x l Hl IH Hx]; [constructor|].
  rewrite filter_cons. case_decide; [|done].
  constructor; [done|].
  apply Forall_forall. intros z Hz. apply list_elem_of_filter in Hz as [_ Hz].
  rewrite Forall_forall in Hx. by apply Hx.
Qed.

End Calendar.

(** C10. For every valid year and month, [working_days] returns exactly the
    days of that month whose ISO weekday is strictly below 5, that is the
    Mondays, Tuesdays, Wednesdays and Thursdays (1 to 4; Fridays, Saturdays
    and Sundays are left out), in strictly ascending date order. *)
Theorem working_days_mon_to_thu (y m : Z) :
  valid_month y m = true →
  ∃ l : list date,
    working_days y m = Some l
    ∧ (∀ d, d ∈ l ↔
            dyear d = y ∧ dmonth d = m ∧ valid_date y m (dday d) = true
            ∧ isoweekday d < 5)
    ∧ (∀ d, d ∈ l → isoweekday d ∈ [1; 2; 3; 4])
    ∧ StronglySorted date_lt l.
Proof.
  intros Hv. unfold working_days.
  rewrite (gen_datetime_cal_days y m Hv). simpl.
  eexists. split; [reflexivity|].
  pose proof (days_in_month_bound y m) as Hb.
  split; [|split].
  - intros d. rewrite list_elem_of_filter.
    rewrite (list_elem_of_fmap (mkdate y m)).
    unfold valid_date. rewrite Hv. split.
    + intros (Hiso & z & -> & Hz). apply elem_of_zrange in Hz. simpl.
      repeat split; try done.
      apply andb_true_intro; split; [apply Z.leb_le | apply Z.leb_le]; lia.
    + intros (Hy & Hm & Hd & Hiso). split; [done|].
      exists (dday d). destruct d as [dy dm dd]; simpl in *. subst.
      split; [done|]. apply elem_of_zrange.
      apply andb_prop in Hd as [Hd1 Hd2].
      apply Z.leb_le in Hd1, Hd2. lia.
  - intros d Hd. apply list_elem_of_filter in Hd as [Hiso _].
    pose proof (isoweekday_range d).
    rewrite !elem_of_cons. lia.
  - apply sorted_filter, sorted_month_days, zrange_sorted.
Qed.

Lemma working_days_mon_to_thu_witness :
  ∃ l : list date,
    working_days 2012 2 = Some l
    ∧ (∀ d, d ∈ l ↔
            dyear d = 2012 ∧ dmonth d = 2 ∧ valid_date 2012 2 (dday d) = true
            ∧ isoweekday d < 5)
    ∧ (∀ d, d ∈ l → isoweekday d ∈ [1; 2; 3; 4])
    ∧ StronglySorted date_lt l.
Proof. apply (working_days_mon_to_thu 2012 2). reflexivity. Defined.

(** ** The approval workflow *)

Section Approval.
Context `{Overtime.Notifications}.
Import Overtime.

Lemma close_run (a : PendingApproval) (status : bool) (w : World) :
  close a status w
  = (Ok tt, set_db (settle a status)
              (set_outbox (λ o, o ++ [notification (db w) a status]) w)).
Proof. reflexivity. Qed.

End Approval.

(** C1. Closing a pending approval with either status returns normally and
    sends exactly one notification e-mail: the outbox afterwards is the
    outbox before followed by one message, so a test that starts with an
    empty outbox finds one message in it. *)
Theorem close_sends_exactly_one_email `{Overtime.Notifications}
    (a : PendingApproval) (status : bool) (w : World) :
  ∃ (m : EmailMessage) (w' : World),
    Overtime.close a status w = (Ok tt, w')
    ∧ outbox w' = outbox w ++ [m]
    ∧ length (outbox w') = S (length (outbox w))
    ∧ (outbox w = [] → outbox w' = [m]).
Proof.
  eexists _, _. rewrite close_run. split; [reflexivity|]. simpl.
  split; [reflexivity|]. split.
  - rewrite length_app. simpl. lia.
  - intros ->. reflexivity.
Qed.

(** C2. The two states produce distinct notifications: closing with
    [False] sends the message with subject "Request for Overtime: Denied."
    and no attachment, closing with [True] sends the message with subject
    "Your recent timetracker actions." and exactly one attachment. *)
Theorem close_notification_by_status `{Overtime.Notifications}
    (a : PendingApproval) (w : World) :
  (∃ m w', Overtime.close a false w = (Ok tt, w')
           ∧ outbox w' = outbox w ++ [m]
           ∧ subject m = "Request for Overtime: Denied."
           ∧ attachments m = [])
  ∧ (∃ m w', Overtime.close a true w = (Ok tt, w')
             ∧ outbox w' = outbox w ++ [m]
             ∧ subject m = "Your recent timetracker actions."
             ∧ length (attachments m) = 1%nat).
Proof.
  split; eexists _, _; rewrite close_run; simpl; repeat split; reflexivity.
Qed.

(** ** The VCS ledger *)

Section Ledger.
Import VCS.

Lemma vcs_add_complete (request : Req) (l : Ledger) activity_key amount date_ :
  req_POST request !! "activity_key" = Some activity_key →
  req_POST request !! "amount" = Some amount →
  req_POST request !! "date" = Some date_ →
  vcs_add request l
  = (Ok HttpResponseRedirect,
     {| activity_entries :=
          <[activity_seq l := {| ae_user := req_user request;
                                 ae_activity := activity_key;
                                 ae_amount := amount; ae_date := date_ |}]>
            (activity_entries l);
        activity_seq := activity_seq l + 1 |}).
Proof. intros Ha Hb Hc. unfold vcs_add. by rewrite Ha, Hb, Hc. Qed.

Lemma vcs_add_incomplete (request : Req) (l : Ledger) :
  ¬ VCS.complete_add request → vcs_add request l = (Raise Http404, l).
Proof.
  unfold complete_add, vcs_add. intros Hn.
  destruct (req_POST request !! "activity_key") as [a|]; [|done].
  destruct (req_POST request !! "amount") as [b|]; [|done].
  destruct (req_POST request !! "date") as [c|]; [|done].
  destruct Hn. eauto.
Qed.

End Ledger.

(** C5. [vcs_add] accepts a request exactly when it is complete: with
    [activity_key], [amount] and [date] all in the POST data it returns an
    [HttpResponseRedirect] and the ledger holds the posted entry; when one
    of the three is missing it raises [Http404] (and records nothing). *)
Theorem vcs_add_accepts_iff_complete (request : VCS.Req) (l : VCS.Ledger) :
  (VCS.complete_add request →
     ∃ l' e, VCS.vcs_add request l = (Ok VCS.HttpResponseRedirect, l')
             ∧ VCS.activity_entries l' !! VCS.activity_seq l = Some e
             ∧ Some (VCS.ae_activity e) = VCS.req_POST request !! "activity_key"
             ∧ Some (VCS.ae_amount e) = VCS.req_POST request !! "amount"
             ∧ Some (VCS.ae_date e) = VCS.req_POST request !! "date")
  ∧ (¬ VCS.complete_add request → VCS.vcs_add request l = (Raise Http404, l))
  ∧ (∀ l', VCS.vcs_add request l = (Ok VCS.HttpResponseRedirect, l')
           ↔ VCS.complete_add request ∧ l' = (VCS.vcs_add request l).2).
Proof.
  split; [|split].
  - intros ([a Ha] & [b Hb] & [c Hc]).
    eexists _, _. rewrite (vcs_add_complete _ _ _ _ _ Ha Hb Hc).
    split; [reflexivity|]. simpl. rewrite lookup_insert_eq.
    by rewrite Ha, Hb, Hc.
  - apply vcs_add_incomplete.
  - intros l'. split.
    + intros Hr. destruct (decide (VCS.complete_add request)) as [Hc|Hc].
      * split; [done|]. by rewrite Hr.
      * rewrite vcs_add_incomplete in Hr by done. discriminate.
    + intros [([a Ha] & [b Hb] & [c Hc]) ->].
      by rewrite (vcs_add_complete _ _ _ _ _ Ha Hb Hc).
Qed.

Lemma vcs_add_accepts_iff_complete_witness :
  (∃ l' e, VCS.vcs_add Fixture.add_request Fixture.ledger
           = (Ok VCS.HttpResponseRedirect, l')
           ∧ VCS.activity_entries l' !! 1 = Some e
           ∧ VCS.ae_amount e = VCS.PStr "100")
  ∧ VCS.vcs_add Fixture.add_request_no_date Fixture.ledger
    = (Raise Http404, Fixture.ledger).
Proof.
  split.
  - destruct (proj1 (vcs_add_accepts_iff_complete
                       Fixture.add_request Fixture.ledger))
      as (l' & e & Hrun & He & _ & Hamount & _).
    + split; [|split]; eexists; vm_compute; reflexivity.
    + exists l', e. split; [exact Hrun|]. split; [exact He|].
      assert (VCS.req_POST Fixture.add_request !! "amount"
              = Some (VCS.PStr "100")) as Hpost by (vm_compute; reflexivity).
      rewrite Hpost in Hamount. by injection Hamount.
  - apply (proj1 (proj2 (vcs_add_accepts_iff_complete
                           Fixture.add_request_no_date Fixture.ledger))).
    unfold VCS.complete_add. vm_compute. intros (_ & _ & [? [=]]).
Defined.

(** C6. [update], given a POST with the id of an existing activity entry
    and a volume [v], sets the amount of that entry to [v] (and leaves its
    other fields and the other entries alone); when [volume] or [id] or
    both are missing it raises [Http404] and the ledger, so the amount of
    every entry, is unchanged. *)
Theorem update_sets_amount_or_404 (request : VCS.Req) (l : VCS.Ledger) :
  (∀ v i k e,
     VCS.req_POST request !! "volume" = Some v →
     VCS.req_POST request !! "id" = Some i →
     VCS.pk_of i = Some k →
     VCS.activity_entries l !! k = Some e →
     ∃ l', VCS.update request l = (Ok VCS.HttpResponse, l')
           ∧ VCS.activity_entries l' !! k = Some (VCS.with_amount v e)
           ∧ VCS.ae_amount (VCS.with_amount v e) = v
           ∧ ∀ k', k' ≠ k →
               VCS.activity_entries l' !! k' = VCS.activity_entries l !! k')
  ∧ (VCS.req_POST request !! "volume" = None
     ∨ VCS.req_POST request !! "id" = None →
     VCS.update request l = (Raise Http404, l)).
Proof.
  split.
  - intros v i k e Hv Hi Hk He. unfold VCS.update.
    rewrite Hv, Hi, Hk. simpl. rewrite He. simpl.
    eexists. split; [reflexivity|]. simpl.
    rewrite lookup_insert_eq. repeat split.
    intros k' Hne. by rewrite lookup_insert_ne.
  - unfold VCS.update. intros [-> | Hi].
    + done.
    + rewrite Hi. by destruct (VCS.req_POST request !! "volume").
Qed.

Lemma update_sets_amount_or_404_witness :
  let l1 := (VCS.vcs_add Fixture.add_request Fixture.ledger).2 in
  (∃ l' e, VCS.update Fixture.update_request l1 = (Ok VCS.HttpResponse, l')
           ∧ VCS.activity_entries l' !! 1 = Some e
           ∧ VCS.ae_amount e = VCS.PInt 1)
  ∧ VCS.update Fixture.add_request l1 = (Raise Http404, l1).
Proof.
  split.
  - edestruct (proj1 (update_sets_amount_or_404 Fixture.update_request
                        (VCS.vcs_add Fixture.add_request Fixture.ledger).2))
      as (l' & Hrun & He & Hamount & _).
    + vm_compute. reflexivity.
    + vm_compute. reflexivity.
    + vm_compute. reflexivity.
    + vm_compute. reflexivity.
    + eexists l', _. split; [exact Hrun|]. split; [exact He|]. reflexivity.
  - apply (proj2 (update_sets_amount_or_404 Fixture.add_request
                    (VCS.vcs_add Fixture.add_request Fixture.ledger).2)).
    left. reflexivity.
Defined.

(** ** Deleting a user *)

Section Delete_user.
Context `{Models}.

Lemma delete_user_self (request : Request) (w : World) :
  same_as_strings request →
  delete_user request w
  = (Ok {| success := false; error := "You cannot delete yourself.";
           calendar := None |}, w).
Proof.
  unfold same_as_strings, delete_user. intros Heq.
  by rewrite decide_True by done.
Qed.

(** Whatever the request, a run that does not pass the guard on the two
    ids leaves the whole world as it was, apart from the log. *)
Lemma delete_user_cases (request : Request) (w : World) r w' :
  delete_user request w = (r, w') →
  (db w' = db w ∧ r ≠ Ok {| success := true; error := EmptyString;
                            calendar := None |})
  ∨ (¬ same_as_strings request
     ∧ Py.truthy (POST request !! "user_id") = true
     ∧ ∃ user, get_by_pk MTbluser (Py.str_opt (POST request !! "user_id"))
                         (users (db w)) = Ok user
               ∧ (r, w') = (delete_Tbluser user >>
                            ret {| success := true; error := EmptyString;
                                   calendar := None |}) w).
Proof.
  unfold delete_user, same_as_strings.
  destruct (decide _) as [Heq|Hne].
  { intros [= <- <-]. left. done. }
  destruct (Py.truthy _) eqn:Ht.
  2:{ intros [= <- <-]. left. done. }
  unfold bind at 1, get_world.
  destruct (get_by_pk _ _ _) as [user|e] eqn:Hget.
  - intros Hrun. right. repeat split; [done|]. exists user. by rewrite Hrun.
  - destruct e as [[]| | | | | | | | | | |];
      intros [= <- <-]; left; done.
Qed.

End Delete_user.

(** The guard of [delete_user] on ids that are equal as strings: whenever
    the posted [user_id] equals the [user_id] of the session, compared as
    strings, the view answers [success = False] with the error "You cannot
    delete yourself." and changes nothing, so no user record is deleted;
    and a run that deletes a user record, or reports success, is one where
    the two ids differ as strings and a [user_id] was posted. *)
Theorem delete_user_not_self `{Models} (request : Request) (w : World) :
  (same_as_strings request →
     delete_user request w
     = (Ok {| success := false; error := "You cannot delete yourself.";
              calendar := None |}, w))
  ∧ (∀ r w',
       delete_user request w = (r, w') →
       users (db w') ≠ users (db w)
       ∨ r = Ok {| success := true; error := EmptyString; calendar := None |} →
       ¬ same_as_strings request
       ∧ Py.truthy (POST request !! "user_id") = true).
Proof.
  split; [apply delete_user_self|].
  intros r w' Hrun Hdel.
  destruct (delete_user_cases request w r w' Hrun) as [[Hdb Hr]|(Hne & Ht & _)].
  - destruct Hdel as [Hu|Hs]; [|done]. by rewrite Hdb in Hu.
  - done.
Qed.

Lemma delete_user_not_self_witness :
  delete_user {| POST := {["user_id" := "1"]}; session := {["user_id" := 1]} |}
              Fixture.world
  = (Ok {| success := false; error := "You cannot delete yourself.";
           calendar := None |}, Fixture.world).
Proof.
  apply (proj1 (delete_user_not_self
                  {| POST := {["user_id" := "1"]};
                     session := {["user_id" := 1]} |} Fixture.world)).
  reflexivity.
Defined.

(** An administrator who posts the id of somebody else does delete that
    user. *)
Example delete_user_other :
  ∃ w', delete_user {| POST := {["user_id" := "3"]};
                       session := {["user_id" := 1]} |} Fixture.world
        = (Ok {| success := true; error := EmptyString; calendar := None |}, w')
        ∧ users (db w') !! 3 = None
        ∧ users (db Fixture.world) !! 3 = Some Fixture.employee.
Proof. eexists. split; [vm_compute; reflexivity|]. split; reflexivity. Qed.

(** C9. [delete_user] does delete the requesting user.  The guard
    compares the posted id and the id of the session as texts, while the
    ORM reads the posted text as a number: the administrator with id 1
    who posts the id with a leading zero, which is another text and the
    same number, passes the guard; the row that is fetched and deleted is
    the administrator's own, and the view reports success. *)
Theorem delete_user_guard_is_textual :
  let request := {| POST := {["user_id" := "01"]};
                    session := {["user_id" := 1]} |} in
  session request !! "user_id" = Some 1
  ∧ (Py.int <$> POST request !! "user_id") = Some (Some 1)
  ∧ ¬ same_as_strings request
  ∧ users (db Fixture.world) !! 1 = Some Fixture.admin
  ∧ ∃ w', delete_user request Fixture.world
          = (Ok {| success := true; error := EmptyString; calendar := None |},
             w')
          ∧ users (db w') !! 1 = None.
Proof.
  intros request. split; [reflexivity|]. split; [reflexivity|].
  split; [vm_compute; discriminate|]. split; [reflexivity|].
  eexists. split; [vm_compute; reflexivity|]. reflexivity.
Qed.

(** ** Queries *)

Section Objects_get.
Context {A : Type}.

Lemma objects_get_Ok (m : model) (P : A → bool) (tbl : gmap Z A) (a : A) :
  objects_get m P tbl = Ok a →
  ∃ k, tbl !! k = Some a ∧ P a = true.
Proof.
  unfold objects_get.
  destruct (map_to_list _) as [|[k a'] [|? ?]] eqn:Hl; try discriminate.
  intros [= ->]. exists k.
  assert ((k, a) ∈ map_to_list
            (filter (λ kv : Z * A, P kv.2 = true) tbl)) as Hin.
  { rewrite Hl. apply list_elem_of_singleton. reflexivity. }
  apply elem_of_map_to_list in Hin.
  apply map_lookup_filter_Some in Hin as [Hk HP]. done.
Qed.

Lemma objects_get_DoesNotExist (m : model) (P : A → bool) (tbl : gmap Z A) m' :
  objects_get m P tbl = Raise (DoesNotExist m') →
  m' = m ∧ ∀ k a, tbl !! k = Some a → P a = false.
Proof.
  unfold objects_get.
  destruct (map_to_list _) as [|[k a'] [|? ?]] eqn:Hl; try discriminate.
  intros [= <-]. split; [done|]. intros k a Hk.
  destruct (P a) eqn:HP; [|done].
  assert ((k, a) ∈ map_to_list
            (filter (λ kv : Z * A, P kv.2 = true) tbl)) as Hin.
  { apply elem_of_map_to_list, map_lookup_filter_Some. done. }
  rewrite Hl in Hin. by apply elem_of_nil in Hin.
Qed.

(** A table with exactly one matching row yields that row. *)
Lemma objects_get_unique (m : model) (P : A → bool) (tbl : gmap Z A) k a :
  tbl !! k = Some a → P a = true →
  (∀ k' a', tbl !! k' = Some a' → P a' = true → k' = k) →
  objects_get m P tbl = Ok a.
Proof.
  intros Hk HP Huniq. unfold objects_get.
  assert (filter (λ kv : Z * A, P kv.2 = true) tbl = {[k := a]}) as ->.
  { apply map_eq. intros k'. apply option_eq. intros a'.
    rewrite map_lookup_filter_Some, lookup_singleton_Some. simpl. split.
    - intros [Hk' HP']. assert (k' = k) as -> by eauto. split; congruence.
    - intros [<- <-]. done. }
  by rewrite map_to_list_singleton.
Qed.

End Objects_get.

(** ** [gen_calendar] *)

Section Calendar_determinism.
Context `{Models} `{Datemaps}.

Lemma gen_calendar_world (year month day : option Z) (user : Z) (w : World) :
  (gen_calendar year month day user w).2 = w.
Proof.
  unfold gen_calendar, bind, get_world, or_raise, lift, ret, raise.
  repeat (case_match; simpl in *; simplify_eq; try done).
Qed.

Lemma link_text_agree d1 d2 data :
  is_linked d1 data = is_linked d2 data →
  resolve_link d1 data = resolve_link d2 data →
  link_text d1 data = link_text d2 data.
Proof. unfold link_text. by intros -> ->. Qed.

Lemma calendar_cell_agree d1 d2 database year month _day :
  links_agree d1 d2 database →
  calendar_cell d1 database year month _day
  = calendar_cell d2 database year month _day.
Proof.
  intros Hl. unfold calendar_cell.
  destruct (objects_get _ _ database) as [data|e] eqn:Hget; [|done].
  apply objects_get_Ok in Hget as (k & Hk & _).
  destruct (Hl k data Hk) as [Hi Hr].
  by rewrite (link_text_agree d1 d2 data Hi Hr).
Qed.

Lemma calendar_week_agree d1 d2 database year month week_ :
  links_agree d1 d2 database →
  calendar_week d1 database year month week_
  = calendar_week d2 database year month week_.
Proof.
  intros Hl. induction week_ as [|_day rest IH]; [done|].
  simpl. by rewrite (calendar_cell_agree d1 d2), IH.
Qed.

Lemma calendar_weeks_agree d1 d2 database year month calendar_array :
  links_agree d1 d2 database →
  calendar_weeks d1 database year month calendar_array
  = calendar_weeks d2 database year month calendar_array.
Proof.
  intros Hl. induction calendar_array as [|week_ rest IH]; [done|].
  simpl. by rewrite (calendar_week_agree d1 d2), IH.
Qed.

Lemma calendar_queries_agree (d1 d2 : DB) (user year month : Z) :
  calendar_queries d1 user year month = calendar_queries d2 user year month →
  users d1 !! user = users d2 !! user
  ∧ ∀ u, users d1 !! user = Some u →
         month_entries d1 (usr_id u) year month
         = month_entries d2 (usr_id u) year month
         ∧ links_agree d1 d2 (month_entries d1 (usr_id u) year month).
Proof.
  unfold calendar_queries. intros Hq.
  destruct (users d1 !! user) as [u1|], (users d2 !! user) as [u2|];
    simpl in Hq; try discriminate; [|done].
  injection Hq as <- Hm. split; [done|].
  intros u [= <-].
  assert (∀ k, (λ e, (e, is_linked d1 e, resolve_link d1 e))
                 <$> month_entries d1 (usr_id u1) year month !! k
               = (λ e, (e, is_linked d2 e, resolve_link d2 e))
                   <$> month_entries d2 (usr_id u1) year month !! k) as Hk.
  { intros k. by rewrite <-!lookup_fmap, Hm. }
  split.
  - apply map_eq. intros k. specialize (Hk k).
    destruct (month_entries d1 _ _ _ !! k), (month_entries d2 _ _ _ !! k);
      simpl in Hk; congruence.
  - intros k e He. specialize (Hk k). rewrite He in Hk. simpl in Hk.
    destruct (month_entries d2 _ _ _ !! k); simpl in Hk; [|done].
    by injection Hk as <- -> ->.
Qed.

End Calendar_determinism.

(** C4. [gen_calendar] is a function of its arguments and of what its
    queries return: two calls with the same explicit year, month, day and
    user return the same HTML (or raise the same exception) in any two
    worlds in which the user, the user's tracking entries of that month and
    the links of these entries are the same; the date of the day, the cache
    and the rest of the tables have no influence, and the call changes
    nothing. *)
Theorem gen_calendar_deterministic `{Models} `{Datemaps}
    (year month day user : Z) (w1 w2 : World) :
  calendar_queries (db w1) user year month
  = calendar_queries (db w2) user year month →
  (gen_calendar (Some year) (Some month) (Some day) user w1).1
  = (gen_calendar (Some year) (Some month) (Some day) user w2).1
  ∧ (gen_calendar (Some year) (Some month) (Some day) user w1).2 = w1
  ∧ (gen_calendar (Some year) (Some month) (Some day) user w2).2 = w2.
Proof.
  intros Hq. split; [|split; apply gen_calendar_world].
  apply calendar_queries_agree in Hq as [Hu Hm].
  unfold gen_calendar, bind, get_world. simpl.
  destruct (decide (is_Some (MONTH_MAP !! (month - 1)))); [|done].
  rewrite <-Hu. destruct (users (db w1) !! user) as [u|]; [|done].
  destruct (Hm u eq_refl) as [Hme Hl]. simpl.
  rewrite <-Hme.
  destruct (monthcalendar year month) as [calendar_array|]; [|done]. simpl.
  destruct (MONTH_MAP !! (month - 1)) as [[short long]|]; [|done]. simpl.
  unfold lift.
  rewrite (calendar_weeks_agree (db w1) (db w2)) by done.
  by destruct (calendar_weeks (db w2) _ year month calendar_array).
Qed.

Lemma gen_calendar_deterministic_witness :
  (gen_calendar (Some 2012) (Some 2) (Some 1) 3 Fixture.world).1
  = (gen_calendar (Some 2012) (Some 2) (Some 1) 3 Fixture.world_later).1
  ∧ (gen_calendar (Some 2012) (Some 2) (Some 1) 3 Fixture.world).2
    = Fixture.world
  ∧ (gen_calendar (Some 2012) (Some 2) (Some 1) 3 Fixture.world_later).2
    = Fixture.world_later.
Proof.
  apply (gen_calendar_deterministic 2012 2 1 3 Fixture.world Fixture.world_later).
  vm_compute. reflexivity.
Defined.

(** ** [mass_holidays] *)

Section Mass_holidays.
Context `{Models} `{Datemaps} `{Json}.

(** Runs the loop body up to the query for the current entry. *)
Ltac enter_day Hposted :=
  let Hday := fresh "Hday" in
  let Hy := fresh "Hy" in
  let Hm := fresh "Hm" in
  let Hc := fresh "Hc" in
  let Hv := fresh "Hv" in
  let Hd := fresh "Hd" in
  let Hu := fresh "Hu" in
  destruct Hposted as (Hday & (? & ? & Hy & Hm & Hc & Hv) & Hd & Hu);
  unfold mass_holidays_day;
  rewrite (decide_False (P := _ = 0)) by done;
  rewrite Hy, Hm, Hc, Hv; cbn [negb];
  unfold bind at 1, or_raise at 1; rewrite Hd; cbn [ret];
  unfold bind at 1, or_raise at 1; rewrite Hu; cbn [ret];
  unfold bind at 1, get_world at 1.

Lemma mass_holidays_day_skipped year month user_key sick_sent day daytype w :
  skipped_day year month day →
  mass_holidays_day year month user_key sick_sent day daytype w
  = (Ok sick_sent, w).
Proof.
  unfold mass_holidays_day.
  intros [->|[Hy|[Hm|(y & m & Hy & Hm & Hc & Hv)]]].
  - done.
  - case_decide; [done|]. by rewrite Hy.
  - case_decide; [done|]. rewrite Hm. by destruct (Py.int year).
  - case_decide; [done|]. by rewrite Hy, Hm, Hc, Hv.
Qed.

Lemma mass_holidays_day_empty_absent
    year month user_key sick_sent day w d u :
  posted_day year month user_key day d u →
  entry_on (db w) d u = Raise (DoesNotExist MTrackingEntry) →
  mass_holidays_day year month user_key sick_sent day "empty" w
  = (Ok sick_sent, w).
Proof.
  intros Hp Hq. enter_day Hp. rewrite Hq.
  by rewrite decide_True by auto.
Qed.

Lemma mass_holidays_day_empty_unlinked
    year month user_key sick_sent day w d u e k :
  posted_day year month user_key day d u →
  entry_on (db w) d u = Ok e →
  is_linked (db w) e = false →
  te_id e = Some k →
  mass_holidays_day year month user_key sick_sent day "empty" w
  = (Ok sick_sent, set_db (set_entries (base.delete k)) w).
Proof.
  intros Hp Hq Hl Hk. enter_day Hp. rewrite Hq, Hl. cbn [andb].
  rewrite decide_True by done.
  unfold bind, delete. by rewrite Hk.
Qed.

Lemma mass_holidays_day_empty_linked
    year month user_key sick_sent day w d u e e' w1 k :
  posted_day year month user_key day d u →
  entry_on (db w) d u = Ok e →
  is_linked (db w) e = true →
  unlink e w = (e', w1) →
  te_id e' = Some k →
  mass_holidays_day year month user_key sick_sent day "empty" w
  = (Ok sick_sent, set_db (set_entries (base.delete k)) w1).
Proof.
  intros Hp Hq Hl Hun Hk. enter_day Hp. rewrite Hq, Hl.
  rewrite bool_decide_eq_true_2 by done. cbn [andb].
  unfold bind, do_unlink, delete. rewrite Hun. by rewrite Hk.
Qed.

Lemma mass_holidays_day_linkd
    year month user_key sick_sent day w d u :
  posted_day year month user_key day d u →
  entry_on (db w) d u = Raise (DoesNotExist MTrackingEntry)
  ∨ (∃ e, entry_on (db w) d u = Ok e) →
  mass_holidays_day year month user_key sick_sent day "LINKD" w
  = (Ok sick_sent, w).
Proof.
  intros Hp [Hq|[e Hq]]; enter_day Hp; rewrite Hq.
  - by rewrite decide_True by auto.
  - rewrite bool_decide_eq_false_2 by done. rewrite andb_false_r.
    rewrite decide_False by done. by rewrite decide_True by done.
Qed.

Lemma mass_holidays_day_update
    year month user_key sick_sent day daytype w d u e k :
  daytype ≠ "empty" → daytype ≠ "LINKD" →
  posted_day year month user_key day d u →
  entry_on (db w) d u = Ok e →
  te_id e = Some k →
  constraint_violation (db w) (with_daytype daytype e) = None →
  mass_holidays_day year month user_key sick_sent day daytype w
  = (Ok sick_sent, set_db (set_entries <[k := with_daytype daytype e]>) w).
Proof.
  intros He Hl Hp Hq Hk Hc'. enter_day Hp. rewrite Hq.
  rewrite bool_decide_eq_false_2 by done. rewrite andb_false_r.
  rewrite !decide_False by done.
  unfold bind, save. rewrite Hc'. simpl. by rewrite Hk.
Qed.

Lemma mass_holidays_day_create
    year month user_key sick_sent day daytype w d u usr :
  daytype ≠ "empty" → daytype ≠ "LINKD" →
  posted_day year month user_key day d u →
  entry_on (db w) d u = Raise (DoesNotExist MTrackingEntry) →
  users (db w) !! u = Some usr →
  constraint_violation (db w) (new_holiday_entry None u usr d daytype) = None →
  let new_entry :=
    new_holiday_entry (Some (entry_seq (db w))) u usr d daytype in
  let w1 := create_approval_request new_entry (inserted new_entry w) in
  is_Some (users (db w1) !! u) →
  ∃ sick_sent' w',
    mass_holidays_day year month user_key sick_sent day daytype w
    = (Ok sick_sent', w')
    ∧ (w' = w1 ∨ ∃ sickuser, w' = sendsicknotification sickuser w1).
Proof.
  intros He Hl Hp Hq Husr Hc' new_entry w1 [sickuser Hsick]. enter_day Hp.
  rewrite Hq.
  rewrite decide_False by (intros [?|?]; done).
  unfold bind at 1, or_raise at 1. rewrite Husr. cbn [ret].
  unfold new_holiday_entry in *.
  destruct (get_shiftlength_list usr) as [[start end_] breaks] eqn:Hsh.
  cbn [fst snd] in *.
  unfold bind at 1, save at 1.
  rewrite Hc'. cbn [te_id]. unfold with_id.
  cbn [te_user te_entry_date te_start_time te_end_time te_breaks te_daytype
       te_comments te_link].
  unfold bind at 1, modify at 1. fold new_entry. fold w1.
  destruct (negb sick_sent && bool_decide (daytype = "SICKD")).
  - unfold bind at 1, get_world at 1.
    unfold bind at 1, or_raise at 1. rewrite Hsick. cbn [ret].
    destruct (shouldnotifysick (db w1) sickuser _).
    + eexists _, _. split; [reflexivity|]. right. by exists sickuser.
    + eexists _, _. split; [reflexivity|]. by left.
  - eexists _, _. split; [reflexivity|]. by left.
Qed.

Lemma mass_holidays_response request year month holidays sick_sent w w' :
  POST request !! "year" = Some year →
  POST request !! "month" = Some month →
  simplejson_loads (POST request !! "mass_data") = Ok holidays →
  mass_holidays_users year month false holidays w = (Ok sick_sent, w') →
  mass_holidays request w
  = (Ok {| success := true; error := EmptyString; calendar := None |}, w').
Proof.
  intros Hy Hm Hj Hrun. unfold mass_holidays, bind, or_raise.
  rewrite Hy, Hm. cbn [ret]. rewrite Hj, Hrun. done.
Qed.

(** The two loops visit the posted items one after the other. *)
Lemma process_items_app year month sick_sent items1 items2 w :
  process_items year month sick_sent (items1 ++ items2) w
  = (let* sick_sent := process_items year month sick_sent items1 in
     process_items year month sick_sent items2) w.
Proof.
  revert sick_sent w. induction items1 as [|[[user_key day] daytype] rest IH];
    intros sick_sent w; [done|].
  cbn [app process_items]. unfold bind.
  destruct (mass_holidays_day _ _ _ _ _ _ w) as [[sick_sent'|e] w1]; [|done].
  by rewrite IH.
Qed.

Lemma mass_holidays_days_items year month user_key daytypes :
  ∀ sick_sent day w,
    mass_holidays_days year month user_key sick_sent day daytypes w
    = process_items year month sick_sent
        (imap (λ i daytype, (user_key, day + Z.of_nat i, daytype)) daytypes) w.
Proof.
  induction daytypes as [|daytype rest IH]; intros sick_sent day w; [done|].
  cbn [mass_holidays_days imap process_items].
  replace (day + Z.of_nat 0) with day by lia.
  unfold bind.
  destruct (mass_holidays_day _ _ _ _ _ _ w) as [[sick_sent'|e] w1]; [|done].
  rewrite IH. f_equal. apply imap_ext. intros i x _. simpl. do 2 f_equal. lia.
Qed.

Lemma mass_holidays_users_items year month holidays :
  ∀ sick_sent w,
    mass_holidays_users year month sick_sent holidays w
    = process_items year month sick_sent (posted_items holidays) w.
Proof.
  induction holidays as [|[user_key daytypes] rest IH]; intros sick_sent w;
    [done|].
  cbn [mass_holidays_users posted_items flat_map]. rewrite process_items_app.
  unfold bind.
  rewrite mass_holidays_days_items.
  assert (imap (λ (i : nat) (daytype : string),
                  (user_key, 0 + Z.of_nat i, daytype)) daytypes
          = imap (λ (i : nat) (daytype : string),
                    ((user_key, daytypes).1, Z.of_nat i, daytype))
                 (user_key, daytypes).2) as ->.
  { apply imap_ext. intros i x _. simpl. do 2 f_equal. }
  destruct (process_items _ _ _ _ w) as [[sick_sent'|e] w1]; [|done].
  apply IH.
Qed.

Lemma elem_of_posted_items holidays user_key day daytype :
  (user_key, day, daytype) ∈ posted_items holidays
  ↔ ∃ daytypes (i : nat),
      (user_key, daytypes) ∈ holidays ∧ daytypes !! i = Some daytype
      ∧ day = Z.of_nat i.
Proof.
  unfold posted_items.
  induction holidays as [|[u dts] rest IH]; cbn [flat_map].
  - split; [by intros Hin%elem_of_nil|].
    by intros (daytypes & i & Hin%elem_of_nil & _).
  - rewrite elem_of_app, IH, elem_of_lookup_imap. split.
    + intros [(i & dt & Heq & Hi)|(daytypes & i & Hin & Hi & ->)].
      * simpl in Heq. injection Heq as -> -> ->.
        exists dts, i. split; [left|done].
      * exists daytypes, i. split; [by right|done].
    + intros (daytypes & i & Hin & Hi & ->).
      apply elem_of_cons in Hin as [Heq|Hin].
      * injection Heq as -> ->. left. by exists i, daytype.
      * right. by exists daytypes, i.
Qed.

Lemma mass_holidays_items request year month holidays w :
  POST request !! "year" = Some year →
  POST request !! "month" = Some month →
  simplejson_loads (POST request !! "mass_data") = Ok holidays →
  mass_holidays request w
  = (let* _ := process_items year month false (posted_items holidays) in
     ret {| success := true; error := EmptyString; calendar := None |}) w.
Proof.
  intros Hy Hm Hj. unfold mass_holidays, bind, or_raise.
  rewrite Hy, Hm. cbn [ret]. rewrite Hj. by rewrite mass_holidays_users_items.
Qed.

End Mass_holidays.

(** C7. [mass_holidays] works through the posted data item by item.
    The items are the daytypes of the posted arrays with their user and
    their index; the view runs the loop body on every one of them, user by
    user and index by index, each in the state that the items before it
    have left, until an item raises, which ends the view with that
    exception; when no item raises, the response reports success.  For
    the daytype posted at index [day] of a user's array: index 0 and
    indices that are no date of the posted year and month are passed over.
    Otherwise, with [d] the date and [u] the number of the user key, and a
    table in which the user has one entry on [d] or none: "empty" deletes
    the entry, unlinking it first when it is linked, and does nothing when
    there is none; "LINKD" changes nothing; any other daytype is written
    into the existing entry, which is saved in place, or, when there is no
    entry and [u] is the number of a user, a new entry for [d] with the
    start time, end time and breaks of the user's shift is inserted
    (followed by its approval request and, possibly, the sickness
    notification), in both cases when the save passes the constraints of
    the table. *)
Theorem mass_holidays_day_by_day `{Models} `{Datemaps} `{Json}
    (year month user_key : string) (sick_sent : bool) (day : Z)
    (daytype : string) (w : World) :
  let step := mass_holidays_day year month user_key sick_sent day in
  let absent d u := entry_on (db w) d u = Raise (DoesNotExist MTrackingEntry) in
  let done_ := {| success := true; error := EmptyString; calendar := None |} in
  (skipped_day year month day → step daytype w = (Ok sick_sent, w))
  ∧ (∀ d u, posted_day year month user_key day d u →
       (absent d u → step "empty" w = (Ok sick_sent, w))
       ∧ (∀ e k, entry_on (db w) d u = Ok e →
                 is_linked (db w) e = false → te_id e = Some k →
                 step "empty" w
                 = (Ok sick_sent, set_db (set_entries (base.delete k)) w))
       ∧ (∀ e e' w1 k, entry_on (db w) d u = Ok e →
                       is_linked (db w) e = true →
                       unlink e w = (e', w1) → te_id e' = Some k →
                       step "empty" w
                       = (Ok sick_sent, set_db (set_entries (base.delete k)) w1))
       ∧ (absent d u ∨ (∃ e, entry_on (db w) d u = Ok e) →
          step "LINKD" w = (Ok sick_sent, w))
       ∧ (daytype ≠ "empty" → daytype ≠ "LINKD" →
          (∀ e k, entry_on (db w) d u = Ok e → te_id e = Some k →
                  constraint_violation (db w) (with_daytype daytype e) = None →
                  step daytype w
                  = (Ok sick_sent,
                     set_db (set_entries <[k := with_daytype daytype e]>) w))
          ∧ (∀ usr,
               absent d u → users (db w) !! u = Some usr →
               constraint_violation (db w)
                 (new_holiday_entry None u usr d daytype) = None →
               let new_entry :=
                 new_holiday_entry (Some (entry_seq (db w))) u usr d daytype in
               let w1 := create_approval_request new_entry (inserted new_entry w) in
               is_Some (users (db w1) !! u) →
               ∃ sick_sent' w',
                 step daytype w = (Ok sick_sent', w')
                 ∧ (w' = w1 ∨ ∃ sickuser, w' = sendsicknotification sickuser w1))))
  ∧ (∀ request holidays,
       POST request !! "year" = Some year →
       POST request !! "month" = Some month →
       simplejson_loads (POST request !! "mass_data") = Ok holidays →
       (∀ user_key' day' daytype',
          (user_key', day', daytype') ∈ posted_items holidays
          ↔ ∃ daytypes (i : nat),
              (user_key', daytypes) ∈ holidays
              ∧ daytypes !! i = Some daytype' ∧ day' = Z.of_nat i)
       ∧ mass_holidays request w
         = (let* _ := process_items year month false (posted_items holidays) in
            ret done_) w
       ∧ (∀ before user_key' day' daytype' after s1 w1,
            posted_items holidays
            = before ++ (user_key', day', daytype') :: after →
            process_items year month false before w = (Ok s1, w1) →
            mass_holidays request w
            = (let* s2 :=
                 mass_holidays_day year month user_key' s1 day' daytype' in
               let* _ := process_items year month s2 after in
               ret done_) w1)
       ∧ (∀ before e w1,
            before `prefix_of` posted_items holidays →
            process_items year month false before w = (Raise e, w1) →
            mass_holidays request w = (Raise e, w1))
       ∧ (∀ s w',
            process_items year month false (posted_items holidays) w
            = (Ok s, w') →
            mass_holidays request w = (Ok done_, w'))).
Proof.
  intros step absent done_. split; [|split].
  - apply mass_holidays_day_skipped.
  - intros d u Hp. repeat split.
    + by apply mass_holidays_day_empty_absent.
    + intros e k. by apply mass_holidays_day_empty_unlinked.
    + intros e e' w1 k. by apply mass_holidays_day_empty_linked.
    + by apply mass_holidays_day_linkd.
    + intros e k. by apply mass_holidays_day_update.
    + intros usr. by apply mass_holidays_day_create.
  - intros request holidays Hy Hm Hj.
    pose proof (mass_holidays_items request year month holidays w Hy Hm Hj)
      as Hrun.
    split; [intros u' d' dt'; apply elem_of_posted_items|].
    split; [exact Hrun|]. split; [|split].
    + intros before u' d' dt' after s1 w1 Hitems Hbefore.
      rewrite Hrun, Hitems. unfold bind at 1.
      rewrite process_items_app. unfold bind. rewrite Hbefore.
      cbn [process_items]. unfold bind.
      by destruct (mass_holidays_day _ _ _ _ _ _ w1) as [[s2|e] w2].
    + intros before e w1 [after Hitems] Hbefore.
      rewrite Hrun, Hitems. unfold bind at 1.
      rewrite process_items_app. unfold bind. by rewrite Hbefore.
    + intros s w' Hall. rewrite Hrun. unfold bind. by rewrite Hall.
Qed.

Lemma mass_holidays_day_by_day_witness :
  ∃ w', mass_holidays Fixture.mass_request Fixture.world
        = (Ok {| success := true; error := EmptyString; calendar := None |}, w')
        ∧ posted_items [("3", ["empty"; "HOLIS"; "empty"; "SICKD"])]
          = [("3", 0, "empty"); ("3", 1, "HOLIS"); ("3", 2, "empty");
             ("3", 3, "SICKD")]
        ∧ fields_of <$> entries (db w') !! 12
          = Some {| f_entry_date := mkdate 2012 2 1;
                    f_start_time := mktime 9 0 0; f_end_time := mktime 17 0 0;
                    f_daytype := "HOLIS"; f_breaks := mktime 0 15 0 |}
        ∧ te_daytype <$> entries (db w') !! 13 = Some "SICKD".
Proof.
  eexists. split.
  - eapply (proj2 (proj2 (mass_holidays_day_by_day
                            "2012" "2" "3" false 0 "empty" Fixture.world))
              Fixture.mass_request).
    + reflexivity.
    + reflexivity.
    + reflexivity.
    + vm_compute. reflexivity.
  - split; [reflexivity|]. vm_compute. split; reflexivity.
Defined.

(** As the claim is written, every posted item with a daytype other than
    "empty" and "LINKD" for which no entry exists leads to a new entry,
    and the response reports success.  The user key of an item is posted
    text: for the number of no user the view looks the user up, which
    raises [DoesNotExist]; no entry is made and no response reports
    success. *)
Lemma mass_holidays_unknown_user :
  simplejson_loads (Json := Fixture_unknown.unknown_json)
                   (Some Fixture_unknown.unknown_data)
  = Ok [("9", ["empty"; "HOLIS"])]
  ∧ posted_day "2012" "2" "9" 1 (mkdate 2012 2 1) 9
  ∧ entry_on (db Fixture.world) (mkdate 2012 2 1) 9
    = Raise (DoesNotExist MTrackingEntry)
  ∧ users (db Fixture.world) !! 9 = None
  ∧ mass_holidays (H1 := Fixture_unknown.unknown_json)
      {| POST := {["year" := "2012"; "month" := "2";
                   "mass_data" := Fixture_unknown.unknown_data]};
         session := {["user_id" := 1]} |} Fixture.world
    = (Raise (DoesNotExist MTbluser), Fixture.world).
Proof.
  split; [vm_compute; reflexivity|]. split.
  { split; [done|]. split; [by exists 2012, 2|]. split; vm_compute; reflexivity. }
  split; [vm_compute; reflexivity|]. split; [reflexivity|].
  vm_compute. reflexivity.
Qed.

(** The cases of the loop body on the example data: the working day of the
    6th becomes a holiday in place, or is deleted; the 30th of February is
    passed over; a user that does not exist makes the view fail. *)
Example mass_holidays_day_examples :
  (∃ w', mass_holidays_day "2012" "2" "3" false 6 "HOLIS" Fixture.world
         = (Ok false, w')
         ∧ entries (db w') !! 10
           = Some (with_daytype "HOLIS" Fixture.workday))
  ∧ (∃ w', mass_holidays_day "2012" "2" "3" false 6 "empty" Fixture.world
           = (Ok false, w')
           ∧ entries (db w') !! 10 = None)
  ∧ mass_holidays_day "2012" "2" "3" false 30 "HOLIS" Fixture.world
    = (Ok false, Fixture.world)
  ∧ (mass_holidays_day "2012" "2" "9" false 3 "HOLIS" Fixture.world).1
    = Raise (DoesNotExist MTbluser).
Proof.
  split; [|split; [|split]].
  - eexists. split; [vm_compute; reflexivity|]. reflexivity.
  - eexists. split; [vm_compute; reflexivity|]. reflexivity.
  - vm_compute. reflexivity.
  - vm_compute. reflexivity.
Qed.

(** ** [ajax_change_entry] *)

Section Change_entry.
Context `{Models} `{Datemaps}.

Lemma save_existing (e : TrackingEntry) (k : Z) (w : World) :
  constraint_violation (db w) e = None → te_id e = Some k →
  save e w = (Ok e, set_db (set_entries <[k := e]>) w).
Proof. intros Hc Hk. unfold save. by rewrite Hc, Hk. Qed.

(** What [stored_data] holds: the fields of the fetched entry after the
    first [unlink]. *)
Lemma change_entry_apply_stored form user_id w user stored entry w1 :
  change_entry_apply form user_id w = (Ok (user, stored, entry), w1) →
  ∃ e0, get_by_pk MTrackingEntry (Py.str_opt (field form "hidden-id"))
                  (entries (db w)) = Ok e0
        ∧ stored = fields_of (unlink e0 w).1.
Proof.
  unfold change_entry_apply.
  unfold bind at 1, get_world at 1.
  unfold bind at 1, or_raise at 1.
  destruct (users (db w) !! user_id) as [u|]; [|discriminate]. cbn [ret].
  unfold bind at 1, lift at 1.
  destruct (get_by_pk _ _ _) as [e0|]; [|discriminate].
  unfold bind at 1, do_unlink at 1.
  destruct (unlink e0 w) as [e1 w0] eqn:Hun.
  intros Hrest. exists e0. split; [done|]. simpl.
  unfold bind in Hrest.
  repeat (case_match; simplify_eq; try done).
  all: unfold ret in Hrest; injection Hrest as <- <- <- <-; by rewrite Hun.
Qed.

Lemma with_fields_restores stored e :
  fields_of (with_link None (with_fields stored e)) = stored
  ∧ te_link (with_link None (with_fields stored e)) = None.
Proof. by destruct stored. Qed.

End Change_entry.

(** C8. [ajax_change_entry] undoes the change to the entry on the
    undertime-link error.  When the requested change has been applied to
    an existing entry and validated, and the changed entry is undertime
    while it is linked or a link was requested, then, provided the two
    saves of this branch pass the constraints of the database, the view
    answers with [success = False] and the row of the entry holds again,
    in [entry_date], [start_time], [end_time], [daytype] and [breaks],
    exactly the values remembered before the change (those of the fetched
    entry after its first [unlink]) and has no link.  The error is "You
    cannot link an undertime entry." when the calendar for the answer is
    generated; when generating it raises, the error is the text of that
    exception, which is logged, and the answer holds no calendar. *)
Theorem ajax_change_entry_undertime_restores `{Models} `{Datemaps}
    (request : Request) (w : World)
    (form : gmap string (option string)) (user_id year month day : Z)
    (user : Tbluser) (stored : entry_fields) (entry : TrackingEntry)
    (w1 : World) (k : Z) (entry' : TrackingEntry) (w2 : World) (k' : Z) :
  get_request_data change_entry_form request = Ok (form, user_id) →
  Py.truthy (field form "start_time") && Py.truthy (field form "end_time")
  = true →
  validate_time (Py.str_opt (field form "start_time"))
                (Py.str_opt (field form "end_time")) = Ok true →
  parse_ymd (field form "entry_date") = Ok (year, month, day) →
  Py.truthy (field form "hidden-id") = true →
  change_entry_apply form user_id w = (Ok (user, stored, entry), w1) →
  is_undertime (db w1) entry
  && (is_linked (db w1) entry || Py.truthy (field form "link")) = true →
  constraint_violation (db w1) entry = None →
  te_id entry = Some k →
  unlink entry (set_db (set_entries <[k := entry]>) w1) = (entry', w2) →
  let restored := with_link None (with_fields stored entry') in
  constraint_violation (db w2) restored = None →
  te_id entry' = Some k' →
  let w3 := set_db (set_entries <[k' := restored]>) w2 in
  ∃ (response : json_data) (w' : World),
    ajax_change_entry request w = (Ok response, w')
    ∧ success response = false
    ∧ entries (db w') !! k' = Some restored
    ∧ fields_of restored = stored
    ∧ te_link restored = None
    ∧ (∃ e0, get_by_pk MTrackingEntry (Py.str_opt (field form "hidden-id"))
                       (entries (db w)) = Ok e0
             ∧ stored = fields_of (unlink e0 w).1)
    ∧ (∀ cal,
         (gen_calendar (Some year) (Some month) (Some day) user_id w3).1 = Ok cal →
         response = {| success := false;
                       error := "You cannot link an undertime entry.";
                       calendar := Some cal |}
         ∧ w' = w3)
    ∧ (∀ err,
         (gen_calendar (Some year) (Some month) (Some day) user_id w3).1
         = Raise err →
         response = {| success := false; error := str_exn err;
                       calendar := None |}
         ∧ w' = set_logs (λ l, l ++ [str_exn err]) w3).
Proof.
  intros Hform Htimes Hvalid Hymd Hid Happly Hunder Hc1 Hk Hun restored
         Hc2 Hk' w3.
  pose proof (change_entry_apply_stored _ _ _ _ _ _ _ Happly) as Hstored.
  destruct (with_fields_restores stored entry') as [Hf Hl].
  fold restored in Hf, Hl.
  assert (change_entry_try form user_id year month day w
          = (let* calendar :=
               gen_calendar (Some year) (Some month) (Some day) user_id in
             ret (Some {| success := false;
                          error := "You cannot link an undertime entry.";
                          calendar := Some calendar |})) w3) as Htry.
  { unfold change_entry_try.
    unfold bind at 1. rewrite Happly.
    unfold bind at 1, get_world at 1. rewrite Hunder.
    unfold bind at 1. rewrite (save_existing entry k w1 Hc1 Hk).
    unfold bind at 1, do_unlink at 1. rewrite Hun.
    unfold bind at 1. fold restored.
    rewrite (save_existing restored k' w2 Hc2 Hk'). reflexivity. }
  assert (entries (db w3) !! k' = Some restored) as Hrow.
  { unfold w3. simpl. apply lookup_insert_eq. }
  unfold ajax_change_entry.
  unfold bind at 1, lift at 1. rewrite Hform. rewrite Htimes. cbn [negb].
  unfold bind at 1, lift at 1. rewrite Hvalid. cbn [negb].
  unfold bind at 1, lift at 1. rewrite Hymd. rewrite Hid.
  unfold bind at 1, try_except. rewrite Htry.
  unfold bind at 1.
  pose proof (gen_calendar_world (Some year) (Some month) (Some day)
                                 user_id w3) as Hw.
  destruct (gen_calendar (Some year) (Some month) (Some day) user_id w3)
    as [[cal|e] w4]; simpl in Hw; subst w4.
  - eexists _, _. split; [reflexivity|]. simpl.
    do 5 (split; [done|]). split; [by intros cal' [= <-]|by intros err [=]].
  - eexists _, _. split; [reflexivity|]. simpl.
    do 5 (split; [done|]). split; [by intros cal' [=]|].
    intros err [= <-]. done.
Qed.

Lemma ajax_change_entry_undertime_restores_witness :
  ∃ response w',
    ajax_change_entry Fixture.change_request Fixture.world = (Ok response, w')
    ∧ success response = false
    ∧ error response = "You cannot link an undertime entry."
    ∧ fields_of <$> entries (db w') !! 10 = Some (fields_of Fixture.workday)
    ∧ te_link <$> entries (db w') !! 10 = Some None.
Proof.
  edestruct (ajax_change_entry_undertime_restores
               Fixture.change_request Fixture.world)
    as (response & w' & Hrun & Hs & Hrow & Hf & Hl & _ & Hcal & _).
  - vm_compute. reflexivity.
  - vm_compute. reflexivity.
  - vm_compute. reflexivity.
  - vm_compute. reflexivity.
  - vm_compute. reflexivity.
  - vm_compute. reflexivity.
  - vm_compute. reflexivity.
  - vm_compute. reflexivity.
  - vm_compute. reflexivity.
  - vm_compute. reflexivity.
  - vm_compute. reflexivity.
  - vm_compute. reflexivity.
  - edestruct Hcal as [Hresp _]; [vm_compute; reflexivity|].
    exists response, w'. split; [exact Hrun|]. split; [exact Hs|].
    split; [by rewrite Hresp|].
    rewrite Hrow. split; reflexivity.
Defined.

(** As the claim is written, every change that would make the entry
    undertime while a link is requested is answered with "You cannot link
    an undertime entry." and leaves things as they were.  In the example
    the changed entry is undertime and a link is requested, but the
    changed date is one on which the employee has an entry already: the
    first save of the branch is refused, the answer carries the message of
    the database, and the [LINKD] entry that was made for the requested
    link before the check stays in the table. *)
Lemma ajax_change_entry_duplicate_not_undone :
  (∃ form user_id user stored entry w1,
     get_request_data change_entry_form Fixture_duplicate.duplicate_request
     = Ok (form, user_id)
     ∧ change_entry_apply form user_id Fixture.world
       = (Ok (user, stored, entry), w1)
     ∧ te_id entry = Some 10
     ∧ is_undertime (db w1) entry
       && (is_linked (db w1) entry || Py.truthy (field form "link")) = true
     ∧ constraint_violation (db w1) entry = Some "Duplicate entry")
  ∧ ∃ response w',
      ajax_change_entry Fixture_duplicate.duplicate_request Fixture.world
      = (Ok response, w')
      ∧ success response = false
      ∧ error response = "Duplicate entry"
      ∧ error response ≠ "You cannot link an undertime entry."
      ∧ entries (db Fixture.world) !! 12 = None
      ∧ te_daytype <$> entries (db w') !! 12 = Some "LINKD".
Proof.
  split.
  - eexists _, _, _, _, _, _. split; [vm_compute; reflexivity|].
    split; [vm_compute; reflexivity|]. split; [reflexivity|].
    split; vm_compute; reflexivity.
  - eexists _, _. split; [vm_compute; reflexivity|].
    split; [reflexivity|]. split; [reflexivity|]. split; [discriminate|].
    split; reflexivity.
Qed.

(** ** The cache of [gen_holiday_list] *)

(** C3. The cached row is not what would be regenerated.  The row of a
    subordinate is stored under the user and the year only, although it
    shows the job code or hides it according to the viewer.  In the
    example the administrator, who may see job codes, loads the table of
    February 2012; the team leader, who may not, loads it next, against
    the same database.  The row served from the cache shows the job code
    of the employee, the row regenerated for the team leader without the
    cache does not; the day cells, the comments and the script are the
    same. *)
Theorem gen_holiday_list_cached_row_differs :
  let w0 := Fixture.world in
  let w1 := (gen_holiday_list Fixture.admin (Some 2012) (Some 2) None w0).2 in
  let job_code :=
    Py.cat ["<td class="; Py.dq; "job_code"; Py.dq; ">ABC123</td>"] in
  ∃ cached cached_js fresh fresh_js,
    db w1 = db w0
    ∧ is_Some (cache w1 !! row_key 3 2012)
    ∧ can_view_jobcodes Fixture.admin = true
    ∧ can_view_jobcodes Fixture.leader = false
    ∧ (gen_holiday_list Fixture.leader (Some 2012) (Some 2) None w1).1
      = Ok (cached, [], cached_js)
    ∧ (gen_holiday_list Fixture.leader (Some 2012) (Some 2) None w0).1
      = Ok (fresh, [], fresh_js)
    ∧ cached ≠ fresh
    ∧ Py.contains job_code cached = true
    ∧ Py.contains job_code fresh = false
    ∧ cached_js = fresh_js.
Proof.
  intros w0 w1 job_code.
  eexists _, _, _, _.
  split; [vm_compute; reflexivity|].
  split; [vm_compute; eauto|].
  split; [reflexivity|]. split; [reflexivity|].
  split; [vm_compute; reflexivity|].
  split; [vm_compute; reflexivity|].
  split.
  { intros Heq. apply (f_equal String.length) in Heq.
    vm_compute in Heq. discriminate. }
  split; [vm_compute; reflexivity|].
  split; [vm_compute; reflexivity|].
  reflexivity.
Qed.

(** *** The keys of the cache *)

Section Cache_keys.

Lemma string_app_cons (a : ascii) (s t : string) :
  String a s +:+ t = String a (s +:+ t).
Proof. reflexivity. Qed.

Lemma list_ascii_of_string_app (s t : string) :
  String.list_ascii_of_string (s +:+ t)
  = String.list_ascii_of_string s ++ String.list_ascii_of_string t.
Proof.
  induction s as [|a s IH]; [done|].
  rewrite string_app_cons. cbn [String.list_ascii_of_string app].
  by rewrite IH.
Qed.

Lemma list_ascii_of_string_inj (s t : string) :
  String.list_ascii_of_string s = String.list_ascii_of_string t → s = t.
Proof.
  intros Heq.
  rewrite <-(String.string_of_list_ascii_of_string s),
          <-(String.string_of_list_ascii_of_string t).
  by rewrite Heq.
Qed.

Lemma string_app_inv_tail (s1 s2 t : string) :
  s1 +:+ t = s2 +:+ t → s1 = s2.
Proof.
  intros Heq. apply list_ascii_of_string_inj.
  apply (f_equal String.list_ascii_of_string) in Heq.
  rewrite !list_ascii_of_string_app in Heq.
  by apply app_inv_tail in Heq.
Qed.

Lemma string_app_assoc (s1 s2 s3 : string) :
  (s1 +:+ s2) +:+ s3 = s1 +:+ (s2 +:+ s3).
Proof.
  induction s1 as [|a s1 IH]; [done|].
  rewrite !string_app_cons. by rewrite IH.
Qed.

Lemma row_key_inj (a b year : Z) : row_key a year = row_key b year → a = b.
Proof.
  unfold row_key, Py.cat, Py.str_int. cbn [foldr].
  intros Heq. apply (inj (String.app "holidaytablerow")) in Heq.
  apply string_app_inv_tail in Heq. by apply (inj pretty) in Heq.
Qed.

Lemma fields_key_inj (a b year month : Z) :
  fields_key a year month = fields_key b year month → a = b.
Proof.
  unfold fields_key, Py.cat, Py.str_int. cbn [foldr].
  intros Heq. apply (inj (String.app "holidayfields:")) in Heq.
  apply string_app_inv_tail in Heq. by apply (inj pretty) in Heq.
Qed.

Lemma row_key_fields_key (a b year year' month : Z) :
  row_key a year ≠ fields_key b year' month.
Proof.
  unfold row_key, fields_key, Py.cat. cbn [foldr].
  change "holidaytablerow" with ("holiday" +:+ "tablerow").
  change "holidayfields:" with ("holiday" +:+ "fields:").
  rewrite !string_app_assoc.
  intros Heq. apply (inj (String.app "holiday")) in Heq.
  rewrite !string_app_cons in Heq. discriminate.
Qed.

End Cache_keys.

(** *** A coherent cache is transparent *)

Section Cache_transparency.
Context `{Models} `{Datemaps}.
Variables (d : DB) (admin_user : Tbluser) (year month : Z).

Lemma cache_coherent_empty : cache_coherent d admin_user year month ∅.
Proof. intros user _. split; intros v Hv; by rewrite lookup_empty in Hv. Qed.

Lemma cache_coherent_insert_row (c : gmap string cache_value) user :
  cache_coherent d admin_user year month c →
  users d !! usr_id user = Some user →
  cache_coherent d admin_user year month
    (<[row_key (usr_id user) year := CStr (holiday_row d admin_user user year)]> c).
Proof.
  intros Hc Huser u Hu. destruct (Hc u Hu) as [Hrow Hfields]. split; intros v.
  - destruct (decide (row_key (usr_id user) year = row_key (usr_id u) year))
      as [Heq|Hne].
    + rewrite Heq, lookup_insert_eq. intros [= <-].
      apply row_key_inj in Heq. rewrite Heq, Hu in Huser. by injection Huser as ->.
    + rewrite lookup_insert_ne by done. apply Hrow.
  - rewrite lookup_insert_ne by apply row_key_fields_key. apply Hfields.
Qed.

Lemma cache_coherent_insert_fields (c : gmap string cache_value) user :
  cache_coherent d admin_user year month c →
  users d !! usr_id user = Some user →
  cache_coherent d admin_user year month
    (<[fields_key (usr_id user) year month :=
         CPair (regenerated_fields d user year month (calendar_days year month)).1
               (regenerated_fields d user year month (calendar_days year month)).2]>
       c).
Proof.
  intros Hc Huser u Hu. destruct (Hc u Hu) as [Hrow Hfields]. split; intros v.
  - rewrite lookup_insert_ne; [apply Hrow|].
    intros Heq. symmetry in Heq. by apply row_key_fields_key in Heq.
  - destruct (decide (fields_key (usr_id user) year month
                      = fields_key (usr_id u) year month)) as [Heq|Hne].
    + rewrite Heq, lookup_insert_eq. intros [= <-].
      apply fields_key_inj in Heq. rewrite Heq, Hu in Huser.
      by injection Huser as ->.
    + rewrite lookup_insert_ne by done. apply Hfields.
Qed.

Lemma apply_entries_classes l day_classes o day_classes' o' :
  apply_entries d l day_classes o = Ok (day_classes', o') →
  day_classes'
  = foldl (λ m entry, <[dday (te_entry_date entry) := te_daytype entry]> m)
          day_classes l.
Proof.
  revert day_classes o. induction l as [|entry rest IH]; intros dc o; simpl.
  - by intros [= <- <-].
  - destruct (decide _); [|apply IH].
    destruct (users d !! te_user entry); [apply IH|discriminate].
Qed.

Lemma holiday_row_not_empty user :
  ∃ a s, holiday_row d admin_user user year = String a s.
Proof. unfold holiday_row, Py.cat. cbn [foldr]. unfold Py.nl. eauto. Qed.

(** With a coherent cache the loop body emits what is regenerated from the
    database, changes nothing but the cache and leaves it coherent. *)
Lemma holiday_user_regenerates (w : World) (n idx : nat) (user : Tbluser)
    (o : holiday_out) :
  db w = d →
  cache_coherent d admin_user year month (cache w) →
  users d !! usr_id user = Some user →
  ∃ c', holiday_user admin_user year month (calendar_days year month)
                     n idx user o w
        = (regenerated_user d admin_user year month (calendar_days year month)
                            n idx user o,
           set_cache (λ _, c') w)
        ∧ cache_coherent d admin_user year month c'.
Proof.
  destruct w as [d0 c0 ob lg td]. cbn [db cache]. intros -> Hc Huser.
  unfold holiday_user, regenerated_user.
  unfold bind at 1, get_world at 1. cbn [db].
  fold (blank_days year month (calendar_days year month)).
  unfold bind at 1, lift at 1.
  destruct (apply_entries d _ _ o) as [[day_classes o1]|e] eqn:Happly.
  2:{ exists c0. done. }
  apply apply_entries_classes in Happly. subst day_classes.
  fold (regenerated_fields d user year month (calendar_days year month)).
  pose proof (cache_coherent_insert_fields _ user Hc Huser) as Hc_f.
  pose proof (cache_coherent_insert_row _ user Hc Huser) as Hc_r.
  pose proof (cache_coherent_insert_fields _ user Hc_r Huser) as Hc_rf.
  destruct (Hc user Huser) as [Hrow Hfields].
  destruct (regenerated_fields d user year month (calendar_days year month))
    as [text_js text_out] eqn:Hregen.
  cbn [fst snd] in *.
  destruct (holiday_row_not_empty user) as (a0 & s0 & Hne).
  unfold bind, cache_get, cache_set, modify, ret, raise, set_cache.
  cbn [db cache outbox logs today].
  destruct (c0 !! row_key (usr_id user) year) as [v|] eqn:Hlr.
  - rewrite (Hrow v eq_refl). rewrite Hne.
    cbv beta iota. cbn [db cache outbox logs today]. rewrite <-Hne.
    destruct (c0 !! fields_key (usr_id user) year month) as [v'|] eqn:Hlf.
    + rewrite (Hfields v' eq_refl). exists c0. done.
    + eexists. split; [reflexivity|]. exact Hc_f.
  - cbv beta iota. cbn [db cache outbox logs today].
    rewrite lookup_insert_ne by apply row_key_fields_key.
    destruct (c0 !! fields_key (usr_id user) year month) as [v'|] eqn:Hlf.
    + rewrite (Hfields v' eq_refl). eexists. split; [reflexivity|]. exact Hc_r.
    + eexists. split; [reflexivity|]. exact Hc_rf.
Qed.

Lemma holiday_users_regenerates (user_list : list Tbluser) (w : World)
    (n idx : nat) (o : holiday_out) :
  db w = d →
  cache_coherent d admin_user year month (cache w) →
  (∀ user, user ∈ user_list → users d !! usr_id user = Some user) →
  ∃ c', holiday_users admin_user year month (calendar_days year month)
                      n idx user_list o w
        = (regenerated_users d admin_user year month (calendar_days year month)
                             n idx user_list o,
           set_cache (λ _, c') w)
        ∧ cache_coherent d admin_user year month c'.
Proof.
  revert w idx o. induction user_list as [|user rest IH]; intros w idx o Hd Hc Hin.
  - exists (cache w). split; [by destruct w|done].
  - cbn [holiday_users regenerated_users]. unfold bind.
    destruct (holiday_user_regenerates w n idx user o Hd Hc) as (c1 & -> & Hc1).
    { apply Hin. left. }
    destruct (regenerated_user _ _ _ _ _ _ _ _ _) as [o'|e].
    + destruct (IH (set_cache (λ _, c1) w) (S idx) o') as (c' & -> & Hc').
      * by destruct w.
      * done.
      * intros u Hu. apply Hin. by right.
      * exists c'. split; [by destruct w|done].
    + exists c1. done.
Qed.

End Cache_transparency.

Section Cache_transparency_view.
Context `{Models} `{Datemaps}.

(** Two runs of [gen_holiday_list] that differ in the cache only, both on
    a coherent cache, return the same. *)
Lemma gen_holiday_list_coherent admin_user year month process
    (w : World) (c2 : gmap string cache_value) :
  cache_coherent (db w) admin_user year month (cache w) →
  cache_coherent (db w) admin_user year month c2 →
  subordinates_in_table (db w) admin_user →
  (gen_holiday_list admin_user (Some year) (Some month) process w).1
  = (gen_holiday_list admin_user (Some year) (Some month) process
                      (set_cache (λ _, c2) w)).1
  ∧ ∃ c', (gen_holiday_list admin_user (Some year) (Some month) process w).2
          = set_cache (λ _, c') w
          ∧ cache_coherent (db w) admin_user year month c'.
Proof.
  intros Hc1 Hc2 Hsub.
  assert (∀ user_list : list Tbluser,
            (∀ user, user ∈ user_list → user ∈ get_subordinates (db w) admin_user) →
            ∀ user, user ∈ user_list → users (db w) !! usr_id user = Some user)
    as Hin by (intros l Hl user Hu; apply Hsub, Hl, Hu).
  destruct w as [d c1 ob lg td]. cbn [db cache] in *.
  unfold gen_holiday_list, bind, get_world, or_raise, set_cache.
  cbn [default from_option id db cache outbox logs today].
  destruct (snd <$> MONTH_MAP !! (month - 1)) as [month_name|];
    unfold ret, raise; cbv beta iota.
  2:{ split; [done|]. by exists c1. }
  destruct (gen_datetime_cal year month) as [datetime_cal|] eqn:Hcal;
    cbv beta iota.
  2:{ split; [done|]. by exists c1. }
  destruct (mapM _ datetime_cal) as [day_names|]; cbv beta iota.
  2:{ split; [done|]. by exists c1. }
  assert (map dday datetime_cal = calendar_days year month) as ->.
  { unfold calendar_days. by rewrite Hcal. }
  set (user_list := if Py.truthy process then _ else _).
  specialize (Hin user_list).
  assert (∀ user, user ∈ user_list → users d !! usr_id user = Some user)
    as Hin'.
  { apply Hin. intros user Hu. unfold user_list in Hu.
    destruct (Py.truthy process); [|done].
    by apply list_elem_of_filter in Hu as [_ Hu]. }
  set (o0 := to_js _ _).
  destruct (holiday_users_regenerates d admin_user year month user_list
              {| db := d; cache := c1; outbox := ob; logs := lg; today := td |}
              (length user_list) 0 o0 eq_refl Hc1 Hin') as (c' & Hrun1 & Hc').
  destruct (holiday_users_regenerates d admin_user year month user_list
              {| db := d; cache := c2; outbox := ob; logs := lg; today := td |}
              (length user_list) 0 o0 eq_refl Hc2 Hin') as (c'' & Hrun2 & Hc'').
  rewrite Hrun1, Hrun2. clear Hrun1 Hrun2.
  destruct (regenerated_users _ _ _ _ _ _ _ _ _) as [o|e]; cbv beta iota.
  - destruct (ho_bad _); (split; [done|]; by exists c').
  - split; [done|]. by exists c'.
Qed.

End Cache_transparency_view.

(** Where the cache is transparent: a cache that is coherent for the
    viewer, the year and the month gives the output that is regenerated
    from the database with an empty cache, and the call leaves a coherent
    cache behind. *)
Theorem gen_holiday_list_coherent_cache_transparent `{Models} `{Datemaps}
    (admin_user : Tbluser) (year month : Z) (process : option string)
    (w : World) :
  cache_coherent (db w) admin_user year month (cache w) →
  subordinates_in_table (db w) admin_user →
  (gen_holiday_list admin_user (Some year) (Some month) process w).1
  = (gen_holiday_list admin_user (Some year) (Some month) process
                      (set_cache (λ _, ∅) w)).1
  ∧ ∃ c', (gen_holiday_list admin_user (Some year) (Some month) process w).2
          = set_cache (λ _, c') w
          ∧ cache_coherent (db w) admin_user year month c'.
Proof.
  intros Hc Hsub. apply gen_holiday_list_coherent; [done| |done].
  apply cache_coherent_empty.
Qed.

(** Coherence is about the viewer's right to see job codes only: what is
    coherent for one viewer is coherent for every viewer with the same
    right.  For a viewer with the other right the cached row differs in
    its job code cell. *)
Lemma cache_coherent_same_visibility `{Models} `{Datemaps}
    (d : DB) (a b : Tbluser) (year month : Z) (c : gmap string cache_value) :
  can_view_jobcodes a = can_view_jobcodes b →
  cache_coherent d a year month c → cache_coherent d b year month c.
Proof.
  intros Hv Hc user Hu. destruct (Hc user Hu) as [Hrow Hfields].
  split; [|done]. intros v Hl. rewrite (Hrow v Hl).
  unfold holiday_row. by rewrite Hv.
Qed.

(** Starting from an empty cache, a second call with the same arguments
    returns what the first call returned. *)
Corollary gen_holiday_list_twice `{Models} `{Datemaps}
    (admin_user : Tbluser) (year month : Z) (process : option string)
    (w : World) :
  cache w = ∅ →
  subordinates_in_table (db w) admin_user →
  let first := gen_holiday_list admin_user (Some year) (Some month) process w in
  (gen_holiday_list admin_user (Some year) (Some month) process first.2).1
  = first.1.
Proof.
  intros Hempty Hsub first.
  assert (cache_coherent (db w) admin_user year month (cache w)) as Hc.
  { rewrite Hempty. apply cache_coherent_empty. }
  destruct (gen_holiday_list_coherent_cache_transparent
              admin_user year month process w Hc Hsub)
    as [Hfirst (c' & Hw' & Hc')].
  unfold first. rewrite Hw', Hfirst.
  assert (set_cache (λ _, ∅) w = set_cache (λ _, ∅) (set_cache (λ _, c') w))
    as -> by by destruct w.
  apply gen_holiday_list_coherent_cache_transparent; by destruct w.
Qed.

Example gen_holiday_list_twice_example :
  let first :=
    gen_holiday_list Fixture.admin (Some 2012) (Some 2) None Fixture.world in
  (gen_holiday_list Fixture.admin (Some 2012) (Some 2) None first.2).1 = first.1
  ∧ is_Some (cache first.2 !! fields_key 3 2012 2).
Proof.
  split.
  - apply (gen_holiday_list_twice Fixture.admin 2012 2 None Fixture.world).
    + reflexivity.
    + intros user Hu. vm_compute in Hu.
      apply list_elem_of_singleton in Hu as ->. reflexivity.
  - vm_compute. eauto.
Qed.

(** * Further properties *)

(** ** [gen_datetime_cal] *)

Section Month_days.

Lemma zrange_length (n : nat) (lo : Z) : length (zrange lo n) = n.
Proof. revert lo. induction n as [|n IH]; intros lo; simpl; [done|]. by rewrite IH. Qed.

Lemma zrange_lookup (n i : nat) (lo : Z) :
  (i < n)%nat → zrange lo n !! i = Some (lo + Z.of_nat i).
Proof.
  revert lo i. induction n as [|n IH]; intros lo i Hi; [lia|].
  destruct i as [|i]; simpl.
  - f_equal. lia.
  - rewrite IH by lia. f_equal. lia.
Qed.

End Month_days.

(** X1. [gen_datetime_cal] returns one datetime for every day of the month,
    the first of the month first and then day by day, for a month from 1
    to 12 of a year from 1 to 9999; for every other year or month it
    raises. *)
Theorem gen_datetime_cal_month (y m : Z) :
  (valid_month y m = true →
     ∃ l, gen_datetime_cal y m = Some l
          ∧ Z.of_nat (length l) = days_in_month y m
          ∧ ∀ i : nat, (i < length l)%nat →
                       l !! i = Some (mkdate y m (Z.of_nat i + 1)))
  ∧ (valid_month y m = false → gen_datetime_cal y m = None).
Proof.
  split; [|apply gen_datetime_cal_invalid].
  intros Hv. rewrite (gen_datetime_cal_days y m Hv).
  eexists. split; [reflexivity|].
  pose proof (days_in_month_bound y m).
  rewrite length_map, zrange_length. split; [lia|].
  intros i Hi. rewrite list_lookup_fmap, zrange_lookup by done.
  simpl. do 2 f_equal. lia.
Qed.

(** ** [validate_time] *)

Section Validate_time.

Lemma mapM_length {A B} (f : A → option B) (l : list A) (k : list B) :
  mapM f l = Some k → length k = length l.
Proof. intros Hm. apply mapM_Some in Hm. by apply Forall2_length in Hm. Qed.

Lemma parse_time_cases (s : string) :
  parse_time s = Raise ValueError
  ∨ ∃ l, parse_time s = Ok l
         ∧ length l = length (Py.split ":"%char s).
Proof.
  unfold parse_time. destruct (mapM _ _) as [l|] eqn:Hm; [|by left].
  right. exists l. split; [done|]. by apply mapM_length in Hm.
Qed.

Lemma mk_time_Ok (h m : Z) (t : time) :
  mk_time h m = Ok t
  ↔ c_int h && c_int m = true ∧ valid_time h m = true ∧ t = mktime h m 0.
Proof.
  unfold mk_time. destruct (c_int h && c_int m); cbn [negb].
  - destruct (valid_time h m); split; try done.
    + by intros [= <-].
    + by intros (_ & _ & ->).
    + by intros (_ & ? & _).
  - split; [done|]. by intros (? & _).
Qed.

Lemma mk_time_Raise (h m : Z) (e : exn) :
  mk_time h m = Raise e
  ↔ (e = OverflowError ∧ c_int h && c_int m = false)
    ∨ (e = ValueError ∧ c_int h && c_int m = true ∧ valid_time h m = false).
Proof.
  unfold mk_time. destruct (c_int h && c_int m); cbn [negb].
  - destruct (valid_time h m); split; try done.
    + by intros [[_ ?]|(_ & _ & ?)].
    + intros [= <-]. by right.
    + by intros [[_ ?]|(-> & _)].
  - split; [intros [= <-]; by left|]. by intros [[-> _]|(_ & ? & _)].
Qed.

Lemma validate_time_parsed (start end_ : string) shour sminute ehour eminute :
  parse_time start = Ok [shour; sminute] →
  parse_time end_ = Ok [ehour; eminute] →
  validate_time start end_
  = match mk_time shour sminute with
    | Ok stime =>
        match mk_time ehour eminute with
        | Ok etime => Ok (time_lt stime etime)
        | Raise e => Raise e
        end
    | Raise e => Raise e
    end.
Proof. intros Hs He. unfold validate_time. by rewrite Hs, He. Qed.

Lemma validate_time_cases (start end_ : string) :
  validate_time start end_ = Raise ValueError
  ∨ ∃ shour sminute ehour eminute,
      parse_time start = Ok [shour; sminute]
      ∧ parse_time end_ = Ok [ehour; eminute].
Proof.
  unfold validate_time.
  destruct (parse_time_cases start) as [->|(ls & Hs & _)]; [by left|].
  rewrite Hs. destruct ls as [|shour [|sminute [|? ?]]]; try by left.
  destruct (parse_time_cases end_) as [->|(le & He & _)]; [by left|].
  rewrite He. destruct le as [|ehour [|eminute [|? ?]]]; try by left.
  right. by exists shour, sminute, ehour, eminute.
Qed.

End Validate_time.

(** X2. [validate_time] is a strict comparison: when it accepts a start and an
    end it rejects them in the opposite order, and it never accepts a time
    against itself.  A string that does not consist of exactly two parts
    around one colon (a time with seconds, for one) makes it raise
    [ValueError].  It raises [ValueError] or [OverflowError] and nothing
    else; for two strings of two numbers each it raises [OverflowError]
    exactly when a number of the start time does not fit a C [int], or the
    start time is a time of the day and a number of the end time does not
    fit. *)
Theorem validate_time_strict (start end_ : string) :
  (validate_time start end_ = Ok true → validate_time end_ start = Ok false)
  ∧ validate_time start start ≠ Ok true
  ∧ (length (Py.split ":"%char start) ≠ 2%nat
     ∨ length (Py.split ":"%char end_) ≠ 2%nat →
     validate_time start end_ = Raise ValueError)
  ∧ (∀ e, validate_time start end_ = Raise e →
          e = ValueError ∨ e = OverflowError)
  ∧ (∀ shour sminute ehour eminute,
       parse_time start = Ok [shour; sminute] →
       parse_time end_ = Ok [ehour; eminute] →
       (validate_time start end_ = Raise OverflowError
        ↔ c_int shour && c_int sminute = false
          ∨ (valid_time shour sminute = true
             ∧ c_int ehour && c_int eminute = false))).
Proof.
  split; [|split; [|split; [|split]]].
  - intros Hok.
    destruct (validate_time_cases start end_)
      as [Hr|(sh & sm & eh & em & Hs & He)]; [congruence|].
    rewrite (validate_time_parsed _ _ _ _ _ _ Hs He) in Hok.
    rewrite (validate_time_parsed _ _ _ _ _ _ He Hs).
    destruct (mk_time sh sm) as [stime|] eqn:Hst; [|done].
    destruct (mk_time eh em) as [etime|] eqn:Het; [|done].
    apply mk_time_Ok in Hst as (_ & _ & ->).
    apply mk_time_Ok in Het as (_ & _ & ->).
    injection Hok as Hlt. f_equal. unfold time_lt in *. simpl in *. lia.
  - destruct (validate_time_cases start start)
      as [Hr|(sh & sm & eh & em & Hs & He)]; [congruence|].
    rewrite (validate_time_parsed _ _ _ _ _ _ Hs He).
    rewrite Hs in He. injection He as <- <-.
    destruct (mk_time sh sm) as [stime|] eqn:Hst; [|done].
    unfold time_lt. intros [= Hlt]. lia.
  - intros Hlen.
    destruct (validate_time_cases start end_)
      as [Hr|(sh & sm & eh & em & Hs & He)]; [done|].
    destruct (parse_time_cases start) as [Hs'|(ls & Hs' & Hls)]; [congruence|].
    destruct (parse_time_cases end_) as [He'|(le & He' & Hle)]; [congruence|].
    rewrite Hs in Hs'. rewrite He in He'.
    injection Hs' as <-. injection He' as <-. simpl in *.
    destruct Hlen; congruence.
  - intros e Hraise.
    destruct (validate_time_cases start end_)
      as [Hr|(sh & sm & eh & em & Hs & He)]; [left; congruence|].
    rewrite (validate_time_parsed _ _ _ _ _ _ Hs He) in Hraise.
    destruct (mk_time sh sm) as [stime|e1] eqn:Hst.
    + destruct (mk_time eh em) as [etime|e2] eqn:Het; [done|].
      injection Hraise as <-.
      apply mk_time_Raise in Het as [[-> _]|[-> _]]; auto.
    + injection Hraise as <-.
      apply mk_time_Raise in Hst as [[-> _]|[-> _]]; auto.
  - intros sh sm eh em Hs He.
    rewrite (validate_time_parsed _ _ _ _ _ _ Hs He).
    destruct (mk_time sh sm) as [stime|e1] eqn:Hst.
    + apply mk_time_Ok in Hst as (Hc & Hv & ->).
      destruct (mk_time eh em) as [etime|e2] eqn:Het.
      * apply mk_time_Ok in Het as (Hc' & _ & _). split; [done|].
        intros [?|[_ ?]]; congruence.
      * apply mk_time_Raise in Het as [[-> Hc']|(-> & Hc' & _)].
        -- split; [|done]. intros _. right. done.
        -- split; [done|]. intros [?|[_ ?]]; congruence.
    + apply mk_time_Raise in Hst as [[-> Hc]|(-> & Hc & Hv)].
      * split; [|done]. intros _. by left.
      * split; [done|]. intros [?|[? _]]; congruence.
Qed.

(** ** [get_request_data] *)

Section Request_data.

Lemma fill_lookup (POST : gmap string string) (form : list string)
    (data : gmap string (option string)) (key : string) :
  foldl (λ data key, <[key := POST !! key]> data) data form !! key
  = if decide (key ∈ form) then Some (POST !! key) else data !! key.
Proof.
  revert data. induction form as [|k form IH]; intros data.
  - case_decide as Hin; [by apply elem_of_nil in Hin|done].
  - cbn [foldl]. rewrite IH.
    destruct (decide (key ∈ form)) as [Hin|Hnin].
    + rewrite decide_True; [done|by right].
    + destruct (decide (key = k)) as [->|Hne].
      * rewrite decide_True; [|by left]. by rewrite lookup_insert_eq.
      * rewrite decide_False; [by rewrite lookup_insert_ne|].
        rewrite elem_of_cons. tauto.
Qed.

End Request_data.

(** X3. [get_request_data] fills exactly the keys of the form and
    [user_id]: a key of the form gets the posted value, or [None] when
    nothing was posted for it, and no other key of the POST data gets
    through; [user_id] is the number of the session, also when the form
    has that key and something was posted for it; a session without
    [user_id] raises [KeyError]. *)
Theorem get_request_data_fills_form (form : list string) (request : Request) :
  (session request !! "user_id" = None →
     get_request_data form request = Raise (KeyError "user_id"))
  ∧ (∀ user_id, session request !! "user_id" = Some user_id →
       ∃ data, get_request_data form request = Ok data
               ∧ data_get data "user_id" = Some (FInt user_id)
               ∧ (∀ key, key ≠ "user_id" → key ∈ form →
                    data_get data key
                    = Some (from_option FStr FNone (POST request !! key))
                    ∧ field data.1 key = POST request !! key)
               ∧ (∀ key, key ≠ "user_id" → key ∉ form →
                    data_get data key = None ∧ field data.1 key = None)).
Proof.
  unfold get_request_data. split.
  - by intros ->.
  - intros user_id ->. eexists. split; [reflexivity|].
    split; [done|].
    split; intros key Hne Hk; unfold data_get, field;
      rewrite decide_False by done; cbn [fst];
      rewrite lookup_delete_ne, fill_lookup by done.
    + by rewrite decide_True.
    + by rewrite decide_False, lookup_empty.
Qed.

(** ** [last12months] *)

Section Last12months.

Lemma days_in_month_pos (y m : Z) : 1 ≤ m ≤ 12 → 28 ≤ days_in_month y m.
Proof.
  intros Hm.
  assert (m = 1 ∨ m = 2 ∨ m = 3 ∨ m = 4 ∨ m = 5 ∨ m = 6 ∨ m = 7 ∨ m = 8
          ∨ m = 9 ∨ m = 10 ∨ m = 11 ∨ m = 12) as Hcases by lia.
  unfold days_in_month.
  repeat (destruct Hcases as [->|Hcases]); try subst m;
    try destruct (is_leap y); lia.
Qed.

Lemma mk_datetime_first (y m : Z) :
  valid_month y m = true → mk_datetime y m 1 = Ok (mkdate y m 1).
Proof.
  intros Hv. unfold mk_datetime, valid_date. rewrite Hv.
  assert (1 ≤ y ≤ 9999 ∧ 1 ≤ m ≤ 12) as [Hy Hm]
    by (unfold valid_month, MINYEAR, MAXYEAR in Hv; lia).
  pose proof (days_in_month_pos y m Hm).
  assert (c_int y && c_int m && c_int 1 = true) as -> by (unfold c_int; lia).
  assert ((1 <=? days_in_month y m) = true) as -> by lia.
  reflexivity.
Qed.

Lemma mk_datetime_rolled (y m : Z) :
  -11 ≤ m ≤ 0 → 0 ≤ y ≤ 9999 → mk_datetime y m 1 = Raise ValueError.
Proof.
  intros Hm Hy. unfold mk_datetime, valid_date.
  assert (c_int y && c_int m && c_int 1 = true) as -> by (unfold c_int; lia).
  assert (valid_month y m = false) as ->
    by (unfold valid_month, MINYEAR, MAXYEAR; lia).
  reflexivity.
Qed.

Lemma mk_datetime_year_0 (m : Z) :
  1 ≤ m ≤ 12 → mk_datetime 0 m 1 = Raise ValueError.
Proof.
  intros Hm. unfold mk_datetime, valid_date.
  assert (c_int 0 && c_int m && c_int 1 = true) as -> by (unfold c_int; lia).
  assert (valid_month 0 m = false) as ->
    by (unfold valid_month, MINYEAR, MAXYEAR; lia).
  reflexivity.
Qed.

Lemma months_back_same_year (y m x : Z) :
  1 ≤ m ≤ 12 → 0 ≤ x < m → months_back y m x = mkdate y (m - x) 1.
Proof.
  intros Hm Hx. unfold months_back. cbv zeta.
  assert (y * 12 + (m - 1) - x = (m - 1 - x) + y * 12) as -> by lia.
  rewrite Z.div_add, Z.mod_add by lia.
  rewrite Z.div_small, Z.mod_small by lia.
  f_equal; lia.
Qed.

Lemma months_back_year_before (y m x : Z) :
  1 ≤ m ≤ 12 → m ≤ x < 12 →
  months_back y m x = mkdate (y - 1) (12 - (x - m)) 1.
Proof.
  intros Hm Hx. unfold months_back. cbv zeta.
  assert (y * 12 + (m - 1) - x = (12 + m - 1 - x) + (y - 1) * 12) as -> by lia.
  rewrite Z.div_add, Z.mod_add by lia.
  rewrite Z.div_small, Z.mod_small by lia.
  f_equal; lia.
Qed.

Lemma last12months_loop_ok (y m : Z) (n : nat) (x : Z) (dates : list date) :
  valid_month y m = true →
  0 ≤ x → x + Z.of_nat n ≤ 12 → 2 ≤ y ∨ x + Z.of_nat n ≤ m →
  last12months_loop y m (zrange x n) (Z.max 0 (x - m)) dates
  = Ok (dates ++ map (months_back y m) (zrange x n)).
Proof.
  intros Hv. assert (1 ≤ y ≤ 9999 ∧ 1 ≤ m ≤ 12) as [Hy Hm]
    by (unfold valid_month, MINYEAR, MAXYEAR in Hv; lia).
  revert x dates. induction n as [|n IH]; intros x dates Hx Hn Hroll.
  { simpl. by rewrite app_nil_r. }
  cbn [zrange last12months_loop map].
  destruct (decide (x < m)) as [Hlt|Hge].
  - rewrite mk_datetime_first
      by (unfold valid_month, MINYEAR, MAXYEAR; lia).
    assert (Z.max 0 (x - m) = Z.max 0 (x + 1 - m)) as -> by lia.
    rewrite IH by lia.
    rewrite months_back_same_year by lia.
    by rewrite <- app_assoc.
  - rewrite mk_datetime_rolled by lia.
    assert (Z.max 0 (x - m) = x - m) as -> by lia.
    rewrite mk_datetime_first
      by (unfold valid_month, MINYEAR, MAXYEAR; lia).
    assert (x - m + 1 = Z.max 0 (x + 1 - m)) as -> by lia.
    rewrite IH by lia.
    rewrite months_back_year_before by lia.
    by rewrite <- app_assoc.
Qed.

End Last12months.

(** X4. For a month from 1 to 12 of a year from 2 to 9999 (or December of the
    year 1) [last12months] returns the first days of the twelve months
    that end with the given month, the oldest first and the given month
    last; the months before January are those of the year before.  In the
    year 1 every month but December raises [ValueError], since the year
    before does not exist. *)
Theorem last12months_months (year month : Z) :
  valid_month year month = true →
  (2 ≤ year ∨ month = 12 →
     last12months year month
     = Ok (months_back year month <$> [11; 10; 9; 8; 7; 6; 5; 4; 3; 2; 1; 0])
     ∧ months_back year month 0 = mkdate year month 1)
  ∧ (year = 1 → month < 12 → last12months year month = Raise ValueError).
Proof.
  intros Hv. assert (1 ≤ year ≤ 9999 ∧ 1 ≤ month ≤ 12) as [Hy Hm]
    by (unfold valid_month, MINYEAR, MAXYEAR in Hv; lia).
  split.
  - intros Hroll. split; [|rewrite months_back_same_year by lia; f_equal; lia].
    unfold last12months. rewrite mk_datetime_first by done.
    pose proof (last12months_loop_ok year month 12 0 [] Hv) as Hloop.
    assert (Z.max 0 (0 - month) = 0) as Hmax by lia.
    rewrite Hmax in Hloop. rewrite Hloop by lia.
    reflexivity.
  - intros -> Hlt.
    assert (month = 1 ∨ month = 2 ∨ month = 3 ∨ month = 4 ∨ month = 5
            ∨ month = 6 ∨ month = 7 ∨ month = 8 ∨ month = 9 ∨ month = 10
            ∨ month = 11) as Hcases by lia.
    repeat (destruct Hcases as [->|Hcases]); try subst month;
      vm_compute; reflexivity.
Qed.

Lemma last12months_months_witness :
  last12months 2012 3
  = Ok [mkdate 2011 4 1; mkdate 2011 5 1; mkdate 2011 6 1; mkdate 2011 7 1;
        mkdate 2011 8 1; mkdate 2011 9 1; mkdate 2011 10 1; mkdate 2011 11 1;
        mkdate 2011 12 1; mkdate 2012 1 1; mkdate 2012 2 1; mkdate 2012 3 1].
Proof.
  destruct (last12months_months 2012 3) as [Hok _]; [reflexivity|].
  destruct Hok as [Hrun _]; [lia|]. exact Hrun.
Defined.

(** ** Running a view step by step *)

Section Monad_runs.

Lemma bind_run {A B} (c : M A) (k : A → M B) (w : World) r w' :
  bind c k w = (r, w') →
  (∃ a w1, c w = (Ok a, w1) ∧ k a w1 = (r, w'))
  ∨ (∃ e, c w = (Raise e, w') ∧ r = Raise e).
Proof.
  unfold bind. destruct (c w) as [[a|e] w1]; intros Hrun.
  - left. by exists a, w1.
  - right. exists e. by injection Hrun as <- <-.
Qed.

Lemma bind_Ok {A B} (c : M A) (k : A → M B) (w : World) a w1 :
  c w = (Ok a, w1) → bind c k w = k a w1.
Proof. unfold bind. by intros ->. Qed.

Lemma bind_Raise {A B} (c : M A) (k : A → M B) (w : World) e w1 :
  c w = (Raise e, w1) → bind c k w = (Raise e, w1).
Proof. unfold bind. by intros ->. Qed.

Lemma get_request_data_field (form : list string) (request : Request)
    data user_id (key : string) :
  get_request_data form request = Ok (data, user_id) →
  key ∈ form → key ≠ "user_id" →
  session request !! "user_id" = Some user_id
  ∧ field data key = POST request !! key.
Proof.
  unfold get_request_data.
  destruct (session request !! "user_id") as [u|]; [|done].
  intros [= <- <-] Hin Hne. split; [done|].
  unfold field. by rewrite lookup_delete_ne, fill_lookup, decide_True.
Qed.

End Monad_runs.

(** ** [ajax_delete_entry] *)

Section Delete_entry.
Context `{Models} `{Datemaps}.




End Delete_entry.


Section Fixture_facts.

Lemma fixture_keyed_by_id : keyed_by_id (entries (db Fixture.world)).
Proof.
  intros k e Hk.
  change (entries (db Fixture.world))
    with (<[10 := Fixture.workday]> (<[11 := Fixture.holiday]>
            (∅ : gmap Z TrackingEntry))) in Hk.
  apply lookup_insert_Some in Hk as [[<- <-]|[_ Hk]]; [done|].
  apply lookup_insert_Some in Hk as [[<- <-]|[_ Hk]]; [done|].
  by rewrite lookup_empty in Hk.
Qed.

End Fixture_facts.


(** X6. The entry is deleted before the posted date is looked at: a request
    that names an entry of its user but whose [entry_date] is missing, or
    is not made of three numbers, ends in the exception of the date and
    the entry is gone all the same. *)
Theorem ajax_delete_entry_deletes_before_date `{Models} `{Datemaps}
    (request : Request) (w : World) user_id user s k e err :
  session request !! "user_id" = Some user_id →
  users (db w) !! user_id = Some user →
  POST request !! "hidden-id" = Some s → s ≠ EmptyString →
  Py.int s = Some k →
  entries (db w) !! k = Some e → te_user e = usr_id user → te_id e = Some k →
  parse_ymd (POST request !! "entry_date") = Raise err →
  ajax_delete_entry request w
  = (Raise err, set_db (set_entries (base.delete k)) w).
Proof.
  intros Hsess Hu Hs Hne Hint Hk Hown Hid Hdate.
  unfold ajax_delete_entry.
  destruct (get_request_data ["hidden-id"; "entry_date"] request)
    as [[form user_id']|] eqn:Hreq.
  2:{ unfold get_request_data in Hreq. by rewrite Hsess in Hreq. }
  destruct (get_request_data_field _ _ _ _ "hidden-id" Hreq) as [Hsess' Hfid];
    [rewrite !elem_of_cons; tauto|done|].
  destruct (get_request_data_field _ _ _ _ "entry_date" Hreq) as [_ Hfdate];
    [rewrite !elem_of_cons; tauto|done|].
  assert (user_id' = user_id) as -> by congruence.
  unfold bind, lift, get_world, or_raise. cbv beta iota.
  rewrite Hfid, Hs, Hfdate, Hdate.
  destruct s as [|c s]; [done|]. cbn [Py.truthy Py.str_opt].
  rewrite Hu. unfold ret. cbv beta iota.
  unfold get_owned_entry. rewrite Hint, Hk, decide_True by done.
  unfold delete. rewrite Hid. reflexivity.
Qed.

Lemma ajax_delete_entry_deletes_before_date_witness :
  ajax_delete_entry {| POST := {["hidden-id" := "10"]};
                       session := {["user_id" := 3]} |} Fixture.world
  = (Raise AttributeError,
     set_db (set_entries (base.delete 10)) Fixture.world)
  ∧ entries (db Fixture.world) !! 10 = Some Fixture.workday.
Proof.
  split; [|reflexivity].
  apply (ajax_delete_entry_deletes_before_date
           {| POST := {["hidden-id" := "10"]}; session := {["user_id" := 3]} |}
           Fixture.world 3 Fixture.employee "10" 10 Fixture.workday);
    try reflexivity.
  discriminate.
Defined.

(** ** [ajax_add_holiday] *)

(** X7. A holiday request that [ajax_add_holiday] answers either fails and
    leaves everything as it was, or succeeds, and then exactly one row was
    inserted, for the user of the form on the posted date, with the
    daytype [PENDI] and the times of the user's shift, an approval request
    was created for that row, and the calendar of the answer is the one
    generated afterwards. *)
Theorem ajax_add_holiday_outcome `{Models} `{Datemaps}
    (entry_date : string) (user_id : Z) (w : World) r w' :
  ajax_add_holiday entry_date user_id w = (Ok r, w') →
  (success r = false ∧ w' = w ∧ calendar r = Some EmptyString)
  ∨ (success r = true ∧ error r = EmptyString
     ∧ ∃ user d year month day,
         users (db w) !! user_id = Some user
         ∧ DateField_to_python entry_date = Some d
         ∧ constraint_violation (db w) (holiday_request user d) = None
         ∧ split_ymd entry_date = Ok (year, month, day)
         ∧ let e := {| te_id := Some (entry_seq (db w));
                       te_user := usr_id user; te_entry_date := d;
                       te_start_time := (get_shiftlength_list user).1.1;
                       te_end_time := (get_shiftlength_list user).1.2;
                       te_breaks := (get_shiftlength_list user).2;
                       te_daytype := "PENDI"; te_comments := EmptyString;
                       te_link := None |} in
           w' = create_approval_request e (inserted e w)
           ∧ ∃ html, calendar r = Some html
                     ∧ gen_calendar (Some year) (Some month) (Some day)
                                    user_id w' = (Ok html, w')).
Proof.
  unfold ajax_add_holiday, bind, get_world, or_raise, try_except.
  destruct (users (db w) !! user_id) as [user|] eqn:Hu;
    unfold ret, raise; cbv beta iota; [|done].
  destruct (DateField_to_python entry_date) as [d|] eqn:Hd.
  2:{ intros [= <- <-]. by left. }
  unfold save at 1.
  destruct (constraint_violation (db w) (holiday_request user d)) as [msg|]
    eqn:Hc; cbv beta iota.
  { intros [= <- <-]. by left. }
  cbn [holiday_request te_id]. cbv beta iota zeta.
  unfold modify, lift.
  destruct (split_ymd entry_date) as [[[year month] day]|] eqn:Hsplit;
    cbv beta iota; [|done].
  set (e := with_id _ _).
  set (w1 := create_approval_request e (inserted e w)).
  pose proof (gen_calendar_world (Some year) (Some month) (Some day) user_id w1)
    as Hw.
  destruct (gen_calendar _ _ _ _ w1) as [[html|err] w2] eqn:Hcal;
    simpl in Hw; subst w2; [|done].
  intros [= <- <-]. right. do 2 (split; [done|]).
  exists user, d, year, month, day. do 4 (split; [done|]).
  cbv zeta. split; [done|]. by exists html.
Qed.

Lemma ajax_add_holiday_outcome_witness :
  ∃ r w', ajax_add_holiday "2012-02-14" 3 Fixture.world = (Ok r, w')
          ∧ success r = true
          ∧ (te_daytype <$> entries (db w') !! 12) = Some "PENDI"
          ∧ approvals (db w') = [{| pa_entry := 12; pa_approver := 0 |}].
Proof.
  eexists _, _. split; [vm_compute; reflexivity|].
  edestruct (ajax_add_holiday_outcome "2012-02-14" 3 Fixture.world)
    as [(Hfail & _)|(Hok & _)]; [vm_compute; reflexivity|..].
  - vm_compute in Hfail. discriminate.
  - split; [exact Hok|]. split; vm_compute; reflexivity.
Defined.

(** X8. A holiday request that the table refuses, as it does a second request
    of the same user for the same day, is answered with the fixed text
    "Duplicate holiday requests not allowed." instead of the message of
    the database; nothing is stored and no approval request is made. *)
Theorem ajax_add_holiday_duplicate `{Models} `{Datemaps}
    (entry_date : string) (user_id : Z) (w : World) user d msg :
  users (db w) !! user_id = Some user →
  DateField_to_python entry_date = Some d →
  constraint_violation (db w) (holiday_request user d) = Some msg →
  ajax_add_holiday entry_date user_id w
  = (Ok {| success := false;
           error := "Duplicate holiday requests not allowed.";
           calendar := Some EmptyString |}, w).
Proof.
  intros Hu Hd Hc.
  unfold ajax_add_holiday, bind, get_world, or_raise, try_except.
  rewrite Hu. unfold ret. cbv beta iota. rewrite Hd.
  unfold save. rewrite Hc. reflexivity.
Qed.

Lemma ajax_add_holiday_duplicate_witness :
  ajax_add_holiday "2012-02-10" 3 Fixture.world
  = (Ok {| success := false;
           error := "Duplicate holiday requests not allowed.";
           calendar := Some EmptyString |}, Fixture.world)
  ∧ constraint_violation (db Fixture.world)
      (holiday_request Fixture.employee (mkdate 2012 2 10))
    = Some "Duplicate entry".
Proof.
  split; [|vm_compute; reflexivity].
  apply (ajax_add_holiday_duplicate "2012-02-10" 3 Fixture.world
           Fixture.employee (mkdate 2012 2 10) "Duplicate entry");
    vm_compute; reflexivity.
Defined.

(** ** The comments of a tracking entry *)

Section Objects_get_more.
Context {A : Type}.

(** The row that [get] returns is the only row that matches. *)
Lemma objects_get_Ok_all (m : model) (P : A → bool) (tbl : gmap Z A) (a : A) :
  objects_get m P tbl = Ok a →
  ∀ k b, tbl !! k = Some b → P b = true → b = a.
Proof.
  unfold objects_get.
  destruct (map_to_list _) as [|[k0 a'] [|? ?]] eqn:Hl; try discriminate.
  intros [= ->] k b Hk HP.
  assert ((k, b) ∈ map_to_list
            (filter (λ kv : Z * A, P kv.2 = true) tbl)) as Hin.
  { apply elem_of_map_to_list, map_lookup_filter_Some. done. }
  rewrite Hl in Hin. apply list_elem_of_singleton in Hin. congruence.
Qed.

End Objects_get_more.

Section Fill_form.
Context `{Forms}.

Lemma fill_form_inr (padded : list string) (source : gmap string string)
    (keys : list string) (form_data form_data' : gmap string string) :
  fill_form padded source keys form_data = inr form_data' →
  ∀ key,
    form_data' !! key
    = if decide (key ∈ keys)
      then (λ v, if decide (key ∈ padded) then pad_str v else v)
             <$> source !! key
      else form_data !! key.
Proof.
  revert form_data. induction keys as [|k keys IH]; intros form_data.
  - intros [= <-] key. rewrite decide_False; [done|]. apply not_elem_of_nil.
  - cbn [fill_form]. destruct (source !! k) as [v|] eqn:Hv; [|done].
    intros Hfill key. rewrite (IH _ Hfill key).
    destruct (decide (key ∈ keys)) as [Hin|Hnin].
    + destruct (decide (key ∈ k :: keys)) as [_|Hn]; [done|].
      destruct Hn. by right.
    + destruct (decide (key = k)) as [->|Hne].
      * destruct (decide (k ∈ k :: keys)) as [_|Hn]; [|by destruct Hn; left].
        by rewrite lookup_insert_eq, Hv.
      * destruct (decide (key ∈ k :: keys)) as [Hin|_].
        { apply elem_of_cons in Hin. tauto. }
        by rewrite lookup_insert_ne.
Qed.

Lemma fill_form_inr_Some (padded : list string) (source : gmap string string)
    (keys : list string) (form_data form_data' : gmap string string) :
  fill_form padded source keys form_data = inr form_data' →
  ∀ key, key ∈ keys → is_Some (source !! key).
Proof.
  revert form_data. induction keys as [|k keys IH]; intros form_data.
  - intros _ key Hin. by apply elem_of_nil in Hin.
  - cbn [fill_form]. destruct (source !! k) as [v|] eqn:Hv; [|done].
    intros Hfill key [->|Hin]%elem_of_cons; [by eexists|].
    by apply (IH _ Hfill).
Qed.

Lemma fill_form_inl (padded : list string) (source : gmap string string)
    (keys : list string) (form_data : gmap string string) (key : string) :
  fill_form padded source keys form_data = inl key →
  key ∈ keys ∧ source !! key = None.
Proof.
  revert form_data. induction keys as [|k keys IH]; intros form_data; [done|].
  cbn [fill_form]. destruct (source !! k) as [v|] eqn:Hv.
  - intros Hfill. destruct (IH _ Hfill). split; [by right|done].
  - intros [= <-]. split; [by left|done].
Qed.

Lemma fill_form_agree (padded : list string) (s1 s2 : gmap string string)
    (keys : list string) (form_data : gmap string string) :
  (∀ key, key ∈ keys → s1 !! key = s2 !! key) →
  fill_form padded s1 keys form_data = fill_form padded s2 keys form_data.
Proof.
  revert form_data. induction keys as [|k keys IH]; intros form_data Hagree;
    [done|].
  cbn [fill_form]. rewrite <- (Hagree k) by left.
  destruct (s1 !! k); [|done]. apply IH. intros key Hin. apply Hagree. by right.
Qed.

Lemma fill_form_cases (padded : list string) (source : gmap string string)
    (keys : list string) (form_data : gmap string string) :
  (∃ key, fill_form padded source keys form_data = inl key)
  ∨ (∃ form_data', fill_form padded source keys form_data = inr form_data').
Proof. destruct (fill_form _ _ _ _); eauto. Qed.

End Fill_form.

Section Comments_facts.
Context `{Models} `{Forms}.

Lemma elem_of_dict_order (key : string) (keys : list string) :
  key ∈ dict_order keys ↔ key ∈ keys.
Proof. by rewrite (dict_order_perm keys). Qed.

Lemma fill_form_missing (padded : list string) (source : gmap string string)
    (keys : list string) :
  (∃ key, key ∈ keys ∧ source !! key = None) →
  ∃ key, key ∈ keys ∧ source !! key = None
         ∧ fill_form padded source (dict_order keys) ∅ = inl key.
Proof.
  intros (key & Hin & Hnone).
  destruct (fill_form_cases padded source (dict_order keys) ∅)
    as [[k Hfill]|[form_data Hfill]].
  - destruct (fill_form_inl _ _ _ _ _ Hfill) as [Hk Hmiss].
    exists k. by rewrite <- elem_of_dict_order.
  - destruct (fill_form_inr_Some _ _ _ _ _ Hfill key) as [v Hv];
      [by apply elem_of_dict_order|congruence].
Qed.

Lemma fill_form_lookup (padded : list string) (source : gmap string string)
    (keys : list string) (form_data : gmap string string) (key : string) :
  fill_form padded source (dict_order keys) ∅ = inr form_data →
  key ∈ keys →
  ∃ v, source !! key = Some v
       ∧ form_data !! key
         = Some (if decide (key ∈ padded) then pad_str v else v).
Proof.
  intros Hfill Hin.
  destruct (fill_form_inr_Some _ _ _ _ _ Hfill key) as [v Hv];
    [by apply elem_of_dict_order|].
  exists v. split; [done|].
  rewrite (fill_form_inr _ _ _ _ _ Hfill key), Hv.
  destruct (decide (key ∈ dict_order keys)) as [_|Hn]; [done|].
  destruct Hn. by apply elem_of_dict_order.
Qed.

Lemma entry_of_form_agree (form_data form_data' : gmap string string) (d : DB) :
  entry_date_of form_data = entry_date_of form_data' →
  Py.int (default EmptyString (form_data !! "user"))
  = Py.int (default EmptyString (form_data' !! "user")) →
  entry_of_form form_data d = entry_of_form form_data' d.
Proof. unfold entry_of_form. by intros -> ->. Qed.

Lemma entry_of_form_Ok (form_data : gmap string string) (d : DB) entry :
  entry_of_form form_data d = Ok entry →
  ∃ entry_date user_id,
    DateField_to_python (entry_date_of form_data) = Some entry_date
    ∧ Py.int (default EmptyString (form_data !! "user")) = Some user_id
    ∧ entry_on d entry_date user_id = Ok entry.
Proof.
  unfold entry_of_form.
  destruct (DateField_to_python _) as [entry_date|]; [|done].
  destruct (Py.int _) as [user_id|]; [|done].
  intros Hon. by exists entry_date, user_id.
Qed.

End Comments_facts.

(** X9. The three comment views answer a request that lacks one of their keys
    with [success = False] and the error "Missing data: " followed by a key
    that the request lacks, and change nothing.  [get_comments] and
    [remove_comment] need [user], [year], [month] and [day]; [add_comment]
    needs [comment] as well. *)
Theorem comment_views_missing_data `{Models} `{Forms}
    (request : gmap string string) (w : World) :
  let four := ["user"; "year"; "month"; "day"] in
  let five := ["user"; "year"; "month"; "day"; "comment"] in
  ((∃ key, key ∈ four ∧ request !! key = None) →
     ∃ key, key ∈ four ∧ request !! key = None
            ∧ get_comments request w
              = (Ok {| c_success := false;
                       c_error := "Missing data: " +:+ key;
                       c_comment := EmptyString |}, w)
            ∧ remove_comment request w
              = (Ok {| success := false; error := "Missing data: " +:+ key;
                       calendar := None |}, w))
  ∧ ((∃ key, key ∈ five ∧ request !! key = None) →
       ∃ key, key ∈ five ∧ request !! key = None
              ∧ add_comment request w
                = (Ok {| success := false; error := "Missing data: " +:+ key;
                         calendar := None |}, w)).
Proof.
  intros four five. split; intros Hmiss.
  - destruct (fill_form_missing (dict_order four) request four Hmiss)
      as (key & Hin & Hnone & Hfill).
    exists key. do 2 (split; [done|]).
    unfold get_comments, remove_comment. cbv zeta. fold four.
    by rewrite Hfill.
  - destruct (fill_form_missing ["month"; "day"] request five Hmiss)
      as (key & Hin & Hnone & Hfill).
    exists key. do 2 (split; [done|]).
    unfold add_comment. cbv zeta. fold five. by rewrite Hfill.
Qed.

Section Comments_round_trip.
Context `{Models} `{Forms}.

(** The form that [get_comments] fills from a request asks for the row
    that [add_comment] asks for, if the two requests name the same user and
    day and [pad] leaves the year and the number of the user alone. *)
Lemma get_form_same_entry (GET POST : gmap string string)
    (form_data : gmap string string) :
  let four := ["user"; "year"; "month"; "day"] in
  let five := ["user"; "year"; "month"; "day"; "comment"] in
  (∀ key, key ∈ four → GET !! key = POST !! key) →
  (∀ year, POST !! "year" = Some year → pad_str year = year) →
  (∀ user, POST !! "user" = Some user → Py.int (pad_str user) = Py.int user) →
  fill_form ["month"; "day"] POST (dict_order five) ∅ = inr form_data →
  ∃ form_data',
    fill_form (dict_order four) GET (dict_order four) ∅ = inr form_data'
    ∧ ∀ d, entry_of_form form_data' d = entry_of_form form_data d.
Proof.
  intros four five Hagree Hyear Huser Hfill.
  assert (∀ key, key ∈ four → key ∈ five) as Hsub.
  { intros key. unfold four, five. rewrite !elem_of_cons. tauto. }
  destruct (fill_form_cases (dict_order four) GET (dict_order four) ∅)
    as [[k Hfill']|[form_data' Hfill']].
  { destruct (fill_form_inl _ _ _ _ _ Hfill') as [Hk Hnone].
    apply (proj1 (elem_of_dict_order _ _)) in Hk.
    destruct (fill_form_inr_Some _ _ _ _ _ Hfill k) as [v Hv];
      [apply (proj2 (elem_of_dict_order _ _)), Hsub, Hk|].
    rewrite Hagree in Hnone by done. congruence. }
  exists form_data'. split; [done|].
  assert (∀ key, key ∈ four →
            ∃ v, POST !! key = Some v
                 ∧ form_data' !! key = Some (pad_str v)
                 ∧ form_data !! key
                   = Some (if decide (key ∈ ["month"; "day"])
                           then pad_str v else v)) as Hkeys.
  { intros key Hin.
    destruct (fill_form_lookup _ _ _ _ key Hfill (Hsub key Hin))
      as (v & Hv & Hfd).
    destruct (fill_form_lookup _ _ _ _ key Hfill' Hin) as (v' & Hv' & Hfd').
    rewrite Hagree, Hv in Hv' by done. injection Hv' as <-.
    exists v. split; [done|]. split; [|done].
    rewrite Hfd'. destruct (decide (key ∈ dict_order four)) as [_|Hn]; [done|].
    destruct Hn. by apply elem_of_dict_order. }
  destruct (Hkeys "user") as (user & Hu & Hu' & Hu'');
    [unfold four; rewrite !elem_of_cons; tauto|].
  destruct (Hkeys "year") as (year & Hy & Hy' & Hy'');
    [unfold four; rewrite !elem_of_cons; tauto|].
  destruct (Hkeys "month") as (month & Hm & Hm' & Hm'');
    [unfold four; rewrite !elem_of_cons; tauto|].
  destruct (Hkeys "day") as (day & Hd & Hd' & Hd'');
    [unfold four; rewrite !elem_of_cons; tauto|].
  rewrite decide_False in Hu''
    by (rewrite !elem_of_cons, elem_of_nil; intros [|[|]]; done).
  rewrite decide_False in Hy''
    by (rewrite !elem_of_cons, elem_of_nil; intros [|[|]]; done).
  rewrite decide_True in Hm'' by (rewrite !elem_of_cons; tauto).
  rewrite decide_True in Hd'' by (rewrite !elem_of_cons; tauto).
  intros d. apply entry_of_form_agree.
  - unfold entry_date_of.
    rewrite Hy', Hy'', Hm', Hm'', Hd', Hd''. cbn [default].
    by rewrite (Hyear year Hy).
  - rewrite Hu', Hu''. cbn [default]. by apply Huser.
Qed.

End Comments_round_trip.

(** X10. A comment that [add_comment] has stored is the comment that
    [get_comments] returns: after a successful [add_comment], a
    [get_comments] request for the same user and day answers with the
    posted comment and changes nothing.  [add_comment] pads the month and
    the day only, [get_comments] pads the user and the year as well, so
    [pad] has to leave the posted year and the number of the posted user
    as they are. *)
Theorem add_comment_then_get_comments `{Models} `{Forms}
    (POST GET : gmap string string) (w : World) r w' :
  add_comment POST w = (Ok r, w') → success r = true →
  (∀ key, key ∈ ["user"; "year"; "month"; "day"] → GET !! key = POST !! key) →
  (∀ year, POST !! "year" = Some year → pad_str year = year) →
  (∀ user, POST !! "user" = Some user → Py.int (pad_str user) = Py.int user) →
  ∃ comment,
    POST !! "comment" = Some comment
    ∧ get_comments GET w'
      = (Ok {| c_success := true; c_error := EmptyString;
               c_comment := comment |}, w').
Proof.
  intros Hrun Hsucc Hagree Hyear Huser.
  unfold add_comment in Hrun. cbv zeta in Hrun.
  destruct (fill_form _ POST _ ∅) as [key|form_data] eqn:Hfill.
  { injection Hrun as <- <-. done. }
  destruct (fill_form_lookup _ _ _ _ "comment" Hfill) as (comment & Hc & Hfc);
    [rewrite !elem_of_cons; tauto|].
  rewrite decide_False in Hfc
    by (rewrite !elem_of_cons, elem_of_nil; intros [|[|]]; done).
  exists comment. split; [done|].
  destruct (get_form_same_entry GET POST form_data Hagree Hyear Huser Hfill)
    as (form_data' & Hfill' & Hsame).
  unfold bind, get_world in Hrun. cbv beta iota in Hrun.
  destruct (entry_of_form form_data (db w)) as [entry|err] eqn:Hentry.
  2:{ destruct err as [[]| | | | | | | | | | |];
        unfold ret, raise in Hrun; by simplify_eq/=. }
  rewrite Hfc in Hrun. cbn [default from_option id] in Hrun.
  destruct (save (with_comments comment entry) w) as [[saved|err] w1] eqn:Hsave;
    cbv beta iota in Hrun; [|done].
  unfold lift in Hrun.
  destruct (entry_of_form form_data (db w1)) as [entry2|err] eqn:Hentry2;
    cbv beta iota in Hrun; [|done].
  unfold ret in Hrun. injection Hrun as <- <-.
  unfold get_comments. cbv zeta. rewrite Hfill'.
  unfold bind, get_world. cbv beta iota. rewrite Hsame, Hentry2.
  unfold ret. do 2 f_equal.
  (* the row found afterwards is the row that was saved *)
  apply entry_of_form_Ok in Hentry as (entry_date & user_id & Hd & Hu & Hon).
  apply entry_of_form_Ok in Hentry2 as (entry_date' & user_id' & Hd' & Hu' & Hon').
  assert (entry_date' = entry_date) as -> by congruence.
  assert (user_id' = user_id) as -> by congruence.
  unfold entry_on in Hon, Hon'.
  apply objects_get_Ok in Hon as (k & Hk & HP).
  apply bool_decide_eq_true in HP as [Hdate Huid].
  unfold save in Hsave.
  destruct (constraint_violation _ _); [done|].
  cbn [with_comments te_id] in Hsave.
  destruct (te_id entry) as [k1|] eqn:Hid; injection Hsave as <- <-.
  - assert (with_comments comment entry = entry2) as <-; [|done].
    apply (objects_get_Ok_all _ _ _ _ Hon' k1);
      [|by apply bool_decide_eq_true].
    destruct w as [[] ? ? ? ?]. cbn. by rewrite lookup_insert_eq.
  - assert (with_id (Some (entry_seq (db w))) (with_comments comment entry)
            = entry2) as <-; [|done].
    apply (objects_get_Ok_all _ _ _ _ Hon' (entry_seq (db w)));
      [|by apply bool_decide_eq_true].
    destruct w as [[] ? ? ? ?]. cbn. by rewrite lookup_insert_eq.
Qed.

Lemma add_comment_then_get_comments_witness :
  let POST : gmap string string :=
    {["user" := "3"; "year" := "2012"; "month" := "2"; "day" := "6";
      "comment" := "late"]} in
  let GET : gmap string string :=
    {["user" := "3"; "year" := "2012"; "month" := "2"; "day" := "6"]} in
  let run := add_comment POST Fixture.world in
  get_comments GET run.2
  = (Ok {| c_success := true; c_error := EmptyString; c_comment := "late" |},
     run.2).
Proof.
  intros POST GET run.
  destruct (add_comment_then_get_comments POST GET Fixture.world
              {| success := true; error := EmptyString; calendar := None |}
              run.2)
    as (comment & Hc & Hget).
  - vm_compute. reflexivity.
  - reflexivity.
  - intros key Hin. rewrite !elem_of_cons, elem_of_nil in Hin.
    destruct Hin as [->|[->|[->|[->|[]]]]]; vm_compute; reflexivity.
  - intros year Hy. vm_compute in Hy. injection Hy as <-. reflexivity.
  - intros user Hu. vm_compute in Hu. injection Hu as <-. reflexivity.
  - assert (POST !! "comment" = Some "late") as Hlate by (vm_compute; reflexivity).
    rewrite Hlate in Hc. injection Hc as <-. exact Hget.
Defined.

(** X11. After a successful [remove_comment] a [get_comments] request for the
    same user and day answers with the empty comment, whether the entry
    existed or not, in a table whose rows carry their own keys. *)
Theorem remove_comment_then_get_comments `{Models} `{Forms}
    (POST GET : gmap string string) (w : World) r w' :
  keyed_by_id (entries (db w)) →
  remove_comment POST w = (Ok r, w') → success r = true →
  (∀ key, key ∈ ["user"; "year"; "month"; "day"] → GET !! key = POST !! key) →
  get_comments GET w'
  = (Ok {| c_success := true; c_error := EmptyString;
           c_comment := EmptyString |}, w').
Proof.
  intros Hkeyed Hrun Hsucc Hagree.
  unfold remove_comment in Hrun. unfold get_comments. cbv zeta in *.
  rewrite (fill_form_agree _ GET POST)
    by (intros key Hin; by apply Hagree, elem_of_dict_order).
  destruct (fill_form _ POST _ ∅) as [key|form_data] eqn:Hfill.
  { unfold ret in Hrun. by simplify_eq/=. }
  unfold bind, get_world in *. cbv beta iota in *.
  destruct (entry_of_form form_data (db w)) as [entry|err] eqn:Hentry.
  2:{ destruct err as [[]| | | | | | | | | | |];
        unfold ret, raise in Hrun; simplify_eq/=.
      by rewrite Hentry. }
  destruct (save (with_comments EmptyString entry) w) as [[saved|err] w1]
    eqn:Hsave; cbv beta iota in Hrun; [|done].
  unfold ret in Hrun. injection Hrun as <- <-.
  apply entry_of_form_Ok in Hentry as (entry_date & user_id & Hd & Hu & Hon).
  unfold entry_on in Hon.
  pose proof (objects_get_Ok_all _ _ _ _ Hon) as Hall.
  apply objects_get_Ok in Hon as (k & Hk & HP).
  pose proof (Hkeyed k entry Hk) as Hid.
  unfold save in Hsave.
  destruct (constraint_violation _ _); [done|].
  cbn [with_comments te_id] in Hsave. rewrite Hid in Hsave.
  injection Hsave as <- <-.
  unfold entry_of_form. rewrite Hd, Hu. unfold entry_on.
  rewrite (objects_get_unique _ _ _ k (with_comments EmptyString entry)).
  - done.
  - destruct w as [[] ? ? ? ?]. cbn. by rewrite lookup_insert_eq.
  - done.
  - intros k' e' Hk' HP'. destruct (decide (k' = k)) as [|Hne]; [done|].
    destruct w as [[] ? ? ? ?]. cbn in *.
    rewrite lookup_insert_ne in Hk' by done.
    rewrite (Hall k' e' Hk' HP') in Hk'.
    pose proof (Hkeyed k' entry Hk'). congruence.
Qed.

Lemma remove_comment_then_get_comments_witness :
  let request : gmap string string :=
    {["user" := "3"; "year" := "2012"; "month" := "2"; "day" := "6"]} in
  let run := remove_comment request Fixture.world in
  get_comments request run.2
  = (Ok {| c_success := true; c_error := EmptyString;
           c_comment := EmptyString |}, run.2).
Proof.
  intros request run.
  apply (remove_comment_then_get_comments request request Fixture.world
           {| success := true; error := EmptyString; calendar := None |}
           run.2).
  - exact fixture_keyed_by_id.
  - vm_compute. reflexivity.
  - reflexivity.
  - reflexivity.
Defined.

(** ** [delete_user], the other answers *)

(** X12. What [delete_user] does once the posted id is not the id of the
    session: without a posted id, or with an empty one, it answers "Missing
    user"; an id that is no number makes it raise [ValueError], since only
    [DoesNotExist] is caught; the number of no user is answered with "User
    does not exist" and a line in the error log; and the number of a user
    deletes that user and reports success. *)
Theorem delete_user_outcomes `{Models} (request : Request) (w : World) :
  ¬ same_as_strings request →
  (Py.truthy (POST request !! "user_id") = false →
     delete_user request w
     = (Ok {| success := false; error := "Missing user"; calendar := None |},
        w))
  ∧ (∀ s, POST request !! "user_id" = Some s → s ≠ EmptyString →
       match Py.int s with
       | None => delete_user request w = (Raise ValueError, w)
       | Some k =>
           match users (db w) !! k with
           | None =>
               delete_user request w
               = (Ok {| success := false; error := "User does not exist";
                        calendar := None |},
                  set_logs (λ l, l ++ ["Tried to delete non-existant user"]) w)
           | Some user =>
               delete_user request w
               = (Ok {| success := true; error := EmptyString;
                        calendar := None |},
                  set_db (λ d, delete_cascade user
                                 (set_users (base.delete (usr_id user)) d)) w)
           end
       end).
Proof.
  intros Hne. unfold same_as_strings in Hne. unfold delete_user.
  rewrite decide_False by done. split.
  - by intros ->.
  - intros s Hs Hs'. rewrite Hs. destruct s as [|c s]; [done|].
    cbn [Py.truthy Py.str_opt]. unfold bind, get_world, get_by_pk.
    destruct (Py.int (String c s)) as [k|]; [|done].
    destruct (users (db w) !! k) as [user|]; done.
Qed.

Lemma delete_user_outcomes_witness :
  delete_user {| POST := {["user_id" := "7"]}; session := {["user_id" := 1]} |}
              Fixture.world
  = (Ok {| success := false; error := "User does not exist";
           calendar := None |},
     set_logs (λ l, l ++ ["Tried to delete non-existant user"]) Fixture.world).
Proof.
  destruct (delete_user_outcomes
              {| POST := {["user_id" := "7"]}; session := {["user_id" := 1]} |}
              Fixture.world) as [_ Hposted].
  - vm_compute. discriminate.
  - apply (Hposted "7"); [reflexivity|discriminate].
Defined.

(** ** [ajax_change_entry], the guards and the exceptions *)

(** X13. The two checks on the posted times come before anything is read or
    written.  A missing or empty start or end time is answered with
    [success = False] and "Invalid time formats".  A start time that is
    not before the end time is answered with the error "Start time after
    end time", but with [success = True].  Times that [validate_time]
    cannot read make the view raise.  In all three cases nothing is
    changed. *)
Theorem ajax_change_entry_time_guards `{Models} `{Datemaps}
    (request : Request) (w : World) (user_id : Z) :
  session request !! "user_id" = Some user_id →
  let start := POST request !! "start_time" in
  let end_ := POST request !! "end_time" in
  (Py.truthy start && Py.truthy end_ = false →
     ajax_change_entry request w
     = (Ok {| success := false; error := "Invalid time formats";
              calendar := None |}, w))
  ∧ (Py.truthy start && Py.truthy end_ = true →
       (validate_time (Py.str_opt start) (Py.str_opt end_) = Ok false →
          ajax_change_entry request w
          = (Ok {| success := true; error := "Start time after end time";
                   calendar := None |}, w))
       ∧ (∀ err,
            validate_time (Py.str_opt start) (Py.str_opt end_) = Raise err →
            ajax_change_entry request w = (Raise err, w))).
Proof.
  intros Hsess start end_.
  destruct (get_request_data change_entry_form request)
    as [[form user_id']|] eqn:Hreq.
  2:{ unfold get_request_data in Hreq. by rewrite Hsess in Hreq. }
  destruct (get_request_data_field _ _ _ _ "start_time" Hreq) as [_ Hstart];
    [unfold change_entry_form; rewrite !elem_of_cons; tauto|done|].
  destruct (get_request_data_field _ _ _ _ "end_time" Hreq) as [_ Hend];
    [unfold change_entry_form; rewrite !elem_of_cons; tauto|done|].
  fold start in Hstart. fold end_ in Hend.
  split; [intros Ht|intros Ht; split; [intros Hv|intros err Hv]];
    unfold ajax_change_entry; rewrite Hreq;
    unfold bind at 1, lift at 1; cbv beta iota;
    rewrite Hstart, Hend, Ht; cbn [negb]; [done|..];
    unfold bind at 1, lift at 1; by rewrite Hv.
Qed.

Lemma ajax_change_entry_time_guards_witness :
  ajax_change_entry
    {| POST := {["start_time" := "17:00"; "end_time" := "09:00";
                 "hidden-id" := "10"]};
       session := {["user_id" := 3]} |} Fixture.world
  = (Ok {| success := true; error := "Start time after end time";
           calendar := None |}, Fixture.world).
Proof.
  destruct (ajax_change_entry_time_guards
              {| POST := {["start_time" := "17:00"; "end_time" := "09:00";
                           "hidden-id" := "10"]};
                 session := {["user_id" := 3]} |} Fixture.world 3)
    as [_ Hposted]; [reflexivity|].
  destruct Hposted as [Hlate _]; [reflexivity|].
  apply Hlate. vm_compute. reflexivity.
Defined.

(** X14. Whatever goes wrong while the entry is fetched, changed, validated
    and saved is answered, not raised: [ajax_change_entry] raises only
    what [get_request_data], [validate_time] or the split of the posted
    date raise, before anything is written, or what the generation of the
    calendar for the answer raises. *)
Theorem ajax_change_entry_raises_only `{Models} `{Datemaps}
    (request : Request) (w : World) err w' :
  ajax_change_entry request w = (Raise err, w') →
  (session request !! "user_id" = None ∧ err = KeyError "user_id" ∧ w' = w)
  ∨ (validate_time (Py.str_opt (POST request !! "start_time"))
                   (Py.str_opt (POST request !! "end_time")) = Raise err
     ∧ w' = w)
  ∨ (parse_ymd (POST request !! "entry_date") = Raise err ∧ w' = w)
  ∨ (∃ user_id year month day,
       session request !! "user_id" = Some user_id
       ∧ parse_ymd (POST request !! "entry_date") = Ok (year, month, day)
       ∧ gen_calendar (Some year) (Some month) (Some day) user_id w'
         = (Raise err, w')).
Proof.
  intros Hrun. unfold ajax_change_entry in Hrun.
  apply bind_run in Hrun as [([form user_id] & w0 & Hreq & Hrun)
                            |(e & Hreq & [= <-])].
  2:{ left. unfold lift, get_request_data in Hreq.
      destruct (session request !! "user_id"); [done|].
      by injection Hreq as <- <-. }
  injection Hreq as Hreq <-.
  assert (∀ key, key ∈ change_entry_form →
                 field form key = POST request !! key) as Hfield.
  { intros key Hin.
    assert (key ≠ "user_id") as Hne.
    { intros ->. unfold change_entry_form in Hin.
      rewrite !elem_of_cons, elem_of_nil in Hin.
      destruct Hin as [?|[?|[?|[?|[?|[?|[?|[]]]]]]]]; discriminate. }
    by destruct (get_request_data_field _ _ _ _ key Hreq Hin Hne). }
  destruct (get_request_data_field _ _ _ _ "link" Hreq) as [Hsess _];
    [unfold change_entry_form; rewrite !elem_of_cons; tauto|done|].
  rewrite !Hfield in Hrun
    by (unfold change_entry_form; rewrite !elem_of_cons; tauto).
  destruct (negb _); [done|].
  apply bind_run in Hrun as [(valid & w0 & Hvalid & Hrun)|(e & Hvalid & [= <-])].
  2:{ right. left. unfold lift in Hvalid. by injection Hvalid as -> <-. }
  injection Hvalid as Hvalid <-.
  destruct (negb valid); [done|].
  apply bind_run in Hrun as [([[year month] day] & w0 & Hymd & Hrun)
                            |(e & Hymd & [= <-])].
  2:{ right. right. left. unfold lift in Hymd. by injection Hymd as -> <-. }
  injection Hymd as Hymd <-.
  right. right. right. exists user_id, year, month, day.
  do 2 (split; [done|]).
  apply bind_run in Hrun as [(returned & w1 & Htry & Hrun)|(e & Htry & [= <-])].
  - destruct returned as [response|]; [done|].
    pose proof (gen_calendar_world (Some year) (Some month) (Some day)
                                   user_id w1) as Hw.
    apply bind_run in Hrun as [(calendar & w2 & Hcal & Hrun)|(e & Hcal & [= <-])];
      [done|].
    rewrite Hcal in Hw. simpl in Hw. by subst w1.
  - destruct (Py.truthy (POST request !! "hidden-id")); [|done].
    unfold try_except in Htry.
    destruct (change_entry_try _ _ _ _ _ w) as [[returned|e'] w1]; [done|].
    unfold bind, error_log, modify, ret in Htry. done.
Qed.

Lemma ajax_change_entry_raises_only_witness :
  let request := {| POST := {["start_time" := "09:00"; "end_time" := "17:00"]};
                    session := {["user_id" := 3]} |} in
  ajax_change_entry request Fixture.world = (Raise AttributeError, Fixture.world)
  ∧ parse_ymd (POST request !! "entry_date") = Raise AttributeError.
Proof.
  intros request.
  assert (ajax_change_entry request Fixture.world
          = (Raise AttributeError, Fixture.world)) as Hrun
    by (vm_compute; reflexivity).
  split; [exact Hrun|].
  destruct (ajax_change_entry_raises_only request Fixture.world AttributeError
              Fixture.world Hrun)
    as [(Hsess & _)|[(Hvalid & _)|[(Hymd & _)|(u & y & m & d & _ & Hymd & _)]]].
  - vm_compute in Hsess. discriminate.
  - vm_compute in Hvalid. discriminate.
  - exact Hymd.
  - vm_compute in Hymd. discriminate.
Defined.

(** ** [get_or_create_link] *)

(** X15. [get_or_create_link] is idempotent: the entry that a call returns is
    a row of the table afterwards, a [LINKD] entry of the user on the
    given date, and a second call returns the same entry and changes
    nothing, so no second link entry is made for the day. *)
Theorem get_or_create_link_idempotent `{Models} `{Datemaps} `{Json}
    (user : Tbluser) (date_ : string) (w : World) entry w1 :
  get_or_create_link user date_ w = (Ok entry, w1) →
  get_or_create_link user date_ w1 = (Ok entry, w1)
  ∧ te_user entry = usr_id user ∧ te_daytype entry = "LINKD"
  ∧ DateField_to_python date_ = Some (te_entry_date entry)
  ∧ ∃ k, entries (db w1) !! k = Some entry.
Proof.
  unfold get_or_create_link, bind, or_raise, get_world.
  destruct (DateField_to_python date_) as [d|]; unfold ret, raise;
    cbv beta iota; [|done].
  destruct (TimeField_to_python "00:00") as [zero|]; cbv beta iota; [|done].
  set (P := λ e : TrackingEntry, bool_decide _).
  destruct (objects_get MTrackingEntry P (entries (db w))) as [e0|err] eqn:Hget.
  - intros [= <- <-]. rewrite Hget.
    apply objects_get_Ok in Hget as (k & Hk & HP).
    apply bool_decide_eq_true in HP as (Hu & Hd & _ & _ & _ & Hdt).
    split; [done|]. do 2 (split; [done|]). split; [by rewrite Hd|]. by exists k.
  - destruct err as [m| | | | | | | | | | |]; try done.
    apply objects_get_DoesNotExist in Hget as [_ Hnone].
    unfold save at 1.
    destruct (constraint_violation (db w) _) as [msg|]; cbv beta iota; [done|].
    cbn [te_id]. cbv zeta.
    set (e1 := with_id _ _). unfold save.
    destruct (constraint_violation _ e1) as [msg|]; [done|].
    cbn [e1 with_id te_id]. fold e1.
    intros [= <- <-].
    assert (entries (db (set_db (set_entries <[entry_seq (db w) := e1]>)
                                (inserted e1 w)))
            = <[entry_seq (db w) := e1]> (entries (db w))) as Htbl.
    { destruct w as [[] ? ? ? ?]. cbn. apply insert_insert_eq. }
    assert (P e1 = true) as HP1 by (by apply bool_decide_eq_true).
    rewrite Htbl.
    rewrite (objects_get_unique _ P _ (entry_seq (db w)) e1).
    + do 4 (split; [done|]). exists (entry_seq (db w)).
      apply lookup_insert_eq.
    + apply lookup_insert_eq.
    + done.
    + intros k' e' Hk' HP'.
      destruct (decide (k' = entry_seq (db w))) as [|Hne]; [done|].
      rewrite lookup_insert_ne in Hk' by done.
      rewrite (Hnone k' e' Hk') in HP'. done.
Qed.

Lemma get_or_create_link_idempotent_witness :
  let first := get_or_create_link Fixture.employee "2012-02-07" Fixture.world in
  ∃ entry, first.1 = Ok entry
           ∧ get_or_create_link Fixture.employee "2012-02-07" first.2
             = (Ok entry, first.2)
           ∧ entries (db first.2) !! 12 = Some entry
           ∧ entries (db Fixture.world) !! 12 = None.
Proof.
  intros first. eexists. split; [vm_compute; reflexivity|].
  edestruct (get_or_create_link_idempotent Fixture.employee "2012-02-07"
               Fixture.world) as (Hagain & _); [vm_compute; reflexivity|].
  split; [exact Hagain|]. split; vm_compute; reflexivity.
Defined.

(** ** [gen_holiday_list], repeated calls *)

(** X16. On a cache that holds, for the viewer, the year and the month, only
    what would be regenerated from the database, [gen_holiday_list]
    returns what it returns on an empty cache, leaves everything but the
    cache as it was, and a second call with the same arguments returns the
    same again. *)
Theorem gen_holiday_list_repeatable `{Models} `{Datemaps}
    (admin_user : Tbluser) (year month : Z) (process : option string)
    (w : World) :
  cache_coherent (db w) admin_user year month (cache w) →
  subordinates_in_table (db w) admin_user →
  let first := gen_holiday_list admin_user (Some year) (Some month) process w in
  first.1
  = (gen_holiday_list admin_user (Some year) (Some month) process
                      (set_cache (λ _, ∅) w)).1
  ∧ (∃ c', first.2 = set_cache (λ _, c') w)
  ∧ (gen_holiday_list admin_user (Some year) (Some month) process first.2).1
    = first.1.
Proof.
  intros Hc Hsub first.
  destruct (gen_holiday_list_coherent admin_user year month process w ∅
              Hc (cache_coherent_empty _ _ _ _) Hsub)
    as [Hfirst (c' & Hw' & Hc')].
  fold first in Hfirst, Hw'.
  split; [done|]. split; [by exists c'|].
  rewrite Hfirst, Hw'.
  assert (set_cache (λ _, ∅) w = set_cache (λ _, ∅) (set_cache (λ _, c') w))
    as -> by by destruct w.
  apply gen_holiday_list_coherent;
    [by destruct w|apply cache_coherent_empty|by destruct w].
Qed.

Lemma gen_holiday_list_repeatable_witness :
  let first :=
    gen_holiday_list Fixture.admin (Some 2012) (Some 3) None Fixture.world in
  (gen_holiday_list Fixture.admin (Some 2012) (Some 3) None first.2).1 = first.1
  ∧ is_Some (cache first.2 !! row_key 3 2012).
Proof.
  intros first.
  destruct (gen_holiday_list_repeatable Fixture.admin 2012 3 None Fixture.world)
    as (_ & _ & Hagain).
  - apply cache_coherent_empty.
  - intros user Hu. vm_compute in Hu.
    apply list_elem_of_singleton in Hu as ->. reflexivity.
  - split; [exact Hagain|]. vm_compute. eauto.
Defined.

(** ** [mass_holidays], what it leaves alone *)

Section Mass_holidays_more.
Context `{Models} `{Datemaps} `{Json}.

(** A posted [LINKD] writes nothing, whatever the day and the user. *)
Lemma mass_holidays_day_linkd_world year month user_key sick_sent day w :
  (mass_holidays_day year month user_key sick_sent day "LINKD" w).2 = w.
Proof.
  unfold mass_holidays_day.
  destruct (decide (day = 0)); [done|].
  destruct (Py.int year) as [y|]; [|done].
  destruct (Py.int month) as [m|]; [|done].
  destruct (negb (c_int y && c_int m)); [done|].
  destruct (negb (valid_date y m day)); [done|].
  unfold bind, or_raise, get_world.
  destruct (DateField_to_python _) as [entry_date|]; [|done].
  destruct (Py.int user_key) as [user_id|]; [|done].
  unfold ret. cbv beta iota.
  destruct (entry_on (db w) entry_date user_id) as [e|err].
  - rewrite bool_decide_eq_false_2 by done. rewrite andb_false_r.
    rewrite decide_False by done. by rewrite decide_True by done.
  - destruct err as [[]| | | | | | | | | | |]; done.
Qed.

Lemma mass_holidays_day_index_0 year month user_key sick_sent daytype w :
  (mass_holidays_day year month user_key sick_sent 0 daytype w).2 = w.
Proof. unfold mass_holidays_day. by rewrite decide_True by done. Qed.

Lemma mass_holidays_days_ignored year month user_key daytypes :
  ∀ sick_sent day w,
    (∀ (i : nat) daytype, daytypes !! i = Some daytype →
                          day + Z.of_nat i = 0 ∨ daytype = "LINKD") →
    (mass_holidays_days year month user_key sick_sent day daytypes w).2 = w.
Proof.
  induction daytypes as [|daytype rest IH]; intros sick_sent day w Hall; [done|].
  cbn [mass_holidays_days]. unfold bind.
  assert ((mass_holidays_day year month user_key sick_sent day daytype w).2 = w)
    as Hstep.
  { destruct (Hall 0%nat daytype eq_refl) as [Hday| ->].
    - assert (day = 0) as -> by lia. apply mass_holidays_day_index_0.
    - apply mass_holidays_day_linkd_world. }
  destruct (mass_holidays_day _ _ _ _ _ _ w) as [[sick_sent'|err] w1];
    simpl in Hstep; subst w1; [|done].
  apply IH. intros i dt Hi.
  destruct (Hall (S i) dt Hi) as [Hday|Hdt]; [left; lia|by right].
Qed.

Lemma mass_holidays_users_ignored year month holidays :
  ∀ sick_sent w,
    (∀ user_key daytypes, (user_key, daytypes) ∈ holidays →
       ∀ (i : nat) daytype, daytypes !! i = Some daytype →
                            i = 0%nat ∨ daytype = "LINKD") →
    (mass_holidays_users year month sick_sent holidays w).2 = w.
Proof.
  induction holidays as [|[user_key daytypes] rest IH]; intros sick_sent w Hall;
    [done|].
  cbn [mass_holidays_users]. unfold bind.
  assert ((mass_holidays_days year month user_key sick_sent 0 daytypes w).2
          = w) as Hdays.
  { apply mass_holidays_days_ignored. intros i dt Hi.
    destruct (Hall user_key daytypes (list_elem_of_here _ _) i dt Hi);
      [left; lia|by right]. }
  destruct (mass_holidays_days _ _ _ _ _ _ w) as [[sick_sent'|err] w1];
    simpl in Hdays; subst w1; [|done].
  apply IH. intros u l Hin. apply (Hall u l). by right.
Qed.

End Mass_holidays_more.

(** X17. [mass_holidays] never looks at the first element of a posted array
    and never writes for a posted [LINKD]: a request whose arrays hold
    nothing but [LINKD] after their first element changes nothing,
    whatever the users, the year and the month, and whether the view
    returns or raises. *)
Theorem mass_holidays_linkd_changes_nothing `{Models} `{Datemaps} `{Json}
    (request : Request) (w : World) :
  (∀ holidays,
     simplejson_loads (POST request !! "mass_data") = Ok holidays →
     ∀ user_key daytypes, (user_key, daytypes) ∈ holidays →
       ∀ (i : nat) daytype, daytypes !! i = Some daytype →
                            i = 0%nat ∨ daytype = "LINKD") →
  (mass_holidays request w).2 = w.
Proof.
  intros Hall. unfold mass_holidays, bind, or_raise.
  destruct (POST request !! "year") as [year|]; [|done].
  destruct (POST request !! "month") as [month|]; [|done].
  unfold ret. cbv beta iota.
  destruct (simplejson_loads _) as [holidays|err]; [|done].
  pose proof (mass_holidays_users_ignored year month holidays false w
                (Hall holidays eq_refl)) as Hw.
  by destruct (mass_holidays_users _ _ _ _ w) as [[s|err] w1].
Qed.

(** X18. [mass_holidays] reads the year, the month and the posted data before
    it writes anything.  A request without [year] or without [month]
    raises [KeyError] for the key that is missing; posted data that
    [simplejson.loads] refuses is answered with [success = False] and the
    text of the exception.  Nothing is changed in either case. *)
Theorem mass_holidays_rejects_before_writing `{Models} `{Datemaps} `{Json}
    (request : Request) (w : World) :
  (POST request !! "year" = None → is_Some (POST request !! "month") →
     mass_holidays request w = (Raise (KeyError "year"), w))
  ∧ (is_Some (POST request !! "year") → POST request !! "month" = None →
       mass_holidays request w = (Raise (KeyError "month"), w))
  ∧ (is_Some (POST request !! "year") → is_Some (POST request !! "month") →
       ∀ err, simplejson_loads (POST request !! "mass_data") = Raise err →
              mass_holidays request w
              = (Ok {| success := false; error := str_exn err;
                       calendar := None |}, w)).
Proof.
  unfold mass_holidays, bind, or_raise.
  split; [|split].
  - by intros -> _.
  - by intros [year ->] ->.
  - intros [year ->] [month ->] err Herr. unfold ret. cbv beta iota.
    by rewrite Herr.
Qed.

Lemma mass_holidays_linkd_changes_nothing_witness :
  let request := {| POST := {["year" := "2012"; "month" := "2";
                              "mass_data" := Fixture_linkd.linkd_data]};
                    session := {["user_id" := 1]} |} in
  (mass_holidays (H1 := Fixture_linkd.linkd_json) request Fixture.world).2
  = Fixture.world
  ∧ simplejson_loads (Json := Fixture_linkd.linkd_json)
                     (POST request !! "mass_data")
    = Ok [("3", ["HOLIS"; "LINKD"; "LINKD"])].
Proof.
  intros request. split; [|vm_compute; reflexivity].
  apply (mass_holidays_linkd_changes_nothing (H1 := Fixture_linkd.linkd_json)).
  intros holidays Hloads user_key daytypes Hin i daytype Hi.
  assert (holidays = [("3", ["HOLIS"; "LINKD"; "LINKD"])]) as ->.
  { vm_compute in Hloads. by injection Hloads as <-. }
  apply list_elem_of_singleton in Hin. injection Hin as -> ->.
  destruct i as [|[|[|i]]]; [by left|right..|done].
  - by injection Hi as <-.
  - by injection Hi as <-.
Defined.

(** ** [gen_calendar], when it returns *)

Section Objects_get_count.
Context {A : Type}.

(** [get] returns a row only if the rows that match sit under one key. *)
Lemma objects_get_Ok_keys (m : model) (P : A → bool) (tbl : gmap Z A) (a : A) :
  objects_get m P tbl = Ok a →
  ∀ k1 k2 b1 b2, tbl !! k1 = Some b1 → tbl !! k2 = Some b2 →
                 P b1 = true → P b2 = true → k1 = k2.
Proof.
  unfold objects_get.
  destruct (map_to_list _) as [|[k0 a'] [|? ?]] eqn:Hl; try discriminate.
  intros _ k1 k2 b1 b2 Hk1 Hk2 HP1 HP2.
  assert (∀ k b, tbl !! k = Some b → P b = true → k = k0) as Hone.
  { intros k b Hk HP.
    assert ((k, b) ∈ map_to_list
              (filter (λ kv : Z * A, P kv.2 = true) tbl)) as Hin.
    { apply elem_of_map_to_list, map_lookup_filter_Some. done. }
    rewrite Hl in Hin. apply list_elem_of_singleton in Hin. congruence. }
  rewrite (Hone k1 b1), (Hone k2 b2); done.
Qed.

(** With at most one matching row [get] returns it or raises
    [DoesNotExist]. *)
Lemma objects_get_at_most_one (m : model) (P : A → bool) (tbl : gmap Z A) :
  (∀ k1 k2 b1 b2, tbl !! k1 = Some b1 → tbl !! k2 = Some b2 →
                  P b1 = true → P b2 = true → k1 = k2) →
  (∃ k a, objects_get m P tbl = Ok a ∧ tbl !! k = Some a)
  ∨ objects_get m P tbl = Raise (DoesNotExist m).
Proof.
  intros Hone. unfold objects_get.
  pose proof (NoDup_fst_map_to_list
                (filter (λ kv : Z * A, P kv.2 = true) tbl)) as Hnd.
  destruct (map_to_list _) as [|[k1 a1] [|[k2 a2] l]] eqn:Hl.
  - by right.
  - left. exists k1, a1. split; [done|].
    assert ((k1, a1) ∈ map_to_list
              (filter (λ kv : Z * A, P kv.2 = true) tbl)) as Hin
      by (rewrite Hl; left).
    by apply elem_of_map_to_list, map_lookup_filter_Some in Hin as [? _].
  - exfalso.
    assert (∀ k a, (k, a) ∈ (k1, a1) :: (k2, a2) :: l →
                   tbl !! k = Some a ∧ P a = true) as Hin.
    { intros k a Hka. rewrite <- Hl in Hka.
      by apply elem_of_map_to_list, map_lookup_filter_Some in Hka. }
    destruct (Hin k1 a1) as [Hk1 HP1]; [left|].
    destruct (Hin k2 a2) as [Hk2 HP2]; [right; left|].
    assert (k1 = k2) as -> by eauto.
    cbn in Hnd. apply NoDup_cons in Hnd as [Hnotin _].
    apply Hnotin. left.
Qed.

End Objects_get_count.

Section Calendar_returns.
Context `{Models} `{Datemaps}.

Lemma link_text_Ok (d : DB) (e : TrackingEntry) :
  (is_linked d e = true → te_daytype e ≠ "LINKD" → is_Some (resolve_link d e)) →
  ∃ linked, link_text d e = Ok linked.
Proof.
  intros Hlink. unfold link_text.
  destruct (is_linked d e); [|by eexists].
  destruct (bool_decide (te_daytype e = "LINKD")) eqn:Hdt; [by eexists|].
  apply bool_decide_eq_false in Hdt. cbn [negb andb].
  destruct (Hlink eq_refl Hdt) as [l Hl]. rewrite Hl.
  unfold resolve_link in Hl. destruct (te_link e); [by eexists|done].
Qed.

Lemma calendar_cell_Ok (d : DB) (u year month _day : Z) :
  one_entry_per_day (entries d) → links_resolve d →
  ∃ cell, calendar_cell d (month_entries d u year month) year month _day
          = Ok cell.
Proof.
  intros Hone Hlinks. unfold calendar_cell.
  destruct (objects_get_at_most_one MTrackingEntry
              (λ e, bool_decide (dday (te_entry_date e) = _day))
              (month_entries d u year month)) as [(k & data & -> & Hk)| ->].
  - intros k1 k2 e1 e2 Hk1 Hk2 Hd1 Hd2.
    apply map_lookup_filter_Some in Hk1 as (Hk1 & Hu1 & Hy1 & Hm1).
    apply map_lookup_filter_Some in Hk2 as (Hk2 & Hu2 & Hy2 & Hm2).
    apply bool_decide_eq_true in Hd1. apply bool_decide_eq_true in Hd2.
    simpl in *. apply (Hone k1 k2 e1 e2); [done|done|congruence|].
    destruct (te_entry_date e1), (te_entry_date e2). simpl in *. congruence.
  - apply map_lookup_filter_Some in Hk as [Hk _].
    destruct (link_text_Ok d data) as [linked ->]; [by apply (Hlinks k)|].
    by eexists.
  - by eexists.
Qed.

Lemma calendar_week_Ok (d : DB) (u year month : Z) (week_ : list Z) :
  one_entry_per_day (entries d) → links_resolve d →
  ∃ cells, calendar_week d (month_entries d u year month) year month week_
           = Ok cells.
Proof.
  intros Hone Hlinks. induction week_ as [|_day rest [cells IH]];
    [by eexists|].
  cbn [calendar_week].
  destruct (calendar_cell_Ok d u year month _day Hone Hlinks) as [cell ->].
  rewrite IH. by eexists.
Qed.

Lemma calendar_weeks_Ok (d : DB) (u year month : Z)
    (calendar_array : list (list Z)) :
  one_entry_per_day (entries d) → links_resolve d →
  ∃ rows, calendar_weeks d (month_entries d u year month) year month
                         calendar_array = Ok rows.
Proof.
  intros Hone Hlinks. induction calendar_array as [|week_ rest [rows IH]];
    [by eexists|].
  cbn [calendar_weeks].
  destruct (calendar_week_Ok d u year month week_ Hone Hlinks) as [cells ->].
  rewrite IH. by eexists.
Qed.

(** A calendar was returned only if every cell could be made. *)
Lemma calendar_week_cells (d : DB) (database : gmap Z TrackingEntry)
    (year month : Z) (week_ : list Z) cells :
  calendar_week d database year month week_ = Ok cells →
  ∀ _day, _day ∈ week_ →
          ∃ cell, calendar_cell d database year month _day = Ok cell.
Proof.
  revert cells. induction week_ as [|x rest IH]; intros cells Hweek _day Hin.
  { by apply elem_of_nil in Hin. }
  cbn [calendar_week] in Hweek.
  destruct (calendar_cell d database year month x) as [cell|] eqn:Hcell;
    [|done].
  destruct (calendar_week d database year month rest) as [cells'|]; [|done].
  apply elem_of_cons in Hin as [->|Hin]; [by eexists|].
  by apply (IH cells').
Qed.

Lemma calendar_weeks_cells (d : DB) (database : gmap Z TrackingEntry)
    (year month : Z) (calendar_array : list (list Z)) rows :
  calendar_weeks d database year month calendar_array = Ok rows →
  ∀ _day, _day ∈ concat calendar_array →
          ∃ cell, calendar_cell d database year month _day = Ok cell.
Proof.
  revert rows. induction calendar_array as [|week_ rest IH];
    intros rows Hweeks _day Hin.
  { by apply elem_of_nil in Hin. }
  cbn [calendar_weeks] in Hweeks. cbn [concat] in Hin.
  destruct (calendar_week d database year month week_) as [cells|] eqn:Hweek;
    [|done].
  destruct (calendar_weeks d database year month rest) as [more|]; [|done].
  apply elem_of_app in Hin as [Hin|Hin].
  - by apply (calendar_week_cells _ _ _ _ _ _ Hweek).
  - by apply (IH more).
Qed.

Lemma day_in_monthcalendar (year month _day : Z) weeks :
  monthcalendar year month = Some weeks →
  1 ≤ _day ≤ days_in_month year month → _day ∈ concat weeks.
Proof.
  unfold monthcalendar. destruct (valid_month year month); [|done].
  intros [= <-] Hday. rewrite concat_chunks by lia.
  assert (_day ∈ filter (λ x : Z, 0 < x) (itermonthdays year month)) as Hin.
  { rewrite filter_pos_itermonthdays. apply elem_of_zrange. lia. }
  by apply list_elem_of_filter in Hin as [_ Hin].
Qed.

End Calendar_returns.

(** X19. In a database where nobody has two tracking entries on one day and
    the links of linked entries lead somewhere, [gen_calendar] returns a
    calendar for every user of the table and every month from 1 to 12 of a
    year from 1 to 9999 that [MONTH_MAP] names, and changes nothing. *)
Theorem gen_calendar_returns `{Models} `{Datemaps}
    (year month : Z) (day : option Z) (user : Z) (w : World) :
  is_Some (MONTH_MAP !! (month - 1)) →
  valid_month year month = true →
  is_Some (users (db w) !! user) →
  one_entry_per_day (entries (db w)) →
  links_resolve (db w) →
  ∃ html, gen_calendar (Some year) (Some month) day user w = (Ok html, w).
Proof.
  intros [month_name Hname] Hvalid [u Hu] Hone Hlinks.
  unfold gen_calendar, bind, get_world, or_raise.
  cbn [default from_option id]. cbv beta iota.
  rewrite decide_True by (by eexists).
  rewrite Hu. unfold ret. cbv beta iota.
  unfold monthcalendar. rewrite Hvalid. rewrite Hname. cbn [fmap option_fmap option_map].
  unfold lift.
  destruct (calendar_weeks_Ok (db w) (usr_id u) year month
              (chunks (length (itermonthdays year month)) 7
                      (itermonthdays year month)) Hone Hlinks) as [rows ->].
  by eexists.
Qed.

Lemma gen_calendar_returns_witness :
  ∃ html, gen_calendar (Some 2012) (Some 2) None 3 Fixture.world
          = (Ok html, Fixture.world).
Proof.
  apply (gen_calendar_returns 2012 2 None 3 Fixture.world).
  - vm_compute. eauto.
  - reflexivity.
  - vm_compute. eauto.
  - intros k1 k2 e1 e2 Hk1 Hk2 _ Hdate.
    change (entries (db Fixture.world))
      with (<[10 := Fixture.workday]> (<[11 := Fixture.holiday]>
              (∅ : gmap Z TrackingEntry))) in Hk1, Hk2.
    repeat match goal with
           | Hk : <[_ := _]> _ !! _ = Some _ |- _ =>
               apply lookup_insert_Some in Hk as [[<- <-]|[_ Hk]]
           | Hk : ∅ !! _ = Some _ |- _ => by rewrite lookup_empty in Hk
           end; try done.
  - intros k e Hk Hlinked. vm_compute in Hlinked.
    change (entries (db Fixture.world))
      with (<[10 := Fixture.workday]> (<[11 := Fixture.holiday]>
              (∅ : gmap Z TrackingEntry))) in Hk.
    repeat match goal with
           | Hk : <[_ := _]> _ !! _ = Some _ |- _ =>
               apply lookup_insert_Some in Hk as [[<- <-]|[_ Hk]]
           | Hk : ∅ !! _ = Some _ |- _ => by rewrite lookup_empty in Hk
           end; try done.
Defined.

(** X20. Two tracking entries of a user on one day break the calendar of that
    month: [gen_calendar] catches [DoesNotExist] for a day without an
    entry but not the exception for a day with several, so it raises for
    the whole month, and returns no calendar. *)
Theorem gen_calendar_duplicate_day_raises `{Models} `{Datemaps}
    (year month d : Z) (day : option Z) (user : Z) (w : World)
    (u : Tbluser) (k1 k2 : Z) (e1 e2 : TrackingEntry) :
  users (db w) !! user = Some u →
  entries (db w) !! k1 = Some e1 → entries (db w) !! k2 = Some e2 → k1 ≠ k2 →
  te_user e1 = usr_id u → te_user e2 = usr_id u →
  te_entry_date e1 = mkdate year month d →
  te_entry_date e2 = mkdate year month d →
  valid_date year month d = true →
  ∃ err, gen_calendar (Some year) (Some month) day user w = (Raise err, w).
Proof.
  intros Hu Hk1 Hk2 Hne Hu1 Hu2 Hd1 Hd2 Hvalid.
  pose proof (gen_calendar_world (Some year) (Some month) day user w) as Hw.
  destruct (gen_calendar (Some year) (Some month) day user w)
    as [[html|err] w'] eqn:Hrun; simpl in Hw; subst w'; [|by exists err].
  exfalso. revert Hrun.
  unfold gen_calendar, bind, get_world, or_raise.
  cbn [default from_option id]. cbv beta iota.
  destruct (decide _); [|done].
  rewrite Hu. unfold ret, raise. cbv beta iota.
  destruct (monthcalendar year month) as [weeks|] eqn:Hcal; [|done].
  destruct (snd <$> MONTH_MAP !! (month - 1)); cbv beta iota; [|done].
  unfold lift.
  destruct (calendar_weeks _ _ _ _ weeks) as [rows|] eqn:Hweeks; [|done].
  intros _.
  assert (1 ≤ d ≤ days_in_month year month) as Hday
    by (unfold valid_date in Hvalid; lia).
  destruct (calendar_weeks_cells _ _ _ _ _ _ Hweeks d
              (day_in_monthcalendar _ _ _ _ Hcal Hday)) as [cell Hcell].
  assert (∀ k e, entries (db w) !! k = Some e → te_user e = usr_id u →
                 te_entry_date e = mkdate year month d →
                 month_entries (db w) (usr_id u) year month !! k = Some e
                 ∧ bool_decide (dday (te_entry_date e) = d) = true) as Hrow.
  { intros k e Hk Hue Hde. split.
    - apply map_lookup_filter_Some. split; [done|]. simpl. by rewrite Hde.
    - apply bool_decide_eq_true. by rewrite Hde. }
  destruct (Hrow k1 e1 Hk1 Hu1 Hd1) as [Hm1 HP1].
  destruct (Hrow k2 e2 Hk2 Hu2 Hd2) as [Hm2 HP2].
  unfold calendar_cell in Hcell.
  destruct (objects_get _ _ _) as [data|e] eqn:Hget.
  - apply Hne.
    apply (objects_get_Ok_keys _ _ _ _ Hget k1 k2 e1 e2 Hm1 Hm2 HP1 HP2).
  - destruct e as [[]| | | | | | | | | | |]; try done.
    apply objects_get_DoesNotExist in Hget as [_ Hnone].
    rewrite (Hnone k1 e1 Hm1) in HP1. done.
Qed.

Lemma gen_calendar_duplicate_day_raises_witness :
  let w := set_db (set_entries
                     <[12 := Fixture.mkentry 12 3 (mkdate 2012 2 6) (mktime 8 0 0)
                                             (mktime 12 0 0) "WKDAY" None]>)
                  Fixture.world in
  ∃ err, gen_calendar (Some 2012) (Some 2) None 3 w = (Raise err, w).
Proof.
  intros w.
  apply (gen_calendar_duplicate_day_raises 2012 2 6 None 3 w Fixture.employee
           10 12 Fixture.workday
           (Fixture.mkentry 12 3 (mkdate 2012 2 6) (mktime 8 0 0)
                            (mktime 12 0 0) "WKDAY" None));
    (reflexivity || discriminate).
Defined.

(** ** [mass_holidays], deleting a day *)

Section Objects_get_none.
Context {A : Type}.


End Objects_get_none.



